(** * hdf2mic: a shallow embedding of the reader, the data model, the rotation
    transform and the writers

    The development follows the Python sources of the converter:
    - [hdf2mic/exceptions.py]  the exception classes,
    - [hdf2mic/reader.py]      [Reader] (HDF5 look-up and the property setters),
    - [hdf2mic/data.py]        [Data] (the validated in-memory model),
    - [hdf2mic/rotMat.py]      the Euler-angle rotation,
    - [hdf2mic/writer_vtk.py]  the header of the structured-grid writer,
    - [hdf2mic/writer_dri.py]  the tag substitution of the driving file.

    Conventions.  Python [int]s are unbounded integers [Z].  The entries of a
    NumPy integer array are 64-bit integers, held in [Z]: [astype(int)] and
    [np.product] give their results in the 64-bit range ([Np.wrap64]); the
    point counts [d + 1] and the cell counts [d - 1] are taken as the
    integers they are, which is what the 64-bit operations give for every
    count that is not at the edge of that range.  Python floats and NumPy
    floating arrays are idealised as real numbers [R]: [math.sin],
    [math.cos], [math.asin], [math.acos],
    [math.sqrt] and [math.pi] are the real functions and the real constant, so
    rounding is outside the model.  Python [str] values are [string]s of
    bytes, compared bytewise as Python 2 does.  An exception is a value of
    [exn]; code that may raise returns a [result]. *)

From Stdlib Require Import List Bool Arith ZArith Lia String Ascii.
From Stdlib Require Import Sorted Permutation.
From Stdlib Require Import DecimalString.
From Stdlib Require Import Reals Lra.
Import ListNotations.

Set Implicit Arguments.

Local Open Scope string_scope.
Local Open Scope list_scope.

(** ** NumPy arrays

    An array is its shape and its elements in row-major order. *)

Record ndarray : Type := NdArray {
  shape : list nat;
  flat : list R
}.

(** ** Exceptions (exceptions.py and the built-in ones the code raises) *)

(** The two messages of [Hdf2Mic_DrivingFileTaggingError] in writer_dri.py. *)
Inductive tagging_msg : Type :=
| EmptyTemplate (inputfile_template : string)
| MissingOutputFile (outfile : string).

(** The messages of [Hdf2Mic_HDF5DatasetDimensionError] in data.py: the one of
    [_compare_angles_phases] is formatted with the two compared columns, the
    one of the [celldata] setter with the name of the offending array. *)
Inductive dimension_msg : Type :=
| AnglesPhasesMismatch (angles_column phases_column : ndarray)
| CellDataDimension (dataName : string).

(** The [ValueError]s: the non-cubic spacing of [Data.spacing] (formatted with
    the offending array) and a failed sequence unpacking. *)
Inductive value_msg : Type :=
| NonCubicCells (value : list R)
| Unpack.

Inductive exn : Type :=
| Hdf2Mic_InitArgError (msg : string)
| Hdf2Mic_HDF5DatasetDimensionError (msg : dimension_msg)
| Hdf2Mic_HDF5DatasetNotFoundError (h5path : string)
| Hdf2Mic_DrivingFileTaggingError (msg : tagging_msg)
| ValueError (msg : value_msg)
| TypeError (msg : string)
| KeyError (key : string)
| IndexError
| AssertionError.

Inductive result (A : Type) : Type :=
| Ok (a : A)
| Raise (e : exn).

Arguments Ok {A} a.
Arguments Raise {A} e.

Definition bind {A B : Type} (m : result A) (k : A -> result B) : result B :=
  match m with
  | Ok a => k a
  | Raise e => Raise e
  end.

Notation "x <- m ;; k" := (bind m (fun x => k))
  (at level 61, m at next level, right associativity).

(** The message of the [Hdf2Mic_InitArgError] that the setters of reader.py
    raise from their [except AttributeError] handlers (its first sentence). *)
Definition EXCEPTIONS_INITARG : string :=
  "Tried to init reader attributes outside a with-statement.".

Fixpoint mapM {A B : Type} (f : A -> result B) (l : list A) : result (list B) :=
  match l with
  | [] => Ok []
  | a :: l' => b <- f a ;; bs <- mapM f l' ;; Ok (b :: bs)
  end.

(** [for i in range(n): body(i)], stopping at the first exception. *)
Fixpoint for_range_from (start n : nat) (body : nat -> result unit) : result unit :=
  match n with
  | O => Ok tt
  | S n' => _ <- body start ;; for_range_from (S start) n' body
  end.

Definition for_range (n : nat) (body : nat -> result unit) : result unit :=
  for_range_from 0 n body.

(** ** The HDF5 source: [Reader.dset] (reader.py, lines 598-628) *)

Module H5.

(** What [h5py.File.get] hands back: the root or another group, or a dataset
    with its content. *)
Inductive h5obj (A : Type) : Type :=
| Group
| Dataset (content : A).

Arguments Group {A}.
Arguments Dataset {A} content.

(** An opened file, seen through [self._f.get]. *)
Definition h5file (A : Type) : Type := string -> option (h5obj A).

(** The outcome of one look-up: the paths handed to [self._f.get], in order,
    and what [dset] returns or raises. *)
Record lookup (A : Type) : Type := Lookup {
  queried : list string;
  outcome : result (option (h5obj A))
}.

Definition dset {A : Type} (f : h5file A) (h5path : string) (safe : bool) : lookup A :=
  if ((h5path =? "/") || (h5path =? "")) && safe then
    Lookup [] (Ok None)
  else
    match f h5path with
    | Some d => Lookup [h5path] (Ok (Some d))
    | None =>
        if negb safe then Lookup [h5path] (Raise (Hdf2Mic_HDF5DatasetNotFoundError h5path))
        else Lookup [h5path] (Ok None)
    end.

(** [obj[...]]: the content of a dataset; a group has no such item. *)
Definition read_all {A : Type} (o : h5obj A) : result A :=
  match o with
  | Dataset a => Ok a
  | Group => Raise (TypeError "Accessing a group is done with bytes or str")
  end.

(** [self.dset(path)[...]] for a mandatory path. *)
Definition dset_content {A : Type} (f : h5file A) (h5path : string) : result A :=
  o <- outcome (dset f h5path false) ;;
  match o with
  | Some d => read_all d
  | None => Raise (TypeError "NoneType")
  end.

(** A path is treated as absent when [dset] returns [None] without asking
    the file. *)
Definition treated_as_absent {A : Type} (f : h5file A) (h5path : string)
    (safe : bool) : Prop :=
  dset f h5path safe = Lookup [] (Ok None).

(** A file that holds nothing but its root group. *)
Definition root_only : h5file unit :=
  fun h5path => if h5path =? "/" then Some Group else None.

End H5.

(** ** The rotation transform (rotMat.py) *)

Module RotMat.

Local Open Scope R_scope.

(** A 3x3 [np.array], row by row. *)
Inductive mat3 : Type :=
| Mat3 (a00 a01 a02 a10 a11 a12 a20 a21 a22 : R).

(** [np.dot] on 3x3 matrices. *)
Definition dot (A B : mat3) : mat3 :=
  match A, B with
  | Mat3 a00 a01 a02 a10 a11 a12 a20 a21 a22,
    Mat3 b00 b01 b02 b10 b11 b12 b20 b21 b22 =>
      Mat3 (a00 * b00 + a01 * b10 + a02 * b20)
           (a00 * b01 + a01 * b11 + a02 * b21)
           (a00 * b02 + a01 * b12 + a02 * b22)
           (a10 * b00 + a11 * b10 + a12 * b20)
           (a10 * b01 + a11 * b11 + a12 * b21)
           (a10 * b02 + a11 * b12 + a12 * b22)
           (a20 * b00 + a21 * b10 + a22 * b20)
           (a20 * b01 + a21 * b11 + a22 * b21)
           (a20 * b02 + a21 * b12 + a22 * b22)
  end.

(** [np.transpose]. *)
Definition transpose (A : mat3) : mat3 :=
  match A with
  | Mat3 a00 a01 a02 a10 a11 a12 a20 a21 a22 =>
      Mat3 a00 a10 a20 a01 a11 a21 a02 a12 a22
  end.

(** [np.identity(3)]. *)
Definition identity3 : mat3 := Mat3 1 0 0 0 1 0 0 0 1.

(** [A - B], elementwise. *)
Definition sub (A B : mat3) : mat3 :=
  match A, B with
  | Mat3 a00 a01 a02 a10 a11 a12 a20 a21 a22,
    Mat3 b00 b01 b02 b10 b11 b12 b20 b21 b22 =>
      Mat3 (a00 - b00) (a01 - b01) (a02 - b02)
           (a10 - b10) (a11 - b11) (a12 - b12)
           (a20 - b20) (a21 - b21) (a22 - b22)
  end.

(** [np.linalg.norm] of a matrix: the Frobenius norm. *)
Definition norm (A : mat3) : R :=
  match A with
  | Mat3 a00 a01 a02 a10 a11 a12 a20 a21 a22 =>
      sqrt (a00 * a00 + a01 * a01 + a02 * a02
            + a10 * a10 + a11 * a11 + a12 * a12
            + a20 * a20 + a21 * a21 + a22 * a22)
  end.

(** The comparisons of Python floats, as booleans. *)
Definition Rltb (x y : R) : bool := if Rlt_dec x y then true else false.
Definition Rgtb (x y : R) : bool := if Rgt_dec x y then true else false.

(** The elemental rotations and the two axis permutations that
    [eulerAnglesToRotationMatrix] builds as local arrays. *)

(** z *)
Definition R0 (phi : R) : mat3 :=
  Mat3 (cos phi) (- sin phi) 0
       (sin phi) (cos phi) 0
       0 0 1.

(** x' *)
Definition R1 (theta : R) : mat3 :=
  Mat3 1 0 0
       0 (cos theta) (- sin theta)
       0 (sin theta) (cos theta).

(** z'' *)
Definition R2 (psi : R) : mat3 :=
  Mat3 (cos psi) (- sin psi) 0
       (sin psi) (cos psi) 0
       0 0 1.

Definition Ram : mat3 :=
  Mat3 1 0 0
       0 0 1
       0 (-1) 0.

Definition Rma : mat3 :=
  Mat3 1 0 0
       0 0 (-1)
       0 1 0.

(** [REuler = np.dot(np.dot(R0, R1), R2)]. *)
Definition REuler (phi theta psi : R) : mat3 :=
  dot (dot (R0 phi) (R1 theta)) (R2 psi).

Definition eulerAnglesToRotationMatrix (eulerRad : list R) (toMicress : bool)
  : result mat3 :=
  match eulerRad with
  | [phi; theta; psi] =>
      let (Ram, Rma) := if negb toMicress then (Rma, Ram) else (Ram, Rma) in
      Ok (dot (dot Rma (REuler phi theta psi)) Ram)
  | _ => Raise (ValueError Unpack)
  end.

(** Checks if a matrix is a valid rotation matrix. *)
Definition isRotationMatrix (Rm : mat3) : bool :=
  let Rt := transpose Rm in
  let shouldBeIdentity := dot Rt Rm in
  let n := norm (sub identity3 shouldBeIdentity) in
  Rltb n 1e-6.

(** [if x > 1: x = 1] followed by [if x < -1: x = -1]; the source writes the
    two tests out for [cosTheta], [sinPhi] (twice) and [sinPsi]. *)
Definition clamp (x : R) : R :=
  let x := if Rgtb x 1 then 1 else x in
  if Rltb x (-1) then -1 else x.

(** The recovery of one angle from its sine and cosine, which the source
    writes out three times (lines 98-106, 114-122 and 128-136) with the
    tolerance [5e-3] for [phi] and [1e-3] for [psi]. *)
Definition angle_of_sin_cos (tol sinX cosX : R) : R :=
  let sinX := clamp sinX in
  let x := asin sinX in
  let x := if Rgtb (Rabs (cos x - cosX)) tol then PI - x else x in
  if Rgtb x (PI + 1e-6) then x - 2 * PI else x.

(** [if x < 0: x += 2 * math.pi]. *)
Definition fold_negative (x : R) : R :=
  if Rltb x 0 then x + 2 * PI else x.

Definition rotationMatrixToEulerAngles (Rm : mat3) : result (list R) :=
  if negb (isRotationMatrix Rm) then Raise AssertionError else
  match Rm with
  | Mat3 r00 r01 r02 r10 r11 r12 r20 r21 r22 =>
      (* Bestimmung von theta *)
      let cosTheta := clamp r22 in
      let sinTheta := sqrt (1 - cosTheta * cosTheta) in
      let theta := acos cosTheta in
      let '(phi, theta, psi) :=
        if Rltb (Rabs sinTheta) 1e-5 then
          (* Sonderfall theta = 0 *)
          (angle_of_sin_cos 5e-3 r10 r00, 0, 0)
        else
          (* Bestimmung von phi, Bestimmung von psi *)
          (angle_of_sin_cos 5e-3 (r02 / sinTheta) (- r12 / sinTheta),
           theta,
           angle_of_sin_cos 1e-3 (r20 / sinTheta) (r21 / sinTheta)) in
      let phi := fold_negative phi in
      let theta := fold_negative theta in
      let psi := fold_negative psi in
      Ok [phi / (PI / 180); theta / (PI / 180); psi / (PI / 180)]
  end.

(** One turn of the loop of [rotate]: degrees to radians, then the shift of a
    negative value. *)
Definition to_radians (val : R) : R :=
  let val := val * PI / 180 in
  if Rltb val 0 then val + 2 * PI else val.

(** external interface function *)
Definition rotate (eulerDegree : list R) (toMICRESS : bool) : result (list R) :=
  let eulerRad := map to_radians eulerDegree in
  Rm <- eulerAnglesToRotationMatrix eulerRad toMICRESS ;;
  rotationMatrixToEulerAngles Rm.

(** *** Notions used to state the properties of the rotation *)

(** The matrix of cofactors. *)
Definition cofactor (A : mat3) : mat3 :=
  match A with
  | Mat3 a00 a01 a02 a10 a11 a12 a20 a21 a22 =>
      Mat3 (a11 * a22 - a12 * a21) (a12 * a20 - a10 * a22) (a10 * a21 - a11 * a20)
           (a02 * a21 - a01 * a22) (a00 * a22 - a02 * a20) (a01 * a20 - a00 * a21)
           (a01 * a12 - a02 * a11) (a02 * a10 - a00 * a12) (a00 * a11 - a01 * a10)
  end.

(** A proper rotation: orthogonal, and equal to its matrix of cofactors. *)
Definition rotation (M : mat3) : Prop :=
  dot (transpose M) M = identity3
  /\ dot M (transpose M) = identity3
  /\ cofactor M = M.

(** Two angles in degrees agree within [tol] after folding into one turn. *)
Definition close_mod_360 (tol x y : R) : Prop :=
  exists k : Z, Rabs (x - y - 360 * IZR k) <= tol.

(** The round trip of a triple reproduces it within [tol] degrees. *)
Definition roundtrip_within (tol : R) (v : list R) : Prop :=
  exists w u,
    rotate v true = Ok w /\ rotate w false = Ok u
    /\ Forall2 (close_mod_360 tol) u v.

(** The middle angle is degenerate for [rotationMatrixToEulerAngles] when its
    sine is below [1e-5] in absolute value. *)
Definition degenerate (theta : R) : Prop :=
  Rabs (sin (theta * PI / 180)) < 1e-5.

(** A triple (in degrees) is regular when the sine of its middle angle
    reaches the threshold [1e-5] and the first and third angles are outside
    the windows in which the sign test of the recovery ([5e-3] for the
    first, [1e-3] for the third angle) cannot tell an angle from its mirror
    image. *)
Definition regular (v : list R) : Prop :=
  match v with
  | [phi; theta; psi] =>
      1e-5 <= sin (theta * PI / 180)
      /\ 5e-3 < 2 * Rabs (cos (phi * PI / 180))
      /\ 1e-3 < 2 * Rabs (cos (psi * PI / 180))
  | _ => False
  end.

(** An angle a little above 90 degrees (about 90.11), whose cosine is
    [-0.002]: inside the window of the first angle, outside the window of
    the third. *)
Definition window_angle : R := acos (-2e-3) / (PI / 180).

(** [rad] is the radian value of an angle of [[0, 360)] degrees. *)
Definition radians_in_one_turn (rad : R) : Prop :=
  exists deg, 0 <= deg < 360 /\ rad = deg * PI / 180.

End RotMat.

(** ** Operations on arrays used by the reader and the data model *)

Module Np.

(** [np.prod(a.shape)]. *)
Definition prod (s : list nat) : nat := fold_right Nat.mul 1%nat s.

(** The first [n] consecutive blocks of [k] elements of a row-major list. *)
Fixpoint blocks {A : Type} (n k : nat) (l : list A) : list (list A) :=
  match n with
  | O => []
  | S n' => firstn k l :: blocks n' k (skipn k l)
  end.

(** [len(a.shape)]. *)
Definition ndim (a : ndarray) : nat := List.length (shape a).

(** [a.reshape((-1, 1))]: one column holding every element. *)
Definition reshape_column (a : ndarray) : ndarray :=
  NdArray [prod (shape a); 1%nat] (flat a).

(** [a[..., 0]]: index 0 on the last axis. *)
Definition last_axis_0 (a : ndarray) : result ndarray :=
  match rev (shape a) with
  | [] => Raise IndexError
  | O :: _ => Raise IndexError
  | S k :: rest =>
      let outer := rev rest in
      Ok (NdArray outer
                  (map (fun b => hd 0%R b) (blocks (prod outer) (S k) (flat a))))
  end.

(** [a[1:, :]] on an array of at least two axes: the first row is dropped. *)
Definition drop_first_row (a : ndarray) : ndarray :=
  match shape a with
  | n :: rest => NdArray (Nat.pred n :: rest) (skipn (prod rest) (flat a))
  | [] => a
  end.

(** [a[:, i]]: index [i] on the second axis. *)
Definition column (a : ndarray) (i : nat) : result ndarray :=
  match shape a with
  | n :: m :: rest =>
      if (i <? m)%nat then
        let p := prod rest in
        Ok (NdArray (n :: rest)
                    (List.concat (map (fun b => firstn p (skipn (i * p) b))
                                 (blocks n (m * p) (flat a)))))
      else Raise IndexError
  | _ => Raise IndexError
  end.

(** *** 64-bit integers

    The integers of an array are those of NumPy's [int64], which is also the
    type [int] names on the 64-bit platforms: a result that leaves
    [-2^63, 2^63) wraps around. *)
Definition min_int64 : Z := (- 2 ^ 63)%Z.
Definition max_int64 : Z := (2 ^ 63 - 1)%Z.

Definition is_int64 (z : Z) : bool :=
  ((min_int64 <=? z) && (z <=? max_int64))%Z.

Definition wrap64 (z : Z) : Z := ((z + 2 ^ 63) mod 2 ^ 64 - 2 ^ 63)%Z.

End Np.

(** ** The data model (data.py) *)

(** [origin] and [spacing] after [_convert2int_if_no_decimals]: an integer
    array when every entry is whole, the floating array otherwise. *)
Inductive numarr : Type :=
| IntArray (values : list Z)
| FloatArray (values : list R).

(** One entry of [Data.celldata]: a tuple of length 5, or of length 7 for a
    FIELD, [(array, dataName, dataType, datasetAttributeType,
    [fieldArray name, fieldArray numComponents,] tag)]. *)
Record celltuple : Type := CellTuple {
  ct_array : ndarray;
  ct_dataName : string;
  ct_dataType : string;
  ct_datasetAttributeType : string;
  ct_fieldArray : option (string * Z);
  ct_tag : string
}.

Module Data.

Record t : Type := Make {
  _dim : option Z;
  _angles : option ndarray;
  _phases : option ndarray;
  _grain_count : option nat;
  _celldata : option (list celltuple);
  dimensions : option (list Z);
  _celldata_size : option Z;
  _origin : option numarr;
  _spacing : option numarr;
  time : option R
}.

(** [Data.__init__]. *)
Definition init : t :=
  Make None None None None None None None None None None.

Definition DRI_TAG_GRAIN_PROPERTIES : string := "<grain-properties>".
Definition DRI_TAG_CELLS : list string := ["<cellsX>"; "<cellsY>"; "<cellsZ>"].
Definition DRI_TAG_SPACING : string := "<spacing>".

(** [VTK_TYPE_MAP_VTK_TO_NUMPY[int]] and [VTK_TYPE_MAP_VTK_TO_NUMPY[float]]. *)
Definition VTK_TYPE_MAP_VTK_TO_NUMPY_int : list (string * string) :=
  [("bit", "uint8"); ("unsigned_char", "uint8"); ("char", "int8");
   ("unsigned_short", "uint16"); ("short", "int16");
   ("unsigned_int", "uint32"); ("int", "int32");
   ("unsigned_long", "uint64"); ("long", "int64")].

Definition VTK_TYPE_MAP_VTK_TO_NUMPY_float : list (string * string) :=
  [("float", "float32"); ("double", "float64")].

(** Look-up in a dictionary with string keys. *)
Fixpoint lookup {V : Type} (k : string) (d : list (string * V)) : option V :=
  match d with
  | [] => None
  | (k', v) :: d' => if k =? k' then Some v else lookup k d'
  end.

Definition VTK_DATASET_ATTRIBUTE_TYPE_ORDER : list (string * nat) :=
  [("SCALARS", 0%nat); ("VECTORS", 1%nat); ("NORMALS", 2%nat);
   ("TENSORS", 3%nat); ("FIELD", 4%nat)].

Definition numpy_type_for_vtk_type (vtk_type : string) : result string :=
  match lookup vtk_type VTK_TYPE_MAP_VTK_TO_NUMPY_int with
  | Some ty => Ok ty
  | None =>
      match lookup vtk_type VTK_TYPE_MAP_VTK_TO_NUMPY_float with
      | Some ty => Ok ty
      | None => Raise (TypeError "ERROR: Unknown VTK dataType")
      end
  end.

(** The loop of [_has_equal_dimensions] over [a.shape], indexing [b.shape]. *)
Fixpoint shape_loop (sa sb : list nat) (index : nat) : bool :=
  match sa with
  | [] => true
  | idim :: sa' =>
      let jdim := nth index sb 0%nat in
      if negb (idim =? jdim)%nat then false else shape_loop sa' sb (S index)
  end.

Definition _has_equal_dimensions (a b : ndarray) : bool :=
  let dims_no_a := List.length (shape a) in
  let dims_no_b := List.length (shape b) in
  if negb (dims_no_a =? dims_no_b)%nat then false
  else if negb (Np.prod (shape a) =? Np.prod (shape b))%nat then false
  else shape_loop (shape a) (shape b) 0.

(** Checks if angles and phases has same number of grains (rows). *)
Definition _compare_angles_phases (d : t) : result unit :=
  match _angles d, _phases d with
  | Some angles, Some phases =>
      match shape angles with
      | _ :: ncols :: _ =>
          for_range ncols (fun i =>
            a_i <- Np.column angles i ;;
            p_0 <- Np.column phases 0 ;;
            if negb (_has_equal_dimensions a_i p_0) then
              Raise (Hdf2Mic_HDF5DatasetDimensionError (AnglesPhasesMismatch a_i p_0))
            else Ok tt)
      | _ => Raise IndexError
      end
  | _, _ => Ok tt
  end.

(** [Data.angles], the setter. *)
Definition angles_setter (value : option ndarray) (d : t) : result t :=
  let d := Make (_dim d) value (_phases d)
                (match value with
                 | Some a => Some (hd 0%nat (shape a))
                 | None => _grain_count d
                 end)
                (_celldata d) (dimensions d) (_celldata_size d)
                (_origin d) (_spacing d) (time d) in
  _ <- _compare_angles_phases d ;;
  Ok d.

(** [Data.phases], the setter. *)
Definition phases_setter (value : option ndarray) (d : t) : result t :=
  let d := Make (_dim d) (_angles d) value
                (match value with
                 | Some p => Some (hd 0%nat (shape p))
                 | None => _grain_count d
                 end)
                (_celldata d) (dimensions d) (_celldata_size d)
                (_origin d) (_spacing d) (time d) in
  _ <- _compare_angles_phases d ;;
  Ok d.

(** Comparisons of floats as booleans. *)
Definition Reqb (x y : R) : bool := if Req_dec_T x y then true else false.

(** Truncation towards zero. *)
Definition trunc (x : R) : Z :=
  if Rle_dec 0 x then Int_part x else (- Int_part (- x))%Z.

(** [arr.astype(int)] on one entry: the conversion of a float to a 64-bit
    integer, which truncates towards zero.  A float whose truncation is no
    64-bit integer has no value of its own there: the conversion
    instruction of the processor answers with the smallest integer,
    [-2^63]. *)
Definition astype_int (x : R) : Z :=
  if Np.is_int64 (trunc x) then trunc x else Np.min_int64.

(** [np.mod(x, 1)] is the fractional part [x - floor x]. *)
Definition _convert2int_if_no_decimals (arr : list R) : numarr :=
  let arr_copy := map frac_part arr in
  let is_whole_number := map (fun x => Reqb x 0) arr_copy in
  if forallb (fun b => b) is_whole_number then IntArray (map astype_int arr)
  else FloatArray arr.

(** [Data.origin], the setter. *)
Definition origin_setter (value : list R) (d : t) : result t :=
  Ok (Make (_dim d) (_angles d) (_phases d) (_grain_count d) (_celldata d)
           (dimensions d) (_celldata_size d)
           (Some (_convert2int_if_no_decimals value)) (_spacing d) (time d)).

(** [Data.spacing], the setter: MICRESS only allows cubic cells. *)
Definition spacing_setter (value : list R) (d : t) : result t :=
  match value with
  | [] => Raise IndexError
  | value_0 :: _ =>
      if negb (forallb (fun x => Reqb x value_0) value) then
        Raise (ValueError (NonCubicCells value))
      else
        Ok (Make (_dim d) (_angles d) (_phases d) (_grain_count d) (_celldata d)
                 (dimensions d) (_celldata_size d) (_origin d)
                 (Some (_convert2int_if_no_decimals value)) (time d))
  end.

Definition _check_array_dimensionality (celldata_tuple : celltuple) : bool := true.

(** [Data.celldata], the setter.  The [isinstance] and length tests hold by
    the type of [celltuple]. *)
Definition celldata_setter (tuples : list celltuple) (d : t) : result t :=
  celldata_scalars <-
    mapM (fun tupl =>
            if _check_array_dimensionality tupl then Ok tupl
            else Raise (Hdf2Mic_HDF5DatasetDimensionError
                         (CellDataDimension (ct_dataName tupl)))) tuples ;;
  Ok (Make (_dim d) (_angles d) (_phases d) (_grain_count d)
           (Some celldata_scalars)
           (dimensions d) (_celldata_size d) (_origin d) (_spacing d) (time d)).

End Data.

(** ** Stable sorting, as [list.sort(key=...)] does it

    [list.sort] computes the key of every element first and then sorts
    stably by the keys.  A stable sort by a total preorder has one possible
    result; the model computes it by insertion. *)

Section StableSort.

Variables K A : Type.
Variable leb : K -> K -> bool.

Fixpoint insert_by (x : K * A) (l : list (K * A)) : list (K * A) :=
  match l with
  | [] => [x]
  | y :: l' => if leb (fst x) (fst y) then x :: y :: l' else y :: insert_by x l'
  end.

Definition sort_decorated (l : list (K * A)) : list (K * A) :=
  fold_right insert_by [] l.

(** The same sort on the elements themselves, for a key that cannot raise. *)
Variable keyf : A -> K.

Fixpoint insert_key (x : A) (l : list A) : list A :=
  match l with
  | [] => [x]
  | y :: l' => if leb (keyf x) (keyf y) then x :: y :: l' else y :: insert_key x l'
  end.

Definition sort_key (l : list A) : list A := fold_right insert_key [] l.

End StableSort.

(** [l.sort(key=key)] for a key that may raise. *)
Definition sort_by_key {K A : Type} (leb : K -> K -> bool) (key : A -> result K)
    (l : list A) : result (list A) :=
  decorated <- mapM (fun a => k <- key a ;; Ok (k, a)) l ;;
  Ok (map snd (sort_decorated leb decorated)).

(** ** Strings: the pieces of [str] and [re] the reader and the writers use *)

Module Str.

(** The characters [\s] matches and [str.strip] removes: space, tab, line
    feed, vertical tab, form feed, carriage return. *)
Definition is_space (c : ascii) : bool :=
  let n := nat_of_ascii c in
  (n =? 32)%nat || ((9 <=? n)%nat && (n <=? 13)%nat).

(** The characters [\d] matches. *)
Definition is_digit (c : ascii) : bool :=
  let n := nat_of_ascii c in
  (48 <=? n)%nat && (n <=? 57)%nat.

(** The longest prefix of characters satisfying [p], and the rest. *)
Fixpoint span (p : ascii -> bool) (s : string) : string * string :=
  match s with
  | EmptyString => (EmptyString, EmptyString)
  | String c s' =>
      if p c then let (a, b) := span p s' in (String c a, b)
      else (EmptyString, s)
  end.

Fixpoint rev_string (s : string) : string :=
  match s with
  | EmptyString => EmptyString
  | String c s' => rev_string s' ++ String c EmptyString
  end.

(** [s.strip()]. *)
Definition strip (s : string) : string :=
  let s1 := snd (span is_space s) in
  rev_string (snd (span is_space (rev_string s1))).

(** [int(digits)] for a non-empty run of decimal digits. *)
Definition int_of_digits (s : string) : Z :=
  fold_left (fun acc c => (10 * acc + Z.of_nat (nat_of_ascii c - 48))%Z)
            (list_ascii_of_string s) 0%Z.

(** [re.compile('([^\s]+)(\s+)(\d+)').match(el)]: groups 1 and 3 of the
    match, when there is one.  The three greedy runs leave the matcher no
    choice: the name is the longest prefix without white space, then comes
    all the white space, then the longest run of digits. *)
Definition match_fieldArray (el : string) : option (string * Z) :=
  let (name, rest1) := span (fun c => negb (is_space c)) el in
  let (ws, rest2) := span is_space rest1 in
  let (digits, _) := span is_digit rest2 in
  if (String.length name =? 0)%nat || (String.length ws =? 0)%nat
     || (String.length digits =? 0)%nat
  then None
  else Some (name, int_of_digits digits).

(** Does the text hold [c] before its first line feed? *)
Fixpoint has_before_newline (c : ascii) (s : string) : bool :=
  match s with
  | EmptyString => false
  | String c' s' =>
      if (c' =? "010")%char then false
      else if (c' =? c)%char then true
      else has_before_newline c s'
  end.

(** [re.compile('<.*>').match(s) is not None]. *)
Definition match_tag (s : string) : bool :=
  match s with
  | String "<" s' => has_before_newline ">" s'
  | _ => false
  end.

(** [old in s], [s.startswith(old)] being [String.prefix old s]. *)
Fixpoint contains (old s : string) : bool :=
  if String.prefix old s then true
  else match s with
       | EmptyString => false
       | String _ s' => contains old s'
       end.

(** [s.replace(old, new)] for a non-empty [old]: the occurrences are replaced
    from the left, without overlap.  [skip] counts the characters of a
    matched occurrence that are still to be dropped. *)
Fixpoint replace_from (old new : string) (skip : nat) (s : string) : string :=
  match s with
  | EmptyString => EmptyString
  | String c s' =>
      match skip with
      | S k => replace_from old new k s'
      | O =>
          if String.prefix old s
          then new ++ replace_from old new (String.length old - 1) s'
          else String c (replace_from old new 0 s')
      end
  end.

(** [s.replace('', new)] puts [new] before every character and at the end. *)
Fixpoint interleave (new s : string) : string :=
  match s with
  | EmptyString => new
  | String c s' => new ++ String c (interleave new s')
  end.

Definition replace (old new s : string) : string :=
  match old with
  | EmptyString => interleave new s
  | _ => replace_from old new 0 s
  end.

(** [' '.join(l)]. *)
Definition join (sep : string) (l : list string) : string := String.concat sep l.

(** [str(n)] for an integer. *)
Definition str_int (n : Z) : string := NilZero.string_of_int (Z.to_int n).

End Str.

(** Every character of the text passes the test. *)
Fixpoint all_chars (p : ascii -> bool) (s : string) : bool :=
  match s with
  | EmptyString => true
  | String c s' => p c && all_chars p s'
  end.

(** The text does not begin with a character that passes the test. *)
Definition stops (p : ascii -> bool) (s : string) : bool :=
  match s with
  | EmptyString => true
  | String c _ => negb (p c)
  end.

(** ** The reader (reader.py) *)

Module Reader.

Import H5.

(** The entries of [args.settings.input.hdf5] the setters below read. *)
Record settings_t : Type := Settings {
  rotate : bool;
  cellFeatureDataClipFirstLine : bool
}.

Record t : Type := Make {
  settings : settings_t;
  _dim : option Z;
  data : Data.t
}.

(** [Reader.__init__], with the settings [read] installs. *)
Definition init (s : settings_t) : t := Make s None Data.init.

Definition with_data (r : t) (d : Data.t) : t := Make (settings r) (_dim r) d.

(** [self.dim == n]; [None] equals no number. *)
Definition dim_is (r : t) (n : Z) : bool :=
  match _dim r with
  | Some d => (d =? n)%Z
  | None => false
  end.

(** [Reader.dim], the setter. *)
Definition dim_setter (value : Z) (r : t) : result t :=
  if negb (existsb (Z.eqb value) [1; 2; 3]%Z) then
    Raise (Hdf2Mic_InitArgError "Reader: dimension 'dim' not in (1, 2 or 3).")
  else
    let d := data r in
    Ok (Make (settings r) (Some value)
             (Data.Make (Some value) (Data._angles d) (Data._phases d)
                        (Data._grain_count d) (Data._celldata d)
                        (Data.dimensions d) (Data._celldata_size d)
                        (Data._origin d) (Data._spacing d) (Data.time d))).

(** The loop of [group_angles] over the grains (lines 234-240): every row is
    handed to [rotate] and overwritten by the result.  The model follows the
    source for arrays of two axes; an array of another rank is refused. *)
Definition rotate_rows (angles : ndarray) : result ndarray :=
  match shape angles with
  | [n; m] =>
      rotated <- mapM (fun val =>
                         rotVal <- RotMat.rotate val true ;;
                         Ok (firstn m rotVal))
                      (Np.blocks n m (flat angles)) ;;
      Ok (NdArray [n; m] (List.concat rotated))
  | _ => Raise (TypeError "rotation of an array that has not two axes")
  end.

(** [Reader.group_angles], the setter. *)
Definition group_angles_setter (f : h5file ndarray) (value : string) (r : t)
  : result t :=
  dset <- outcome (dset f value true) ;;
  angles <-
    match dset with
    | Some dset =>
        angles <-
          (if dim_is r 2 then
             a <- read_all dset ;; a0 <- Np.last_axis_0 a ;; Ok (Some a0)
           else if dim_is r 3 then
             a <- read_all dset ;; Ok (Some a)
           else Ok None) ;;
        match angles with
        | None => Raise (Hdf2Mic_InitArgError EXCEPTIONS_INITARG)
        | Some angles =>
            let angles :=
              if (Np.ndim angles =? 1)%nat then Np.reshape_column angles
              else angles in
            let angles :=
              if cellFeatureDataClipFirstLine (settings r) then
                if (1 <? Np.ndim angles)%nat then Np.drop_first_row angles
                else angles
              else angles in
            Ok (Some angles)
        end
    | None => Ok None
    end ;;
  newAngles <-
    (if rotate (settings r) && dim_is r 30 then
       (* RA: rotation of euler angles is necessary *)
       match angles with
       | None => Raise (Hdf2Mic_InitArgError EXCEPTIONS_INITARG)
       | Some angles => rotated <- rotate_rows angles ;; Ok (Some rotated)
       end
     else Ok angles) ;;
  d <- Data.angles_setter newAngles (data r) ;;
  Ok (with_data r d).

(** [Reader.group_phases], the setter. *)
Definition group_phases_setter (f : h5file ndarray) (value : string) (r : t)
  : result t :=
  dset <- outcome (dset f value true) ;;
  phases <-
    match dset with
    | Some dset =>
        p <- read_all dset ;;
        Ok (Some (if (Np.ndim p =? 1)%nat then Np.reshape_column p else p))
    | None => Ok None
    end ;;
  phases <-
    (if cellFeatureDataClipFirstLine (settings r) then
       match phases with
       | None => Raise (Hdf2Mic_InitArgError EXCEPTIONS_INITARG)
       | Some p =>
           Ok (Some (if (1 <? Np.ndim p)%nat then Np.drop_first_row p else p))
       end
     else Ok phases) ;;
  d <- Data.phases_setter phases (data r) ;;
  Ok (with_data r d).

(** [np.product] of an array of 64-bit integers: the running product is a
    64-bit integer as well, so every multiplication wraps around. *)
Definition product (l : list Z) : Z :=
  fold_left (fun acc d => Np.wrap64 (acc * d)) l 1%Z.

(** [a[i]] on an integer array. *)
Definition item (l : list Z) (i : nat) : result Z :=
  match nth_error l i with
  | Some x => Ok x
  | None => Raise IndexError
  end.

(** [Reader.group_dimensions], the setter: converts the x,y,z dimensions
    from VtkCell to VtkPoint format, dim_i --> dim_i + 1 (the integer
    [d + 1], which is the 64-bit sum for every [d] below [2^63 - 1]). *)
Definition group_dimensions_setter (f : h5file (list Z)) (value : string) (r : t)
  : result t :=
  dimensions_vtkCell <- dset_content f value ;;
  let dimensions_vtkPoint := map (fun d => (d + 1)%Z) dimensions_vtkCell in
  let celldata_size := product dimensions_vtkCell in
  dimensions <-
    (if rotate (settings r) && dim_is r 3 then
       (* RA: Hack to rotate results: exchange y and z dimensions *)
       p0 <- item dimensions_vtkPoint 0 ;;
       p2 <- item dimensions_vtkPoint 2 ;;
       p1 <- item dimensions_vtkPoint 1 ;;
       Ok [p0; p2; p1]
     else Ok dimensions_vtkPoint) ;;
  let d := data r in
  Ok (with_data r
        (Data.Make (Data._dim d) (Data._angles d) (Data._phases d)
                   (Data._grain_count d) (Data._celldata d)
                   (Some dimensions) (Some celldata_size)
                   (Data._origin d) (Data._spacing d) (Data.time d))).

(** [Reader.group_origin], the setter. *)
Definition group_origin_setter (f : h5file (list R)) (value : string) (r : t)
  : result t :=
  origin <- dset_content f value ;;
  d <- Data.origin_setter origin (data r) ;;
  Ok (with_data r d).

(** [Reader.group_spacing], the setter. *)
Definition group_spacing_setter (f : h5file (list R)) (value : string) (r : t)
  : result t :=
  spacing <- dset_content f value ;;
  d <- Data.spacing_setter spacing (data r) ;;
  Ok (with_data r d).

(** A source with one grain, of orientation [(0, 270, 0)]. *)
Definition one_grain : h5file ndarray :=
  fun p => if p =? "/EulerAngles"
           then Some (Dataset (NdArray [1%nat; 3%nat] [0; 270; 0]%R))
           else None.

(** The reader with the [rotate] setting replaced. *)
Definition with_rotate (b : bool) (r : t) : t :=
  Make (Settings b (cellFeatureDataClipFirstLine (settings r))) (_dim r) (data r).

(** The angles found in the data after a setter has run. *)
Definition stored_angles (x : result t) : result (option ndarray) :=
  r <- x ;; Ok (Data._angles (data r)).

(** One tuple of the list the [groups_celldata] setter sorts:
    [(array, dataName, dataType, datasetAttributeType)]. *)
Definition tuple4 : Type := (ndarray * string * string * string)%type.

Definition tup_0 (tup : tuple4) : ndarray := fst (fst (fst tup)).
Definition tup_1 (tup : tuple4) : string := snd (fst (fst tup)).
Definition tup_2 (tup : tuple4) : string := snd (fst tup).
Definition tup_3 (tup : tuple4) : string := snd tup.

(** [zip(celldata_arrays, dataNames, dataTypes, datasetAttributeTypes)]. *)
Fixpoint zip4 (arrays : list ndarray) (names types dsats : list string)
  : list tuple4 :=
  match arrays, names, types, dsats with
  | a :: arrays', n :: names', ty :: types', k :: dsats' =>
      (a, n, ty, k) :: zip4 arrays' names' types' dsats'
  | _, _, _, _ => []
  end.

(** [el in d.keys()]. *)
Definition in_keys {V : Type} (el : string) (d : list (string * V)) : bool :=
  match Data.lookup el d with
  | Some _ => true
  | None => false
  end.

(** [d[k]], raising [KeyError] for an absent key. *)
Definition getitem {V : Type} (d : list (string * V)) (k : string) : result V :=
  match Data.lookup k d with
  | Some v => Ok v
  | None => Raise (KeyError k)
  end.

(** [sum([el == 'FIELD' for el in l])]. *)
Definition count_FIELD (l : list string) : nat :=
  List.length (filter (fun el => el =? "FIELD") l).

(** The key of the first sort: [VTK_DATASET_ATTRIBUTE_TYPE_ORDER[tup[3]]]. *)
Definition order_key (tup : tuple4) : result nat :=
  getitem Data.VTK_DATASET_ATTRIBUTE_TYPE_ORDER (tup_3 tup).

(** The key of the second sort: [tup[1]], the dataName. *)
Definition name_key (tup : tuple4) : result string := Ok (tup_1 tup).

(** [tuples[i] = tuples[i] + fieldArrays[i - count_non_field_arrays]] for the
    tuples from [count_non_field_arrays] on; the others stay as they are. *)
Fixpoint append_fieldArrays (i count_non_field_arrays : nat)
    (fieldArrays : list (string * Z)) (tuples : list tuple4)
  : result (list (tuple4 * option (string * Z))) :=
  match tuples with
  | [] => Ok []
  | tup :: tuples' =>
      head <-
        (if (i <? count_non_field_arrays)%nat then Ok (tup, None)
         else match nth_error fieldArrays (i - count_non_field_arrays) with
              | Some fa => Ok (tup, Some fa)
              | None => Raise IndexError
              end) ;;
      tail <- append_fieldArrays (S i) count_non_field_arrays fieldArrays tuples' ;;
      Ok (head :: tail)
  end.

(** [tuples[i] = tuples[i] + (self._celldata_tags[i],)]. *)
Fixpoint append_tags (i : nat) (tags : list string)
    (tuples : list (tuple4 * option (string * Z))) : result (list celltuple) :=
  match tuples with
  | [] => Ok []
  | (tup, fa) :: tuples' =>
      head <-
        match nth_error tags i with
        | Some tag => Ok (CellTuple (tup_0 tup) (tup_1 tup) (tup_2 tup) (tup_3 tup) fa tag)
        | None => Raise IndexError
        end ;;
      tail <- append_tags (S i) tags tuples' ;;
      Ok (head :: tail)
  end.

Section CellData.

(** The values of one cell-data array: what lines 385-438 make of the
    dataset found at the path (the cast to the NumPy type, the reshape of a
    one-axis array and the rotation of the cell values), given the
    settings, [dim], the loop index, the dataName and the NumPy type.  The
    order of the attributes does not depend on it. *)
Variable celldata_values :
  settings_t -> option Z -> nat -> string -> string -> h5obj ndarray -> result ndarray.

(** The loop over the paths (lines 375-445). *)
Fixpoint read_celldata_arrays (f : h5file ndarray) (r : t) (i : nat)
    (paths names types : list string) : result (list ndarray) :=
  match paths with
  | [] => Ok []
  | celldata_path :: paths' =>
      match names, types with
      | celldata_name :: names', celldata_type :: types' =>
          dset <- outcome (dset f celldata_path false) ;;
          numpy_type <- Data.numpy_type_for_vtk_type celldata_type ;;
          celldata_array <-
            match dset with
            | Some dset =>
                celldata_values (settings r) (_dim r) i celldata_name numpy_type dset
            | None => Raise (TypeError "NoneType")
            end ;;
          rest <- read_celldata_arrays f r (S i) paths' names' types' ;;
          Ok (celldata_array :: rest)
      | _, _ => Raise IndexError
      end
  end.

(** [Reader.groups_celldata], the setter. *)
Definition groups_celldata_setter (f : h5file ndarray)
    (values : list (list string)) (r : t) : result t :=
  match values with
  | [paths; dataNames; dataTypes; datasetAttributeTypes; fieldArrays; tags] =>
      (* check input arguments *)
      let val_len := List.length paths in
      if negb (forallb (fun li => (List.length li =? val_len)%nat)
                       [dataNames; dataTypes; datasetAttributeTypes]) then
        Raise (Hdf2Mic_InitArgError
                 "Reader: CellData input first four lists are not equally long [paths, names, types, datasetAttributes].")
      else if negb (forallb (fun el => in_keys el Data.VTK_TYPE_MAP_VTK_TO_NUMPY_int
                                       || in_keys el Data.VTK_TYPE_MAP_VTK_TO_NUMPY_float)
                            dataTypes) then
        Raise (Hdf2Mic_InitArgError
                 "Reader: CellData input list 'dataTypes' has unknown VTK dataTypes.")
      else if negb (forallb (fun el => in_keys el Data.VTK_DATASET_ATTRIBUTE_TYPE_ORDER)
                            datasetAttributeTypes) then
        Raise (Hdf2Mic_InitArgError
                 "Reader: CellData input list 'datasetAttributeTypes' has unknown VTK Dataset Atrribute Types.")
      (* check input arguments: fieldArrays *)
      else if negb (forallb (fun el => match Str.match_fieldArray el with
                                       | Some _ => true
                                       | None => false
                                       end) fieldArrays) then
        Raise (Hdf2Mic_InitArgError
                 "Reader: CellData input fifth list 'fieldArrays' is not a list of strings of type 'arrName numComp'.")
      else
      let count_field_arrays := count_FIELD datasetAttributeTypes in
      if (List.length fieldArrays <? count_field_arrays)%nat then
        Raise (Hdf2Mic_InitArgError
                 "Reader: CellData input: number of FIELDs does not match number of fieldArrays.")
      else
      (* convert fieldArray strings to tuples (arrayName str, numComponents int) *)
      let fieldArrays :=
        if (count_field_arrays =? 0)%nat then None
        else Some (flat_map (fun el => match Str.match_fieldArray el with
                                       | Some fa => [fa]
                                       | None => []
                                       end) fieldArrays) in
      (* check input arguments: tags *)
      if negb (forallb (fun el => (String.length (Str.strip el) =? 0)%nat
                                  || Str.match_tag (Str.strip el)) tags) then
        Raise (Hdf2Mic_InitArgError
                 "Reader: CellData input sixth list 'tags' is not a list of strings that are empty or of type '<mytagname>'.")
      else
      (* pad tags list if too short *)
      let tags := tags ++ repeat "" (val_len - List.length tags) in
      (* read data arrays from HDF5 file *)
      celldata_arrays <- read_celldata_arrays f r 0 paths dataNames dataTypes ;;
      (* transform to one tuple list for each array *)
      let tuples := zip4 celldata_arrays dataNames dataTypes datasetAttributeTypes in
      (* sort in-place by DatasetAttributeType *)
      tuples <- sort_by_key Nat.leb order_key tuples ;;
      (* append fieldArray list *)
      tuples <-
        match fieldArrays with
        | Some fieldArrays =>
            (* sort FIELDs at end of list by dataName *)
            let count_non_field_arrays := (List.length tuples - count_field_arrays)%nat in
            field_tuples <- sort_by_key String.leb name_key
                              (skipn count_non_field_arrays tuples) ;;
            let tuples := firstn count_non_field_arrays tuples ++ field_tuples in
            append_fieldArrays 0 count_non_field_arrays fieldArrays tuples
        | None => Ok (map (fun tup => (tup, None)) tuples)
        end ;;
      (* append tags *)
      tuples <- append_tags 0 tags tuples ;;
      d <- Data.celldata_setter tuples (data r) ;;
      Ok (with_data r d)
  | _ =>
      Raise (Hdf2Mic_InitArgError
               "Reader: CellData input is not a list of 6 lists [paths, dataNames, dataTypes, datasetAttributeTypes, fieldArrays, tags].")
  end.

End CellData.

(** *** The contract of the classification *)

(** The first four components of an entry of [Data.celldata]. *)
Definition base (c : celltuple) : tuple4 :=
  (ct_array c, ct_dataName c, ct_dataType c, ct_datasetAttributeType c).

(** The key of the first sort as a number: what the table of the data model
    holds for the kind of the tuple. *)
Definition order_of (tup : tuple4) : nat :=
  match Data.lookup (tup_3 tup) Data.VTK_DATASET_ATTRIBUTE_TYPE_ORDER with
  | Some n => n
  | None => 0%nat
  end.

Definition is_FIELD (tup : tuple4) : bool := tup_3 tup =? "FIELD".
Definition has_kind (k : string) (tup : tuple4) : bool := tup_3 tup =? k.
Definition has_name (n : string) (tup : tuple4) : bool := tup_1 tup =? n.

(** The order the classification is required to follow, stated without the
    table of the data model: the kinds from the lowest precedence to the
    highest, [SCALARS < VECTORS < NORMALS < TENSORS < FIELD]. *)
Definition required_precedence : list string :=
  ["SCALARS"; "VECTORS"; "NORMALS"; "TENSORS"; "FIELD"].

(** The place of a kind in a list of kinds. *)
Fixpoint place (k : string) (kinds : list string) : option nat :=
  match kinds with
  | [] => None
  | k' :: kinds' => if k =? k' then Some 0%nat else option_map S (place k kinds')
  end.

(** Both are kinds of the required precedence, and [b] does not come before
    [a] in it. *)
Definition not_after (a b : string) : bool :=
  match place a required_precedence, place b required_precedence with
  | Some i, Some j => (i <=? j)%nat
  | _, _ => false
  end.

(** The entries of equal name are contiguous: whatever lies between two
    entries of one name has that name. *)
Definition contiguous_names (l : list tuple4) : Prop :=
  forall l1 x l2 y l3,
    l = l1 ++ x :: l2 ++ y :: l3 -> tup_1 x = tup_1 y ->
    Forall (fun z => tup_1 z = tup_1 x) l2.

(** [out] is the classification of the attributes [input], given in the
    order of their declaration. *)
Record classified (input out : list tuple4) : Prop := {
  cl_same_entries : Permutation out input;
  cl_by_kind :
    StronglySorted (fun x y => not_after (tup_3 x) (tup_3 y) = true) out;
  cl_declaration_order :
    forall k, k <> "FIELD" -> filter (has_kind k) out = filter (has_kind k) input;
  cl_fields :
    exists nonfield fields,
      out = nonfield ++ fields
      /\ Forall (fun t => is_FIELD t = false) nonfield
      /\ Forall (fun t => is_FIELD t = true) fields
      /\ StronglySorted (fun x y => String.leb (tup_1 x) (tup_1 y) = true) fields
      /\ (forall n, filter (has_name n) fields
                    = filter (fun t => is_FIELD t && has_name n t) input)
      /\ contiguous_names fields
}.

(** The specs [(arrayName, numComponents)] that the strings of the fifth
    list stand for. *)
Definition parsed_specs (fieldArrays : list string) (specs : list (string * Z)) : Prop :=
  Forall2 (fun el fa => Str.match_fieldArray el = Some fa) fieldArrays specs.

(** The number a text of decimal digits stands for; [None] for a text that
    holds another character. *)
Definition decimal_value (digits : string) : option Z :=
  option_map (fun u => Z.of_nat (Nat.of_uint u)) (NilEmpty.uint_of_string digits).

(** A field spec [(array name, number of components)] as it is supplied in
    the fifth list, in the form ['arrName numComp']: the text begins with the
    array name, which holds no white space; then comes white space, then the
    number of components in decimal digits.  What follows the digits is no
    part of the spec. *)
Definition supplied_as (el : string) (spec : string * Z) : Prop :=
  exists ws digits rest,
    el = (fst spec ++ ws ++ digits ++ rest)%string
    /\ fst spec <> ""
    /\ all_chars (fun c => negb (Str.is_space c)) (fst spec) = true
    /\ ws <> "" /\ all_chars Str.is_space ws = true
    /\ digits <> "" /\ decimal_value digits = Some (snd spec)
    /\ stops Str.is_digit rest = true.

(** Two files and a reading of the values, for the examples. *)
Definition two_fields : h5file ndarray :=
  fun p => if p =? "/b" then Some (Dataset (NdArray [1%nat; 1%nat] [1%R]))
           else if p =? "/a" then Some (Dataset (NdArray [1%nat; 1%nat] [2%R]))
           else None.

Definition values_as_read (s : settings_t) (dim : option Z) (i : nat)
    (name numpy_type : string) (d : h5obj ndarray) : result ndarray :=
  read_all d.

(** Two FIELD attributes, declared as ["b"] and then ["a"], with the specs
    ["x 1"] and ["y 2"] and one tag. *)
Definition two_fields_values : list (list string) :=
  [["/b"; "/a"]; ["b"; "a"]; ["float"; "double"]; ["FIELD"; "FIELD"];
   ["x 1"; "y 2"]; ["<tagB>"]].

Definition two_fields_reader : t :=
  Make (Settings false false) (Some 3%Z) Data.init.

(** A file with eight arrays of one value each, [/1] holding 1, [/2]
    holding 2 and so on. *)
Definition eight_arrays : h5file ndarray :=
  fun p => option_map (fun x => Dataset (NdArray [1%nat; 1%nat] [x]))
             (Data.lookup p [("/1", 1%R); ("/2", 2%R); ("/3", 3%R); ("/4", 4%R);
                             ("/5", 5%R); ("/6", 6%R); ("/7", 7%R); ("/8", 8%R)]).

(** Eight attributes of all five kinds, three of them FIELDs, two of which
    share the name ["raw"]; three field specs and no tag. *)
Definition eight_arrays_values : list (list string) :=
  [["/1"; "/2"; "/3"; "/4"; "/5"; "/6"; "/7"; "/8"];
   ["stress"; "raw"; "grain"; "aux"; "flow"; "face"; "phase"; "raw"];
   ["double"; "float"; "int"; "float"; "double"; "double"; "int"; "float"];
   ["TENSORS"; "FIELD"; "SCALARS"; "FIELD"; "VECTORS"; "NORMALS"; "SCALARS"; "FIELD"];
   ["u 1"; "v 2"; "w 3"]; []].

End Reader.

(** ** The writers *)

Section Writers.

Local Open Scope string_scope.

(** The decimal renderings of a float: [str(x)] and ['{:.nf}'.format(x)]
    (the model does not compute digits of a real number). *)
Variable str_float : R -> string.
Variable format_f : nat -> R -> string.

(** [map(str, arr)] for [origin] and [spacing]. *)
Definition map_str (a : numarr) : list string :=
  match a with
  | IntArray l => map Str.str_int l
  | FloatArray l => map str_float l
  end.

Definition newline : string := String "010" EmptyString.

(** *** The structured-grid writer (writer_vtk.py) *)

Record VtkWriterSettings : Type := {
  version : R;
  columns : Z
}.

(** [_HEADER_TEMPLATE.format(...)]. *)
Definition HEADER_TEMPLATE_format
    (vtk_version vtk_title_time dim spc orig cell : string) : string :=
  "# vtk DataFile Version " ++ vtk_version ++ newline
  ++ vtk_title_time ++ newline
  ++ "ASCII" ++ newline
  ++ "DATASET STRUCTURED_POINTS" ++ newline
  ++ "DIMENSIONS " ++ dim ++ newline
  ++ "SPACING " ++ spc ++ newline
  ++ "ORIGIN " ++ orig ++ newline
  ++ "CELL_DATA " ++ cell ++ newline.

(** [iter(x)] on an attribute that may still be [None]. *)
Definition not_None {A : Type} (x : option A) : result A :=
  match x with
  | Some a => Ok a
  | None => Raise (TypeError "NoneType")
  end.

(** The header [VtkWriter.write] writes first (lines 84-102): the text handed
    to [self._f.write]. *)
Definition VtkWriter_header (data : Data.t) (settings : VtkWriterSettings)
  : result string :=
  (* arguments from HDF5 file: *)
  dims <- not_None (Data.dimensions data) ;;
  let s_dim := Str.join " " (map Str.str_int dims) in
  spacing <- not_None (Data._spacing data) ;;
  let s_spacing := Str.join " " (map_str spacing) in
  origin <- not_None (Data._origin data) ;;
  let s_origin := Str.join " " (map_str origin) in
  let s_title := "t=? s" in
  let s_title :=
    match Data.time data with
    | Some time => Str.replace "?" (format_f 5 time) s_title
    | None => s_title
    end in
  (* arguments from user: *)
  let s_version := format_f 1 (version settings) in
  (* write VTK 'header' *)
  Ok (HEADER_TEMPLATE_format s_version s_title s_dim s_spacing s_origin
        (match Data._celldata_size data with
         | Some n => Str.str_int n
         | None => "None"
         end)).

(** *** The driving-file writer (writer_dri.py) *)

(** What the writer sees of the file system: the text of a file ([None] when
    [open] raises [IOError]), [os.path.isfile] and [os.path.abspath]. *)
Record filesystem : Type := {
  read_text : string -> option string;
  isfile : string -> bool;
  abspath : string -> string
}.

Record DriWriterSettings : Type := {
  makePathsAbsolute : bool
}.

(** [DriWriter._replace], on [self.template]; the warnings it prints are not
    part of the model. *)
Definition _replace (tag replacement template : string) : string :=
  if Str.contains tag template then Str.replace tag replacement template
  else template.

(** [str(arr[0])]. *)
Definition str_first (a : numarr) : result string :=
  match map_str a with
  | s :: _ => Ok s
  | [] => Raise IndexError
  end.

(** The loop over the active axes: [<cellsX>], ... get the number of cells,
    one less than the number of nodes. *)
Fixpoint replace_cells (i n : nat) (dims : list Z) (template : string)
  : result string :=
  match n with
  | O => Ok template
  | S n' =>
      tag <- match nth_error Data.DRI_TAG_CELLS i with
             | Some tag => Ok tag
             | None => Raise IndexError
             end ;;
      d <- Reader.item dims i ;;
      replace_cells (S i) n' dims (_replace tag (Str.str_int (d - 1)) template)
  end.

(** The loop over [data.celldata]: the user-defined tags.  [f_vtk] is
    reassigned in the loop, so it is part of the state.  The tuple is
    indexed as the source does it: [tupl[-1]] is the tag and, in a tuple of
    length 7, [tupl[-2]] is the number of components, an [int].
    [if fieldArrayName] takes the number 0 like an empty name, and
    [" " + fieldArrayName] raises [TypeError] for every other number. *)
Fixpoint user_tags (fs : filesystem) (settings : DriWriterSettings)
    (celldata : list celltuple) (f_vtk template : string) : result string :=
  match celldata with
  | [] => Ok template
  | tupl :: celldata' =>
      let dataName := ct_dataName tupl in
      let tag := ct_tag tupl in
      let f_vtk := if makePathsAbsolute settings then abspath fs f_vtk else f_vtk in
      let replacement := f_vtk ++ " " ++ dataName in
      replacement <-
        match ct_fieldArray tupl with
        | Some (_, fieldArrayName) =>
            if (fieldArrayName =? 0)%Z then Ok replacement
            else Raise (TypeError "cannot concatenate 'str' and 'int' objects")
        | None => Ok replacement
        end ;;
      user_tags fs settings celldata' f_vtk (_replace tag replacement template)
  end.

(** replace user-defined tags (lines 123-146). *)
Definition write_user_tags (fs : filesystem) (data : Data.t)
    (settings : DriWriterSettings) (f_vtk template : string) : result string :=
  if negb (String.length f_vtk =? 0)%nat then
    if isfile fs f_vtk then
      celldata <- not_None (Data._celldata data) ;;
      user_tags fs settings celldata f_vtk template
    else
      Raise (Hdf2Mic_DrivingFileTaggingError (MissingOutputFile f_vtk))
  else Ok template.

(** [DriWriter.write]: the text written to the driving file, or [None] when
    the template could not be opened (the [IOError] is caught and reported). *)
Definition DriWriter_write (fs : filesystem) (data : Data.t)
    (settings : DriWriterSettings) (inputfile_template f_vtk f_txt : string)
  : result (option string) :=
  match read_text fs inputfile_template with
  | None => Ok None
  | Some template =>
      if (String.length template =? 0)%nat then
        Raise (Hdf2Mic_DrivingFileTaggingError (EmptyTemplate inputfile_template))
      else
        (* replace implicit tags *)
        dim <- not_None (Data._dim data) ;;
        dims <- not_None (Data.dimensions data) ;;
        template <- replace_cells 0 (Z.to_nat dim) dims template ;;
        spacing <- not_None (Data._spacing data) ;;
        spacing_0 <- str_first spacing ;;
        let template := _replace Data.DRI_TAG_SPACING spacing_0 template in
        template <-
          (if negb (String.length f_txt =? 0)%nat then
             if isfile fs f_txt then
               let f_txt := if makePathsAbsolute settings then abspath fs f_txt
                            else f_txt in
               Ok (_replace Data.DRI_TAG_GRAIN_PROPERTIES f_txt template)
             else
               Raise (Hdf2Mic_DrivingFileTaggingError (MissingOutputFile f_txt))
           else Ok template) ;;
        (* replace user-defined tags *)
        template <- write_user_tags fs data settings f_vtk template ;;
        (* save formatted driving template file *)
        Ok (Some template)
  end.

End Writers.

(** ** The reader, continued: the two sorts as one function *)

(** The two sorts of the [groups_celldata] setter (reader.py, lines 453-461)
    on tuples whose kinds are known, so that no key raises: the sort by the
    precedence of the kinds, then the sort of the FIELDs at the end of the
    list by their name.  [count_field_arrays], which the setter counts in
    the fourth list (line 343), is the number of FIELD tuples. *)
Definition two_sorts (tuples : list Reader.tuple4) : list Reader.tuple4 :=
  let count_field_arrays := List.length (filter Reader.is_FIELD tuples) in
  (* sort in-place by DatasetAttributeType *)
  let tuples := sort_key Nat.leb Reader.order_of tuples in
  if (count_field_arrays =? 0)%nat then tuples
  else
    (* sort FIELDs at end of list by dataName *)
    let count_non_field_arrays := (List.length tuples - count_field_arrays)%nat in
    let field_tuples :=
      sort_key String.leb Reader.tup_1 (skipn count_non_field_arrays tuples) in
    firstn count_non_field_arrays tuples ++ field_tuples.

(** ** The writers, continued: the arrays of the structured-grid file and
    the grain-property file *)

(** What ends a run of a writer early: an exception of [exn], the
    [ZeroDivisionError] of an integer division, or a step that the model
    does not describe. *)
Inductive stop : Type :=
| Exn (e : exn)
| ZeroDivisionError
| OutsideModel.

(** A run of a writer: the text written to the file, in order, and what
    ended the run early, if anything did.  The text written before an
    exception stays in the file. *)
Record run : Type := Run {
  text : string;
  stopped : option stop
}.

(** One run after another; the second does not take place when the first
    was stopped. *)
Definition and_then (a b : run) : run :=
  match stopped a with
  | Some _ => a
  | None => Run (text a ++ text b)%string (stopped b)
  end.

(** [a[i, j]] where the value is written as one number: an array of two
    axes.  On an array of fewer axes NumPy raises [IndexError]; on an array
    of more axes the item is an array again, whose rendering the model does
    not describe. *)
Definition item2 (a : ndarray) (i j : nat) : R + stop :=
  match shape a with
  | [] => inr (Exn IndexError)
  | [_] => inr (Exn IndexError)
  | [n; m] =>
      if (i <? n)%nat && (j <? m)%nat then inl (nth (i * m + j) (flat a) 0%R)
      else inr (Exn IndexError)
  | _ => inr OutsideModel
  end.

(** An array holds as many elements as its shape announces. *)
Definition well_formed (a : ndarray) : Prop :=
  List.length (flat a) = Np.prod (shape a).

Section TextWriters.

Local Open Scope string_scope.

Variable str_float : R -> string.
Variable format_f : nat -> R -> string.

(** [fmt % x] for the two formats the writer uses, ["%u"] and ["%f"]. *)
Variable percent : string -> R -> string.

(** *** [VtkWriter._write_array] (writer_vtk.py, lines 182-199) *)

(** The first line [np.savetxt] writes: [comments + header + newline], when
    the header is not empty. *)
Definition savetxt_header (header : string) : string :=
  if (String.length header =? 0)%nat then "" else header ++ newline.

(** [np.savetxt(f, bulk, fmt=fmt, delimiter=' ')]: one line per row. *)
Definition savetxt_rows (fmt : string) (rows : list (list R)) : string :=
  String.concat "" (map (fun row => Str.join " " (map (percent fmt) row) ++ newline) rows).

(** [np.savetxt(f, tail, fmt=fmt, newline=' ')] on an array of one axis:
    every element is a row, ended by a space. *)
Definition savetxt_tail (fmt : string) (tail : list R) : string :=
  String.concat "" (map (fun x => percent fmt x ++ " ") tail).

(** [bulk] and [tail] (lines 184-189), for a positive number of columns. *)
Definition bulk_and_tail (columns : Z) (array : ndarray) : list (list R) * list R :=
  let size := Z.of_nat (Np.prod (shape array)) in
  let divisor := (size / columns)%Z in
  let remainder := (size mod columns)%Z in
  let divisor_quotient := (size - remainder)%Z in
  (Np.blocks (Z.to_nat divisor) (Z.to_nat columns)
             (firstn (Z.to_nat divisor_quotient) (flat array)),
   skipn (Z.to_nat divisor_quotient) (flat array)).

(** [size / columns] raises for no column; what [reshape] makes of a
    negative number of columns is outside the model. *)
Definition _write_array (settings : VtkWriterSettings) (header dataType : string)
    (array : ndarray) : run :=
  let size := Z.of_nat (Np.prod (shape array)) in
  if (columns settings =? 0)%Z then Run "" (Some ZeroDivisionError)
  else if (columns settings <? 0)%Z then Run "" (Some OutsideModel)
  else
    let remainder := (size mod columns settings)%Z in
    let (bulk, tail) := bulk_and_tail (columns settings) array in
    let fmt :=
      if Reader.in_keys dataType Data.VTK_TYPE_MAP_VTK_TO_NUMPY_int then "%u"
      else "%f" in
    Run (savetxt_header header ++ savetxt_rows fmt bulk
         ++ (if (0 <? remainder)%Z then savetxt_tail fmt tail ++ newline else ""))
        None.

(** *** [VtkWriter.write] after the header (lines 104-176) *)

(** [_DATASET_ATTRIBUTE_TEMPLATES[kind].format(data_name=..., data_type=...)]
    for the four kinds whose template is one string; the loop that uses them
    leaves at a FIELD before looking its entry up. *)
Definition DATASET_ATTRIBUTE_TEMPLATES : list (string * (string -> string -> string)) :=
  [("SCALARS", fun data_name data_type =>
                 "SCALARS " ++ data_name ++ " " ++ data_type ++ newline
                 ++ "LOOKUP_TABLE default");
   ("VECTORS", fun data_name data_type => "VECTORS " ++ data_name ++ " " ++ data_type);
   ("NORMALS", fun data_name data_type => "NORMALS " ++ data_name ++ " " ++ data_type);
   ("TENSORS", fun data_name data_type => "TENSORS " ++ data_name ++ " " ++ data_type)].

(** The first template of a FIELD. *)
Definition FIELD_TEMPLATE_0 : string := "FIELD {data_name} {num_arrays}".

(** The second template of a FIELD, formatted:
    ["{array_name} {num_components} {num_tuples} {data_type}"]. *)
Definition FIELD_TEMPLATE_1_format (array_name : string) (num_components num_tuples : Z)
    (data_type : string) : string :=
  array_name ++ " " ++ Str.str_int num_components ++ " "
  ++ Str.str_int num_tuples ++ " " ++ data_type.

(** Neither brace occurs in the text. *)
Definition brace_free (s : string) : bool :=
  negb (Str.contains "{" s) && negb (Str.contains "}" s).

(** [header_field.format(data_name=dataName, num_arrays=numArrays)].  The
    receiver is the text the previous turn of the loop left in
    [header_field].  [str.format] fills the two fields of the template and
    returns a text without braces as it is; other texts are outside the
    model ([None]). *)
Definition format_header_field (header_field dataName : string) (numArrays : nat)
  : option string :=
  if header_field =? FIELD_TEMPLATE_0 then
    Some ("FIELD " ++ dataName ++ " " ++ Str.str_int (Z.of_nat numArrays))
  else if brace_free header_field then Some header_field
  else None.

(** write CellData: all except FIELDs (lines 108-120). *)
Fixpoint write_non_FIELD (settings : VtkWriterSettings) (celldata : list celltuple)
  : run :=
  match celldata with
  | [] => Run "" None
  | tupl :: celldata' =>
      let array := ct_array tupl in
      let dataName := ct_dataName tupl in
      let dataType := ct_dataType tupl in
      let datasetAttributeType := ct_datasetAttributeType tupl in
      if datasetAttributeType =? "FIELD" then Run "" None
      else
        match Data.lookup datasetAttributeType DATASET_ATTRIBUTE_TEMPLATES with
        | None => Run "" (Some (Exn (KeyError datasetAttributeType)))
        | Some template =>
            let header := template dataName dataType in
            and_then (_write_array settings header dataType array)
                     (write_non_FIELD settings celldata')
        end
  end.

(** [sum([tup[3] != 'FIELD' for tup in data.celldata])]. *)
Definition count_non_field_tuples (celldata : list celltuple) : nat :=
  List.length (filter (fun tup => negb (ct_datasetAttributeType tup =? "FIELD")) celldata).

(** [len(tup) == 7]. *)
Definition len_is_7 (tup : celltuple) : bool :=
  match ct_fieldArray tup with
  | Some _ => true
  | None => false
  end.

(** The two tests on the tuples from [count_non_field_tuples] on, made when
    there are such tuples (lines 127-140): the exception they raise, if
    any. *)
Definition FIELD_checks (celldata : list celltuple) : option exn :=
  let count_non_field_tuples := count_non_field_tuples celldata in
  if (count_non_field_tuples <? List.length celldata)%nat then
    match nth_error celldata count_non_field_tuples with
    | None => Some IndexError
    | Some tup =>
        if negb (ct_datasetAttributeType tup =? "FIELD") then
          Some (TypeError
                  ("vtk_writer: Expected CellData tuple "
                   ++ Str.str_int (Z.of_nat count_non_field_tuples)
                   ++ " to be 'FIELD' according to Data DatasetAttributeType sorting order, but was "
                   ++ ct_datasetAttributeType tup ++ "."))
        else if negb (forallb len_is_7 (skipn count_non_field_tuples celldata)) then
          Some (TypeError
                  ("vtk_writer: Expected CellData tuple "
                   ++ Str.str_int (Z.of_nat count_non_field_tuples)
                   ++ " and all following to be 'FIELD's according to Data DatasetAttributeTyp sorting order, each tuple having six elements (array, dataName, dataType, datasetAttributeType, arrayName, numTuples), but found other number of elements."))
        else None
    end
  else None.

(** write FIELD arrays (lines 162-176). *)
Fixpoint write_FIELD_arrays (settings : VtkWriterSettings) (tuples : list celltuple)
  : run :=
  match tuples with
  | [] => Run "" None
  | tuple :: tuples' =>
      match ct_fieldArray tuple with
      | None => Run "" (Some (Exn IndexError))
      | Some (arrayName, numComponents) =>
          let array := ct_array tuple in
          if (numComponents =? 0)%Z then Run "" (Some ZeroDivisionError)
          else
            let numTuples := (Z.of_nat (Np.prod (shape array)) / numComponents)%Z in
            let dataType := ct_dataType tuple in
            let header_array :=
              FIELD_TEMPLATE_1_format arrayName numComponents numTuples dataType in
            and_then (_write_array settings header_array dataType array)
                     (write_FIELD_arrays settings tuples')
      end
  end.

(** For each FIELD, write FIELD header, then each associated FIELD array
    (lines 149-176).  [header_field] is assigned in the loop, so it is part
    of the state. *)
Fixpoint write_FIELD_groups (settings : VtkWriterSettings) (header_field : string)
    (field_dataNames : list string) (fields : list celltuple) : run :=
  match field_dataNames with
  | [] => Run "" None
  | dataName :: field_dataNames' =>
      let tuples := filter (fun el => ct_dataName el =? dataName) fields in
      let numArrays := List.length tuples in
      match format_header_field header_field dataName numArrays with
      | None => Run "" (Some OutsideModel)
      | Some header_field =>
          and_then (Run (header_field ++ newline) None)
            (and_then (write_FIELD_arrays settings tuples)
                      (write_FIELD_groups settings header_field field_dataNames' fields))
      end
  end.

(** [list(sorted(set(l)))] on strings. *)
Definition sorted_set (l : list string) : list string :=
  sort_key String.leb (fun s => s) (nodup string_dec l).

(** write CellData: FIELDs (lines 126-176). *)
Definition write_FIELDs (settings : VtkWriterSettings) (celldata : list celltuple)
  : run :=
  let count_non_field_tuples := count_non_field_tuples celldata in
  match FIELD_checks celldata with
  | Some e => Run "" (Some (Exn e))
  | None =>
      if (count_non_field_tuples <? List.length celldata)%nat then
        let fields := skipn count_non_field_tuples celldata in
        let field_dataNames := sorted_set (map ct_dataName fields) in
        write_FIELD_groups settings FIELD_TEMPLATE_0 field_dataNames fields
      else Run "" None
  end.

(** [VtkWriter.write].  The two key sets compared first are equal. *)
Definition VtkWriter_write (data : Data.t) (settings : VtkWriterSettings) : run :=
  match VtkWriter_header str_float format_f data settings with
  | Raise e => Run "" (Some (Exn e))
  | Ok header =>
      and_then (Run header None)
        match Data._celldata data with
        | None => Run "" (Some (Exn (TypeError "NoneType")))
        | Some celldata =>
            and_then (write_non_FIELD settings celldata)
                     (write_FIELDs settings celldata)
        end
  end.

(** *** Notions used to state the properties of the writer *)

(** The groups as they would be written with one fixed header line. *)
Fixpoint groups_with_header (settings : VtkWriterSettings) (header_line : string)
    (field_dataNames : list string) (fields : list celltuple) : run :=
  match field_dataNames with
  | [] => Run "" None
  | dataName :: field_dataNames' =>
      and_then (Run (header_line ++ newline) None)
        (and_then (write_FIELD_arrays settings
                     (filter (fun el => ct_dataName el =? dataName) fields))
                  (groups_with_header settings header_line field_dataNames' fields))
  end.

(** The cell data as the classification leaves them: the entries that are no
    FIELD, of length 5, then the FIELD entries, of length 7. *)
Definition FIELDs_last (celldata : list celltuple) : Prop :=
  exists nonfield fields,
    celldata = (nonfield ++ fields)%list
    /\ Forall (fun c => (ct_datasetAttributeType c =? "FIELD") = false
                        /\ ct_fieldArray c = None) nonfield
    /\ Forall (fun c => (ct_datasetAttributeType c =? "FIELD") = true
                        /\ ct_fieldArray c <> None) fields.

(** No field spec of the tuple has 0 components. *)
Definition nonzero_components (c : celltuple) : bool :=
  match ct_fieldArray c with
  | Some (_, 0%Z) => false
  | _ => true
  end.

(** *** The grain-property writer: [TxtWriter.write] (writer_txt.py) *)

(** ["{}\n".format(a[i, j])]. *)
Definition write_item (a : ndarray) (i j : nat) : run :=
  match item2 a i j with
  | inl x => Run (str_float x ++ newline) None
  | inr s => Run "" (Some s)
  end.

(** [for columnID in range(data.angles.shape[1])]. *)
Fixpoint write_columns (a : ndarray) (kornID columnID n : nat) : run :=
  match n with
  | O => Run "" None
  | S n' => and_then (write_item a kornID columnID)
                     (write_columns a kornID (S columnID) n')
  end.

(** The body of the loop over the grains. *)
Definition write_grain (data : Data.t) (kornID : nat) : run :=
  and_then (Run ("# " ++ Str.str_int (Z.of_nat kornID + 1) ++ newline) None)
    (and_then
       match Data._phases data with
       | Some phases => write_item phases kornID 0
       | None => Run "" None
       end
       match Data._angles data with
       | Some angles =>
           match shape angles with
           | _ :: n :: _ => write_columns angles kornID 0 n
           | _ => Run "" (Some (Exn IndexError))
           end
       | None => Run "" None
       end).

(** [for kornID in range(data.grain_count)]. *)
Fixpoint write_grains (data : Data.t) (kornID n : nat) : run :=
  match n with
  | O => Run "" None
  | S n' => and_then (write_grain data kornID) (write_grains data (S kornID) n')
  end.

Definition TxtWriter_write (data : Data.t) : run :=
  match Data._grain_count data with
  | None => Run "" (Some (Exn (TypeError "NoneType")))
  | Some grain_count => write_grains data 0 grain_count
  end.

End TextWriters.

(** * Properties *)

(** ** The look-up of a path ([Reader.dset]) *)

Module DsetFacts.

Import H5.

(** A safe look-up never raises. *)
Lemma dset_safe_never_raises (A : Type) (f : h5file A) (h5path : string) :
  exists o, outcome (dset f h5path true) = Ok o.
Proof.
  unfold dset.
  destruct (((h5path =? "/") || (h5path =? "")) && true); simpl; eauto.
  destruct (f h5path); simpl; eauto.
Qed.

(** C9, as stated, fails: a mandatory look-up of ["/"] asks the file and
    returns what the file holds there. *)
Lemma dset_root_mandatory_is_queried :
  dset root_only "/" false = Lookup ["/"] (Ok (Some Group))
  /\ ~ treated_as_absent root_only "/" false.
Proof.
  split; [reflexivity|].
  unfold treated_as_absent. simpl. discriminate.
Qed.

(** C9, amended: for a path equal to ["/"] or to the empty string, a safe
    (optional) look-up returns [None] without asking the file; a mandatory
    look-up asks the file for that path like for any other, returns the
    object found there and raises [Hdf2Mic_HDF5DatasetNotFoundError] when
    there is none. *)
Theorem dset_root_or_empty (A : Type) (f : h5file A) (h5path : string)
    (H : h5path = "/" \/ h5path = "") :
  treated_as_absent f h5path true
  /\ queried (dset f h5path false) = [h5path]
  /\ outcome (dset f h5path false) =
       match f h5path with
       | Some d => Ok (Some d)
       | None => Raise (Hdf2Mic_HDF5DatasetNotFoundError h5path)
       end.
Proof.
  unfold treated_as_absent, dset.
  destruct H as [-> | ->]; simpl.
  - destruct (f "/"); auto.
  - destruct (f ""); auto.
Qed.

Lemma dset_root_or_empty_witness :
  ("/" = "/" \/ "/" = "")
  /\ treated_as_absent root_only "/" true
  /\ queried (dset root_only "/" false) = ["/"]
  /\ outcome (dset root_only "/" false) = Ok (Some Group).
Proof.
  split; [left; reflexivity|].
  apply (dset_root_or_empty root_only (h5path := "/")). left; reflexivity.
Defined.

End DsetFacts.

(** ** The cubic-cell check of [Data.spacing] *)

Module SpacingFacts.

Import Data.

Local Open Scope R_scope.

Lemma Reqb_true_iff (x y : R) : Reqb x y = true <-> x = y.
Proof.
  unfold Reqb. destruct (Req_dec_T x y); split; auto; discriminate.
Qed.

Lemma Reqb_refl (x : R) : Reqb x x = true.
Proof. apply Reqb_true_iff; reflexivity. Qed.

(** The test [all(value == value[0])] on a triple. *)
Lemma all_equal_triple (a b c : R) :
  forallb (fun x => Reqb x a) [a; b; c] = true <-> (a = b /\ b = c /\ a = c).
Proof.
  simpl. rewrite Reqb_refl, andb_true_r. simpl.
  rewrite andb_true_iff, !Reqb_true_iff.
  split.
  - intros [-> ->]. auto.
  - intros (-> & -> & _). auto.
Qed.

(** C3: a spacing triple whose components are not all equal is refused with
    the [ValueError] of the non-cubic cells, which carries the triple; a
    triple of pairwise equal components is stored (after
    [_convert2int_if_no_decimals]) and nothing else of the data changes. *)
Theorem spacing_setter_cubic_cells (a b c : R) (d : Data.t) :
  (~ (a = b /\ b = c /\ a = c) ->
     spacing_setter [a; b; c] d = Raise (ValueError (NonCubicCells [a; b; c])))
  /\ ((a = b /\ b = c /\ a = c) ->
      exists d',
        spacing_setter [a; b; c] d = Ok d'
        /\ _spacing d' = Some (_convert2int_if_no_decimals [a; b; c])
        /\ _origin d' = _origin d /\ dimensions d' = dimensions d).
Proof.
  unfold spacing_setter.
  destruct (forallb (fun x => Reqb x a) [a; b; c]) eqn:E.
  - apply all_equal_triple in E. split.
    + intros H. contradiction.
    + intros _. eexists. simpl. repeat split; reflexivity.
  - split.
    + intros _. reflexivity.
    + intros H. apply all_equal_triple in H. congruence.
Qed.

Lemma spacing_setter_cubic_cells_witness :
  spacing_setter [1; 2; 1] Data.init = Raise (ValueError (NonCubicCells [1; 2; 1]))
  /\ exists d', spacing_setter [1/2; 1/2; 1/2] Data.init = Ok d'.
Proof.
  split.
  - apply (proj1 (spacing_setter_cubic_cells 1 2 1 Data.init)).
    intros (H & _). lra.
  - destruct (proj2 (spacing_setter_cubic_cells (1/2) (1/2) (1/2) Data.init))
      as (d' & H & _).
    + repeat split; reflexivity.
    + exists d'. exact H.
Defined.

End SpacingFacts.

(** ** The row counts of angles and phases ([Data._compare_angles_phases]) *)

Module GrainFacts.

Import Data.

Lemma for_range_from_all_ok (body : nat -> result unit) (n start : nat) :
  (forall i, (start <= i < start + n)%nat -> body i = Ok tt) ->
  for_range_from start n body = Ok tt.
Proof.
  revert start. induction n as [|n IH]; intros start H; simpl.
  - reflexivity.
  - rewrite H by lia. simpl. apply IH. intros i Hi. apply H. lia.
Qed.

Lemma for_range_first_raises (body : nat -> result unit) (n : nat) (e : exn) :
  (0 < n)%nat -> body 0%nat = Raise e -> for_range n body = Raise e.
Proof.
  intros Hn H. destruct n as [|n]; [lia|].
  unfold for_range. simpl. rewrite H. reflexivity.
Qed.

(** [a[:, i]] of a table is a single-axis array with one entry per row. *)
Lemma column_of_table (r c i : nat) (f : list R) :
  (i < c)%nat ->
  exists col, Np.column (NdArray [r; c] f) i = Ok col /\ shape col = [r].
Proof.
  intros Hi. unfold Np.column. simpl shape. cbv iota beta.
  apply Nat.ltb_lt in Hi. rewrite Hi.
  eexists. split; [reflexivity|]. reflexivity.
Qed.

(** On two single-axis arrays [_has_equal_dimensions] compares the lengths. *)
Lemma has_equal_dimensions_columns (a b : ndarray) (ra rb : nat) :
  shape a = [ra] -> shape b = [rb] ->
  _has_equal_dimensions a b = (ra =? rb)%nat.
Proof.
  intros Ha Hb. unfold _has_equal_dimensions. rewrite Ha, Hb. simpl.
  rewrite !Nat.mul_1_r.
  destruct (ra =? rb)%nat; reflexivity.
Qed.

(** The check on two tables with at least one column each. *)
Lemma compare_tables (ra ca rp cp : nat) (fa fp : list R) (d : Data.t) :
  (0 < ca)%nat -> (0 < cp)%nat ->
  _angles d = Some (NdArray [ra; ca] fa) ->
  _phases d = Some (NdArray [rp; cp] fp) ->
  (ra <> rp ->
     exists a_0 p_0,
       _compare_angles_phases d =
         Raise (Hdf2Mic_HDF5DatasetDimensionError (AnglesPhasesMismatch a_0 p_0))
       /\ shape a_0 = [ra] /\ shape p_0 = [rp])
  /\ (ra = rp -> _compare_angles_phases d = Ok tt).
Proof.
  intros Hca Hcp Ha Hp. unfold _compare_angles_phases. rewrite Ha, Hp.
  simpl shape. cbv iota beta.
  destruct (column_of_table rp fp Hcp) as (p_0 & Hp_0 & Sp_0).
  split.
  - intros Hne.
    destruct (column_of_table ra fa Hca) as (a_0 & Ha_0 & Sa_0).
    exists a_0, p_0. split; [|split; assumption].
    apply for_range_first_raises; [assumption|].
    rewrite Ha_0. simpl. rewrite Hp_0. simpl.
    rewrite (has_equal_dimensions_columns _ _ Sa_0 Sp_0).
    apply Nat.eqb_neq in Hne. rewrite Hne. reflexivity.
  - intros ->. apply for_range_from_all_ok. intros i Hi.
    destruct (@column_of_table rp ca i fa) as (a_i & Ha_i & Sa_i); [lia|].
    rewrite Ha_i. simpl. rewrite Hp_0. simpl.
    rewrite (has_equal_dimensions_columns _ _ Sa_i Sp_0).
    rewrite Nat.eqb_refl. reflexivity.
Qed.

(** C4: the grain set is present when angles and phases are tables with at
    least one component (column) each.  Assigning the angles while the phases
    are present, or the phases while the angles are present, raises
    [Hdf2Mic_HDF5DatasetDimensionError] exactly when the numbers of rows
    differ; the error is formatted with the first angle column and the phase
    column, of [ra] and [rp] entries; with equal numbers of rows the
    assignment succeeds and stores the array and the grain count. *)
Theorem angles_phases_row_counts (ra ca rp cp : nat) (fa fp : list R) (d : Data.t)
    (Hca : (0 < ca)%nat) (Hcp : (0 < cp)%nat) :
  let angles := NdArray [ra; ca] fa in
  let phases := NdArray [rp; cp] fp in
  (_phases d = Some phases ->
     ((exists m, angles_setter (Some angles) d
                 = Raise (Hdf2Mic_HDF5DatasetDimensionError m)) <-> ra <> rp)
     /\ (ra <> rp ->
         exists a_0 p_0,
           angles_setter (Some angles) d =
             Raise (Hdf2Mic_HDF5DatasetDimensionError (AnglesPhasesMismatch a_0 p_0))
           /\ shape a_0 = [ra] /\ shape p_0 = [rp])
     /\ (ra = rp ->
         exists d', angles_setter (Some angles) d = Ok d'
                    /\ _angles d' = Some angles /\ _phases d' = Some phases
                    /\ _grain_count d' = Some ra))
  /\ (_angles d = Some angles ->
     ((exists m, phases_setter (Some phases) d
                 = Raise (Hdf2Mic_HDF5DatasetDimensionError m)) <-> ra <> rp)
     /\ (ra <> rp ->
         exists a_0 p_0,
           phases_setter (Some phases) d =
             Raise (Hdf2Mic_HDF5DatasetDimensionError (AnglesPhasesMismatch a_0 p_0))
           /\ shape a_0 = [ra] /\ shape p_0 = [rp])
     /\ (ra = rp ->
         exists d', phases_setter (Some phases) d = Ok d'
                    /\ _angles d' = Some angles /\ _phases d' = Some phases
                    /\ _grain_count d' = Some rp)).
Proof.
  intros angles phases. split.
  - intros Hp. unfold angles_setter.
    set (d1 := Make _ _ _ _ _ _ _ _ _ _).
    destruct (@compare_tables ra ca rp cp fa fp d1 Hca Hcp eq_refl Hp) as [Hne Heq].
    assert (Hbad : ra <> rp ->
              exists a_0 p_0,
                (_ <- _compare_angles_phases d1 ;; Ok d1) =
                  Raise (Hdf2Mic_HDF5DatasetDimensionError (AnglesPhasesMismatch a_0 p_0))
                /\ shape a_0 = [ra] /\ shape p_0 = [rp]).
    { intros H. destruct (Hne H) as (a_0 & p_0 & E & Sa & Sp).
      exists a_0, p_0. rewrite E. auto. }
    split; [|split].
    + split.
      * intros [m Hm]. intros ->. rewrite (Heq eq_refl) in Hm. discriminate.
      * intros H. destruct (Hbad H) as (a_0 & p_0 & E & _). eauto.
    + exact Hbad.
    + intros H. exists d1. rewrite (Heq H). simpl. auto.
  - intros Ha. unfold phases_setter.
    set (d1 := Make _ _ _ _ _ _ _ _ _ _).
    destruct (@compare_tables ra ca rp cp fa fp d1 Hca Hcp Ha eq_refl) as [Hne Heq].
    assert (Hbad : ra <> rp ->
              exists a_0 p_0,
                (_ <- _compare_angles_phases d1 ;; Ok d1) =
                  Raise (Hdf2Mic_HDF5DatasetDimensionError (AnglesPhasesMismatch a_0 p_0))
                /\ shape a_0 = [ra] /\ shape p_0 = [rp]).
    { intros H. destruct (Hne H) as (a_0 & p_0 & E & Sa & Sp).
      exists a_0, p_0. rewrite E. auto. }
    split; [|split].
    + split.
      * intros [m Hm]. intros ->. rewrite (Heq eq_refl) in Hm. discriminate.
      * intros H. destruct (Hbad H) as (a_0 & p_0 & E & _). eauto.
    + exact Hbad.
    + intros H. exists d1. rewrite (Heq H). simpl. auto.
Qed.

Lemma angles_phases_row_counts_witness :
  let d := Make (Some 3%Z) (Some (NdArray [2; 3] [10; 20; 30; 40; 50; 60]%R))
                None (Some 2%nat) None None None None None None in
  (0 < 3)%nat /\ (0 < 1)%nat
  /\ (exists d', phases_setter (Some (NdArray [2; 1] [1; 2]%R)) d = Ok d')
  /\ (exists m, phases_setter (Some (NdArray [3; 1] [1; 1; 2]%R)) d
                = Raise (Hdf2Mic_HDF5DatasetDimensionError m)).
Proof.
  intros d. split; [lia|]. split; [lia|]. split.
  - destruct (@angles_phases_row_counts 2 3 2 1 [10; 20; 30; 40; 50; 60]%R
                [1; 2]%R d ltac:(lia) ltac:(lia)) as [_ H].
    destruct (H eq_refl) as (_ & _ & Heq).
    destruct (Heq eq_refl) as (d' & E & _). exists d'. exact E.
  - destruct (@angles_phases_row_counts 2 3 3 1 [10; 20; 30; 40; 50; 60]%R
                [1; 1; 2]%R d ltac:(lia) ltac:(lia)) as [_ H].
    destruct (H eq_refl) as (_ & Hne & _).
    destruct Hne as (a_0 & p_0 & E & _); [lia|].
    exists (AnglesPhasesMismatch a_0 p_0). exact E.
Defined.

(** With no angle component at all the loop of the check is empty: the
    assignment succeeds whatever the row counts are. *)
Lemma no_component_no_check (ra rp cp : nat) (fa fp : list R) (d : Data.t) :
  _angles d = Some (NdArray [ra; 0%nat] fa) ->
  _phases d = Some (NdArray [rp; cp] fp) ->
  _compare_angles_phases d = Ok tt.
Proof.
  intros Ha Hp. unfold _compare_angles_phases. rewrite Ha, Hp. reflexivity.
Qed.

End GrainFacts.

(** ** Grid dimensions: [Reader.group_dimensions] and the header of the
    structured-grid file *)

Module DimensionFacts.

Import H5 Reader.

Lemma dset_content_found (A : Type) (f : h5file A) (value : string) (a : A) :
  f value = Some (Dataset a) -> dset_content f value = Ok a.
Proof.
  intros H. unfold dset_content, dset. rewrite andb_false_r, H. reflexivity.
Qed.

(** Wrapping around leaves a 64-bit integer as it is. *)
Lemma wrap64_int64 (z : Z) :
  (Np.min_int64 <= z <= Np.max_int64)%Z -> Np.wrap64 z = z.
Proof.
  unfold Np.min_int64, Np.max_int64, Np.wrap64. intros H.
  rewrite Z.mod_small by lia. lia.
Qed.

(** A factor may be wrapped before the multiplication or not. *)
Lemma wrap64_mul (a d : Z) : Np.wrap64 (Np.wrap64 a * d) = Np.wrap64 (a * d).
Proof.
  unfold Np.wrap64. f_equal.
  rewrite (Z.mod_eq (a + 2 ^ 63) (2 ^ 64)) by lia.
  replace ((a + 2 ^ 63 - 2 ^ 64 * ((a + 2 ^ 63) / 2 ^ 64) - 2 ^ 63) * d + 2 ^ 63)%Z
    with (a * d + 2 ^ 63 + (- ((a + 2 ^ 63) / 2 ^ 64) * d) * 2 ^ 64)%Z by ring.
  apply Z.mod_add. lia.
Qed.

(** [np.product] is the product of the entries, wrapped around once. *)
Lemma product_wraps (l : list Z) : product l = Np.wrap64 (fold_right Z.mul 1%Z l).
Proof.
  unfold product.
  assert (H : forall a : Z,
             fold_left (fun acc d => Np.wrap64 (acc * d)) l (Np.wrap64 a)
             = Np.wrap64 (a * fold_right Z.mul 1%Z l)).
  { induction l as [|d l IH]; intros a; simpl.
    - rewrite Z.mul_1_r. reflexivity.
    - rewrite wrap64_mul, IH. f_equal. ring. }
  rewrite <- (Z.mul_1_l (fold_right Z.mul 1%Z l)), <- H. reflexivity.
Qed.

Lemma product_nonneg (l : list Z) :
  Forall (fun d => (0 <= d)%Z) l -> (0 <= fold_right Z.mul 1%Z l)%Z.
Proof.
  induction 1 as [|d l Hd Hl IH]; simpl; [lia|]. apply Z.mul_nonneg_nonneg; assumption.
Qed.

(** C7, as stated, fails: in a 3-D run with [rotate] set the stored
    dimensions are not the point counts of the axes in their order; for the
    cell counts [3, 4, 5] they are [4, 6, 5]. *)
Lemma group_dimensions_exchanges_y_and_z :
  let f : h5file (list Z) :=
    fun p => if p =? "/geometry/DIMENSIONS" then Some (Dataset [3; 4; 5]%Z)
             else None in
  let r := Reader.Make (Settings true false) (Some 3%Z) Data.init in
  exists r',
    group_dimensions_setter f "/geometry/DIMENSIONS" r = Ok r'
    /\ Data.dimensions (data r') = Some [4; 6; 5]%Z
    /\ Data.dimensions (data r') <> Some (map (fun d => (d + 1)%Z) [3; 4; 5]%Z).
Proof.
  intros f r. eexists. split; [reflexivity|].
  split; [reflexivity | discriminate].
Qed.

(** C7, amended: for a geometry source that gives the cell counts per
    axis, each a number from 0 to below 2^63 - 1, the stored dimensions are
    the point counts, one more than the cell count of each axis, in the
    order of the source; only in a 3-D run with [rotate] set the point
    counts of the second and the third axis are exchanged.  The stored
    cell-data size is the product of the cell counts as 64-bit arithmetic
    gives it, which is the product itself whenever that is below 2^63.  For
    the cell counts [3, 3, 1] in a 2-D run the header of the structured-grid
    file has the lines [DIMENSIONS 4 4 2] and [CELL_DATA 9]. *)
Theorem group_dimensions_point_counts :
  (forall (f : h5file (list Z)) (value : string) (r : Reader.t) (cells : list Z),
      f value = Some (Dataset cells) ->
      Forall (fun d => (0 <= d < Np.max_int64)%Z) cells ->
      let cell_count := fold_right Z.mul 1%Z cells in
      (rotate (settings r) && dim_is r 3 = false ->
         exists r',
           group_dimensions_setter f value r = Ok r'
           /\ Data.dimensions (data r') = Some (map (fun d => (d + 1)%Z) cells)
           /\ Data._celldata_size (data r') = Some (Np.wrap64 cell_count))
      /\ (rotate (settings r) && dim_is r 3 = true ->
          forall x y z, cells = [x; y; z] ->
          exists r',
            group_dimensions_setter f value r = Ok r'
            /\ Data.dimensions (data r') = Some [x + 1; z + 1; y + 1]%Z
            /\ Data._celldata_size (data r') = Some (Np.wrap64 cell_count))
      /\ ((cell_count <= Np.max_int64)%Z -> Np.wrap64 cell_count = cell_count))
  /\ (forall (str_float : R -> string) (format_f : nat -> R -> string)
             (f : h5file (list Z)) (value : string) (r : Reader.t)
             (vs : VtkWriterSettings) (spacing origin : numarr),
        f value = Some (Dataset [3; 3; 1]%Z) ->
        _dim r = Some 2%Z ->
        Data._spacing (data r) = Some spacing ->
        Data._origin (data r) = Some origin ->
        exists r',
          group_dimensions_setter f value r = Ok r'
          /\ VtkWriter_header str_float format_f (data r') vs =
               Ok ("# vtk DataFile Version " ++ format_f 1%nat (version vs) ++ newline
                   ++ match Data.time (data r) with
                      | Some time => "t=" ++ format_f 5%nat time ++ " s"
                      | None => "t=? s"
                      end ++ newline
                   ++ "ASCII" ++ newline
                   ++ "DATASET STRUCTURED_POINTS" ++ newline
                   ++ "DIMENSIONS 4 4 2" ++ newline
                   ++ "SPACING " ++ Str.join " " (map_str str_float spacing) ++ newline
                   ++ "ORIGIN " ++ Str.join " " (map_str str_float origin) ++ newline
                   ++ "CELL_DATA 9" ++ newline)%string).
Proof.
  split.
  - intros f value r cells Hf Hcells cell_count. unfold group_dimensions_setter.
    rewrite (dset_content_found f value Hf). cbn [bind].
    rewrite product_wraps. fold cell_count.
    split; [|split].
    + intros ->. cbn [bind]. eexists. split; [reflexivity|]. simpl. auto.
    + intros -> x y z E. rewrite E. cbn [bind map item nth_error].
      eexists. split; [reflexivity|]. simpl. auto.
    + intros Hmax. apply wrap64_int64. split; [|exact Hmax].
      assert (0 <= cell_count)%Z.
      { apply product_nonneg. apply Forall_impl with (2 := Hcells). intros; lia. }
      unfold Np.min_int64. lia.
  - intros str_float format_f f value r vs spacing origin Hf Hdim Hs Ho.
    unfold group_dimensions_setter.
    rewrite (dset_content_found f value Hf). cbn [bind].
    assert (E : rotate (settings r) && dim_is r 3 = false).
    { unfold dim_is. rewrite Hdim. simpl. apply andb_false_r. }
    rewrite E. cbn [bind]. eexists. split; [reflexivity|].
    unfold VtkWriter_header. simpl. rewrite Hs, Ho. simpl.
    destruct (Data.time (data r)); reflexivity.
Qed.

(** The cell counts [3, 3, 1] in a 2-D run and [3, 4, 5] in a 3-D run with
    [rotate] set. *)
Lemma group_dimensions_point_counts_witness :
  let f : h5file (list Z) :=
    fun p => if p =? "/geometry/DIMENSIONS" then Some (Dataset [3; 3; 1]%Z)
             else if p =? "/other/DIMENSIONS" then Some (Dataset [3; 4; 5]%Z)
             else None in
  let d := Data.Make (Some 2%Z) None None None None None None
                     (Some (IntArray [0; 0; 0]%Z)) (Some (IntArray [1; 1; 1]%Z))
                     None in
  let r := Reader.Make (Settings true false) (Some 2%Z) d in
  let r3 := Reader.Make (Settings true false) (Some 3%Z) Data.init in
  (exists r',
     group_dimensions_setter f "/geometry/DIMENSIONS" r = Ok r'
     /\ Data.dimensions (data r') = Some [4; 4; 2]%Z
     /\ Data._celldata_size (data r') = Some 9%Z)
  /\ (exists r',
        group_dimensions_setter f "/other/DIMENSIONS" r3 = Ok r'
        /\ Data.dimensions (data r') = Some [4; 6; 5]%Z
        /\ Data._celldata_size (data r') = Some 60%Z)
  /\ (exists r' header,
        group_dimensions_setter f "/geometry/DIMENSIONS" r = Ok r'
        /\ VtkWriter_header (fun _ => "0") (fun _ _ => "3.0") (data r')
             (Build_VtkWriterSettings 3 0) = Ok header
        /\ Str.contains "DIMENSIONS 4 4 2" header = true
        /\ Str.contains "CELL_DATA 9" header = true).
Proof.
  intros f d r r3.
  assert (Hcells : Forall (fun d => (0 <= d < Np.max_int64)%Z) [3; 3; 1]%Z).
  { unfold Np.max_int64. repeat constructor; lia. }
  assert (Hcells3 : Forall (fun d => (0 <= d < Np.max_int64)%Z) [3; 4; 5]%Z).
  { unfold Np.max_int64. repeat constructor; lia. }
  split; [|split].
  - destruct (proj1 group_dimensions_point_counts f "/geometry/DIMENSIONS" r
                [3; 3; 1]%Z eq_refl Hcells) as (H & _ & _).
    destruct (H eq_refl) as (r' & E & Hd & Hs).
    exists r'. split; [exact E|]. split; [exact Hd | exact Hs].
  - destruct (proj1 group_dimensions_point_counts f "/other/DIMENSIONS" r3
                [3; 4; 5]%Z eq_refl Hcells3) as (_ & H & _).
    destruct (H eq_refl 3%Z 4%Z 5%Z eq_refl) as (r' & E & Hd & Hs).
    exists r'. split; [exact E|]. split; [exact Hd | exact Hs].
  - destruct (proj2 group_dimensions_point_counts (fun _ => "0") (fun _ _ => "3.0")
                f "/geometry/DIMENSIONS" r (Build_VtkWriterSettings 3 0)
                (IntArray [1; 1; 1]%Z) (IntArray [0; 0; 0]%Z)
                eq_refl eq_refl eq_refl eq_refl) as (r' & E & Hh).
    exists r'. eexists. split; [exact E|]. split; [exact Hh|].
    split; reflexivity.
Defined.

End DimensionFacts.

(** ** The grain-property file in the driving template ([DriWriter.write]) *)

Module DriFacts.

Section Engine.

Variable str_float : R -> string.
Variable fs : filesystem.
Variable settings : DriWriterSettings.

(** The path that replaces the grain-properties tag. *)
Let txt_path (f_txt : string) : string :=
  if makePathsAbsolute settings then abspath fs f_txt else f_txt.

(** C8: the template is read and is not empty, and the implicit tags (cells
    per axis, spacing) have been replaced, giving [template2].  With a
    grain-property file [f_txt] configured: if [f_txt] is not a file on disk
    the writer raises [Hdf2Mic_DrivingFileTaggingError] for that missing
    output file; if it is a file, the grain-properties tag is replaced by its
    path, which is [os.path.abspath(f_txt)] when [makePathsAbsolute] is set
    and [f_txt] otherwise.  The text so obtained is what the writer goes on
    with: it is written when no structured-grid file is given, and it is
    handed to the loop over the user-defined tags otherwise, whose result,
    a text or an exception, is the result of the writer. *)
Theorem write_grain_properties_file
    (data : Data.t) (inputfile_template f_vtk f_txt : string)
    (template template1 spacing_0 : string) (dim : Z) (dims : list Z) (spacing : numarr)
    (Hread : read_text fs inputfile_template = Some template)
    (Hnonempty : template <> EmptyString)
    (Hdim : Data._dim data = Some dim)
    (Hdims : Data.dimensions data = Some dims)
    (Hcells : replace_cells 0 (Z.to_nat dim) dims template = Ok template1)
    (Hspacing : Data._spacing data = Some spacing)
    (Hfirst : str_first str_float spacing = Ok spacing_0)
    (Htxt : f_txt <> EmptyString) :
  let template2 := _replace Data.DRI_TAG_SPACING spacing_0 template1 in
  let template3 := _replace Data.DRI_TAG_GRAIN_PROPERTIES (txt_path f_txt) template2 in
  (isfile fs f_txt = false ->
     DriWriter_write str_float fs data settings inputfile_template f_vtk f_txt
     = Raise (Hdf2Mic_DrivingFileTaggingError (MissingOutputFile f_txt)))
  /\ (isfile fs f_txt = true ->
      (Str.contains Data.DRI_TAG_GRAIN_PROPERTIES template2 = true ->
         template3 = Str.replace Data.DRI_TAG_GRAIN_PROPERTIES (txt_path f_txt) template2)
      /\ (f_vtk = EmptyString ->
          DriWriter_write str_float fs data settings inputfile_template f_vtk f_txt
          = Ok (Some template3))
      /\ (f_vtk <> EmptyString -> isfile fs f_vtk = false ->
          DriWriter_write str_float fs data settings inputfile_template f_vtk f_txt
          = Raise (Hdf2Mic_DrivingFileTaggingError (MissingOutputFile f_vtk)))
      /\ (forall celldata,
            f_vtk <> EmptyString -> isfile fs f_vtk = true ->
            Data._celldata data = Some celldata ->
            DriWriter_write str_float fs data settings inputfile_template f_vtk f_txt
            = (written <- user_tags fs settings celldata f_vtk template3 ;;
               Ok (Some written)))).
Proof.
  intros template2 template3.
  assert (Hlen : forall s : string, s <> EmptyString ->
                                    (String.length s =? 0)%nat = false).
  { intros [|c s] H; [congruence | reflexivity]. }
  unfold DriWriter_write. rewrite Hread, (Hlen _ Hnonempty), Hdim. simpl bind.
  rewrite Hdims. simpl bind. rewrite Hcells. simpl bind.
  rewrite Hspacing. simpl bind. rewrite Hfirst. simpl bind.
  rewrite (Hlen _ Htxt). simpl negb. cbv iota.
  split.
  - intros ->. reflexivity.
  - intros ->. cbn [bind]. fold (txt_path f_txt). fold template2. fold template3.
    unfold write_user_tags.
    split; [|split; [|split]].
    + intros Hc. unfold template3, _replace. rewrite Hc. reflexivity.
    + intros ->. reflexivity.
    + intros Hv Hf. rewrite (Hlen _ Hv), Hf. reflexivity.
    + intros celldata Hv Hf Hc. rewrite (Hlen _ Hv), Hf, Hc. reflexivity.
Qed.

End Engine.

(** A file system with two output files, [out/grains.txt] and
    [out/grid.vtk], and the template [in/template.dri]; cell data of one
    tagged attribute that is no FIELD. *)
Lemma write_grain_properties_file_witness :
  let fs := Build_filesystem
              (fun p => if p =? "in/template.dri"
                        then Some "cells <cellsX> file <grain-properties> ids <ids>"
                        else None)
              (fun p => (p =? "out/grains.txt") || (p =? "out/grid.vtk"))
              (fun p => ("/work/" ++ p)%string) in
  let data := Data.Make (Some 1%Z) None None None
                        (Some [CellTuple (NdArray [1%nat; 1%nat] [7%R])
                                         "grain" "int" "SCALARS" None "<ids>"])
                        (Some [11%Z]) None None
                        (Some (IntArray [2%Z])) None in
  DriWriter_write (fun _ => "") fs data (Build_DriWriterSettings true)
                  "in/template.dri" "" "out/grains.txt"
  = Ok (Some "cells 10 file /work/out/grains.txt ids <ids>")
  /\ DriWriter_write (fun _ => "") fs data (Build_DriWriterSettings true)
                     "in/template.dri" "" "out/missing.txt"
     = Raise (Hdf2Mic_DrivingFileTaggingError (MissingOutputFile "out/missing.txt"))
  /\ DriWriter_write (fun _ => "") fs data (Build_DriWriterSettings true)
                     "in/template.dri" "out/grid.vtk" "out/grains.txt"
     = Ok (Some "cells 10 file /work/out/grains.txt ids /work/out/grid.vtk grain").
Proof.
  intros fs data. split; [|split].
  - refine (proj1 (proj2 (proj2 (@write_grain_properties_file (fun _ => "") fs
                     (Build_DriWriterSettings true) data
                     "in/template.dri" "" "out/grains.txt"
                     "cells <cellsX> file <grain-properties> ids <ids>"
                     "cells 10 file <grain-properties> ids <ids>" "2" 1%Z [11%Z]
                     (IntArray [2%Z])
                     eq_refl _ eq_refl eq_refl eq_refl eq_refl eq_refl _)
                   eq_refl)) eq_refl); discriminate.
  - refine (proj1 (@write_grain_properties_file (fun _ => "") fs
                     (Build_DriWriterSettings true) data
                     "in/template.dri" "" "out/missing.txt"
                     "cells <cellsX> file <grain-properties> ids <ids>"
                     "cells 10 file <grain-properties> ids <ids>" "2" 1%Z [11%Z]
                     (IntArray [2%Z])
                     eq_refl _ eq_refl eq_refl eq_refl eq_refl eq_refl _)
                   eq_refl); discriminate.
  - refine (proj2 (proj2 (proj2 (proj2 (@write_grain_properties_file (fun _ => "") fs
                     (Build_DriWriterSettings true) data
                     "in/template.dri" "out/grid.vtk" "out/grains.txt"
                     "cells <cellsX> file <grain-properties> ids <ids>"
                     "cells 10 file <grain-properties> ids <ids>" "2" 1%Z [11%Z]
                     (IntArray [2%Z])
                     eq_refl _ eq_refl eq_refl eq_refl eq_refl eq_refl _)
                   eq_refl))) _ _ eq_refl eq_refl); discriminate.
Defined.

End DriFacts.

(** ** The rotation transform *)

Module RotFacts.

Import RotMat.

Local Open Scope R_scope.

Lemma mat3_eq a00 a01 a02 a10 a11 a12 a20 a21 a22 b00 b01 b02 b10 b11 b12 b20 b21 b22 :
  a00 = b00 -> a01 = b01 -> a02 = b02 ->
  a10 = b10 -> a11 = b11 -> a12 = b12 ->
  a20 = b20 -> a21 = b21 -> a22 = b22 ->
  Mat3 a00 a01 a02 a10 a11 a12 a20 a21 a22 = Mat3 b00 b01 b02 b10 b11 b12 b20 b21 b22.
Proof. intros; subst; reflexivity. Qed.

Ltac mat_ring := apply mat3_eq; ring.

Lemma dot_assoc A B C : dot (dot A B) C = dot A (dot B C).
Proof. destruct A, B, C; simpl; mat_ring. Qed.

Lemma transpose_dot A B : transpose (dot A B) = dot (transpose B) (transpose A).
Proof. destruct A, B; simpl; mat_ring. Qed.

Lemma dot_identity_l A : dot identity3 A = A.
Proof. destruct A; simpl; mat_ring. Qed.

Lemma dot_identity_r A : dot A identity3 = A.
Proof. destruct A; simpl; mat_ring. Qed.

Lemma cofactor_dot A B : cofactor (dot A B) = dot (cofactor A) (cofactor B).
Proof. destruct A, B; simpl; mat_ring. Qed.

Lemma rotation_dot A B : rotation A -> rotation B -> rotation (dot A B).
Proof.
  intros (A1 & A2 & A3) (B1 & B2 & B3). repeat split.
  - rewrite transpose_dot, dot_assoc, <- (dot_assoc (transpose A)), A1.
    rewrite dot_identity_l. exact B1.
  - rewrite transpose_dot, dot_assoc, <- (dot_assoc B), B2.
    rewrite dot_identity_l. exact A2.
  - rewrite cofactor_dot, A3, B3. reflexivity.
Qed.

Lemma sin2_cos2' x : sin x * sin x + cos x * cos x = 1.
Proof. pose proof (sin2_cos2 x) as H. unfold Rsqr in H. exact H. Qed.

Ltac mat_trig x :=
  pose proof (sin2_cos2' x); apply mat3_eq; nra.

Lemma rotation_R0 phi : rotation (R0 phi).
Proof. unfold rotation, R0; simpl. repeat split; mat_trig phi. Qed.

Lemma rotation_R1 theta : rotation (R1 theta).
Proof. unfold rotation, R1; simpl. repeat split; mat_trig theta. Qed.

Lemma rotation_R2 psi : rotation (R2 psi).
Proof. exact (rotation_R0 psi). Qed.

Lemma rotation_Ram : rotation Ram.
Proof. unfold rotation, Ram; simpl. repeat split; mat_ring. Qed.

Lemma rotation_Rma : rotation Rma.
Proof. unfold rotation, Rma; simpl. repeat split; mat_ring. Qed.

Create HintDb rotations.

#[local] Hint Resolve rotation_dot rotation_R0 rotation_R1 rotation_R2
  rotation_Ram rotation_Rma : rotations.

Lemma rotation_REuler phi theta psi : rotation (REuler phi theta psi).
Proof. unfold REuler. auto with rotations. Qed.

#[local] Hint Resolve rotation_REuler : rotations.

Lemma Ram_Rma : dot Ram Rma = identity3.
Proof. unfold Ram, Rma; simpl; mat_ring. Qed.

Lemma Rma_Ram : dot Rma Ram = identity3.
Proof. unfold Ram, Rma; simpl; mat_ring. Qed.

Lemma Rltb_true x y : x < y -> Rltb x y = true.
Proof. intros H. unfold Rltb. destruct (Rlt_dec x y); [reflexivity | contradiction]. Qed.

Lemma Rltb_false x y : ~ x < y -> Rltb x y = false.
Proof. intros H. unfold Rltb. destruct (Rlt_dec x y); [contradiction | reflexivity]. Qed.

Lemma Rgtb_true x y : y < x -> Rgtb x y = true.
Proof. intros H. unfold Rgtb. destruct (Rgt_dec x y); [reflexivity | contradiction]. Qed.

Lemma Rgtb_false x y : ~ y < x -> Rgtb x y = false.
Proof. intros H. unfold Rgtb. destruct (Rgt_dec x y); [contradiction | reflexivity]. Qed.

Lemma isRotationMatrix_rotation M : rotation M -> isRotationMatrix M = true.
Proof.
  intros (H & _). unfold isRotationMatrix. rewrite H. simpl.
  apply Rltb_true.
  replace ((1 - 1) * (1 - 1) + (0 - 0) * (0 - 0) + (0 - 0) * (0 - 0) +
           (0 - 0) * (0 - 0) + (1 - 1) * (1 - 1) + (0 - 0) * (0 - 0) +
           (0 - 0) * (0 - 0) + (0 - 0) * (0 - 0) + (1 - 1) * (1 - 1)) with 0 by ring.
  rewrite sqrt_0. lra.
Qed.

Lemma clamp_id x : -1 <= x <= 1 -> clamp x = x.
Proof.
  intros H. unfold clamp. rewrite Rgtb_false by lra. rewrite Rltb_false by lra.
  reflexivity.
Qed.

Lemma sin_add_turn x : sin (x + 2 * PI) = sin x.
Proof. rewrite sin_plus, cos_2PI, sin_2PI. ring. Qed.

Lemma cos_add_turn x : cos (x + 2 * PI) = cos x.
Proof. rewrite cos_plus, cos_2PI, sin_2PI. ring. Qed.

Lemma sin_sub_turn x : sin (x - 2 * PI) = sin x.
Proof. rewrite sin_minus, cos_2PI, sin_2PI. ring. Qed.

Lemma cos_sub_turn x : cos (x - 2 * PI) = cos x.
Proof. rewrite cos_minus, cos_2PI, sin_2PI. ring. Qed.

(** The recovery gives back an angle of one turn from its sine and cosine. *)
Lemma angle_of_sin_cos_exact (tol a : R) :
  0 < tol -> 0 <= a < 2 * PI -> tol < 2 * Rabs (cos a) ->
  fold_negative (angle_of_sin_cos tol (sin a) (cos a)) = a.
Proof.
  intros Htol Ha Hwin. pose proof PI_RGT_0 as Hpi.
  unfold angle_of_sin_cos. rewrite (clamp_id (SIN_bound a)).
  destruct (Rle_dec a (PI / 2)) as [H1 | H1].
  - (* first quadrant *)
    rewrite asin_sin by lra.
    replace (cos a - cos a) with 0 by ring. rewrite Rabs_R0.
    rewrite (@Rgtb_false 0 tol) by lra.
    rewrite Rgtb_false by lra.
    unfold fold_negative. rewrite Rltb_false by lra. reflexivity.
  - destruct (Rlt_dec a (3 * (PI / 2))) as [H2 | H2].
    + (* second and third quadrant: the arc sine is the mirror image *)
      rewrite <- (sin_PI_x a). rewrite asin_sin by lra.
      rewrite Rtrigo_facts.cos_pi_minus.
      replace (- cos a - cos a) with (- (2 * cos a)) by ring.
      rewrite Rabs_Ropp, Rabs_mult, (Rabs_pos_eq 2) by lra.
      rewrite (@Rgtb_true (2 * Rabs (cos a)) tol) by lra.
      replace (PI - (PI - a)) with a by ring.
      unfold fold_negative.
      destruct (Rlt_dec (PI + 1e-6) a) as [H3 | H3].
      * rewrite Rgtb_true by lra. rewrite Rltb_true by lra. ring.
      * rewrite Rgtb_false by lra. rewrite Rltb_false by lra. reflexivity.
    + (* fourth quadrant *)
      rewrite <- (sin_sub_turn a). rewrite asin_sin by lra.
      rewrite cos_sub_turn.
      replace (cos a - cos a) with 0 by ring. rewrite Rabs_R0.
      rewrite (@Rgtb_false 0 tol) by lra.
      rewrite Rgtb_false by lra.
      unfold fold_negative. rewrite Rltb_true by lra. ring.
Qed.

(** What the recovery guarantees for any sine and cosine of one angle. *)
Lemma angle_of_sin_cos_sound (tol s c : R) :
  0 < tol -> s * s + c * c = 1 ->
  let x := fold_negative (angle_of_sin_cos tol s c) in
  sin x = s /\ (tol < 2 * Rabs (cos x) -> cos x = c) /\ 0 <= x.
Proof.
  intros Htol Hsc. pose proof PI_RGT_0 as Hpi.
  assert (Hs : -1 <= s <= 1) by nra.
  unfold angle_of_sin_cos. rewrite (clamp_id Hs).
  pose proof (asin_bound s) as Hb.
  pose proof (sin_asin s Hs) as Hsin.
  assert (Hcos : cos (asin s) = Rabs c).
  { rewrite (cos_asin s Hs). rewrite <- sqrt_Rsqr_abs. f_equal. unfold Rsqr. lra. }
  destruct (Rlt_dec tol (Rabs (cos (asin s) - c))) as [Hm | Hm].
  - (* mirrored *)
    rewrite (@Rgtb_true (Rabs (cos (asin s) - c)) tol) by exact Hm.
    assert (Hc : c < 0).
    { rewrite Hcos in Hm. destruct (Rle_dec 0 c) as [Hc|Hc]; [|lra].
      rewrite (Rabs_pos_eq c Hc) in Hm.
      replace (c - c) with 0 in Hm by ring. rewrite Rabs_R0 in Hm. lra. }
    assert (Hcm : cos (PI - asin s) = c).
    { rewrite Rtrigo_facts.cos_pi_minus, Hcos, (Rabs_left c Hc). ring. }
    assert (Hsm : sin (PI - asin s) = s) by (rewrite sin_PI_x; exact Hsin).
    unfold fold_negative.
    destruct (Rlt_dec (PI + 1e-6) (PI - asin s)) as [H3 | H3].
    + rewrite Rgtb_true by exact H3. rewrite Rltb_true by lra.
      replace (PI - asin s - 2 * PI + 2 * PI) with (PI - asin s) by ring.
      repeat split; auto; lra.
    + rewrite Rgtb_false by exact H3. rewrite Rltb_false by lra.
      repeat split; auto; lra.
  - (* not mirrored *)
    rewrite (@Rgtb_false (Rabs (cos (asin s) - c)) tol) by exact Hm.
    rewrite Rgtb_false by lra.
    assert (Hgoal : tol < 2 * Rabs c -> Rabs c = c).
    { intros Hw. destruct (Rle_dec 0 c) as [Hc|Hc]; [apply Rabs_pos_eq; exact Hc|].
      exfalso. apply Hm. rewrite Hcos.
      rewrite (Rabs_left c) by lra.
      replace (- c - c) with (- (2 * c)) by ring.
      rewrite Rabs_Ropp, Rabs_mult, (Rabs_pos_eq 2), (Rabs_left c) by lra.
      rewrite (Rabs_left c) in Hw by lra. lra. }
    unfold fold_negative.
    destruct (Rlt_dec (asin s) 0) as [Hn | Hn].
    + rewrite Rltb_true by exact Hn.
      rewrite sin_add_turn, cos_add_turn, Hcos, Rabs_Rabsolu.
      repeat split; auto; lra.
    + rewrite Rltb_false by exact Hn. rewrite Hcos, Rabs_Rabsolu.
      repeat split; auto; lra.
Qed.

Lemma REuler_entries (a b c : R) :
  REuler a b c =
  Mat3 (cos a * cos c - sin a * cos b * sin c)
       (- cos a * sin c - sin a * cos b * cos c)
       (sin a * sin b)
       (sin a * cos c + cos a * cos b * sin c)
       (- sin a * sin c + cos a * cos b * cos c)
       (- cos a * sin b)
       (sin b * sin c)
       (sin b * cos c)
       (cos b).
Proof. unfold REuler, R0, R1, R2. simpl. mat_ring. Qed.

Lemma fold_negative_nonneg x : 0 <= x -> fold_negative x = x.
Proof. intros H. unfold fold_negative. rewrite Rltb_false by lra. reflexivity. Qed.

(** The decomposition of an Euler matrix whose middle angle is not
    degenerate takes the general branch. *)
Lemma decompose_REuler_general (a b c : R) :
  0 < b < PI -> 1e-5 <= sin b ->
  rotationMatrixToEulerAngles (REuler a b c)
  = Ok [fold_negative (angle_of_sin_cos 5e-3 (sin a) (cos a)) / (PI / 180);
        b / (PI / 180);
        fold_negative (angle_of_sin_cos 1e-3 (sin c) (cos c)) / (PI / 180)].
Proof.
  intros Hb Hsb.
  unfold rotationMatrixToEulerAngles.
  rewrite (isRotationMatrix_rotation (rotation_REuler a b c)). simpl negb.
  rewrite REuler_entries. cbv iota beta.
  rewrite (clamp_id (COS_bound b)).
  assert (Hsqrt : sqrt (1 - cos b * cos b) = sin b).
  { replace (1 - cos b * cos b) with (Rsqr (sin b))
      by (pose proof (sin2_cos2' b); unfold Rsqr; lra).
    apply sqrt_Rsqr. lra. }
  rewrite Hsqrt, (Rabs_pos_eq (sin b)) by lra.
  rewrite (@Rltb_false (sin b) 1e-5) by lra.
  replace (sin a * sin b / sin b) with (sin a) by (field; lra).
  replace (- (- cos a * sin b) / sin b) with (cos a) by (field; lra).
  replace (sin b * sin c / sin b) with (sin c) by (field; lra).
  replace (sin b * cos c / sin b) with (cos c) by (field; lra).
  rewrite acos_cos by lra.
  rewrite (fold_negative_nonneg (x := b)) by lra.
  reflexivity.
Qed.

(** The decomposition of the Euler matrix of a regular triple of radians
    gives the triple back. *)
Lemma decompose_REuler (a b c : R) :
  0 <= a < 2 * PI -> 0 < b < PI -> 0 <= c < 2 * PI ->
  1e-5 <= sin b -> 5e-3 < 2 * Rabs (cos a) -> 1e-3 < 2 * Rabs (cos c) ->
  rotationMatrixToEulerAngles (REuler a b c)
  = Ok [a / (PI / 180); b / (PI / 180); c / (PI / 180)].
Proof.
  intros Ha Hb Hc Hsb Hwa Hwc.
  rewrite decompose_REuler_general by assumption.
  rewrite (angle_of_sin_cos_exact (tol := 5e-3) (a := a)) by (assumption || lra).
  rewrite (angle_of_sin_cos_exact (tol := 1e-3) (a := c)) by (assumption || lra).
  reflexivity.
Qed.

(** Inside the window the recovery returns the mirror image. *)
Lemma angle_of_sin_cos_window (tol a : R) :
  PI / 2 < a < PI -> 2 * Rabs (cos a) <= tol ->
  fold_negative (angle_of_sin_cos tol (sin a) (cos a)) = PI - a.
Proof.
  intros Ha Hwin. pose proof PI_RGT_0 as Hpi.
  unfold angle_of_sin_cos. rewrite (clamp_id (SIN_bound a)).
  rewrite <- (sin_PI_x a). rewrite asin_sin by lra.
  rewrite Rtrigo_facts.cos_pi_minus.
  replace (- cos a - cos a) with (- (2 * cos a)) by ring.
  rewrite Rabs_Ropp, Rabs_mult, (Rabs_pos_eq 2) by lra.
  rewrite (@Rgtb_false (2 * Rabs (cos a)) tol) by lra.
  rewrite Rgtb_false by lra.
  apply fold_negative_nonneg. lra.
Qed.

Lemma rotation_facts m00 m01 m02 m10 m11 m12 m20 m21 m22 :
  rotation (Mat3 m00 m01 m02 m10 m11 m12 m20 m21 m22) ->
  m02 * m02 + m12 * m12 + m22 * m22 = 1
  /\ m20 * m20 + m21 * m21 + m22 * m22 = 1
  /\ m00 = m11 * m22 - m12 * m21
  /\ m01 = m12 * m20 - m10 * m22
  /\ m10 = m02 * m21 - m01 * m22
  /\ m11 = m00 * m22 - m02 * m20.
Proof.
  intros (H1 & H2 & H3). simpl in H1, H2, H3.
  injection H1 as _ _ _ _ _ _ _ _ E1.
  injection H2 as _ _ _ _ _ _ _ _ E2.
  injection H3 as C00 C01 _ C10 C11 _ _ _ _.
  repeat split; lra.
Qed.

Lemma degrees_radians x : x / (PI / 180) * PI / 180 = x.
Proof. pose proof PI_RGT_0. field. lra. Qed.

(** The matrix of the angles that the decomposition of a rotation matrix
    returns is that matrix, whenever the returned triple is regular. *)
Lemma recompose (M : mat3) (A B C : R) :
  rotation M ->
  rotationMatrixToEulerAngles M = Ok [A; B; C] ->
  regular [A; B; C] ->
  REuler (A * PI / 180) (B * PI / 180) (C * PI / 180) = M
  /\ 0 <= A * PI / 180 /\ 0 <= B * PI / 180 /\ 0 <= C * PI / 180.
Proof.
  intros Hrot Hdec (Hrb & Hra & Hrc). pose proof PI_RGT_0 as Hpi.
  unfold rotationMatrixToEulerAngles in Hdec.
  rewrite (isRotationMatrix_rotation Hrot) in Hdec. simpl negb in Hdec.
  destruct M as [m00 m01 m02 m10 m11 m12 m20 m21 m22].
  destruct (rotation_facts Hrot) as (Ecol & Erow & C00 & C01 & C10 & C11).
  cbv iota beta in Hdec.
  assert (Hm22 : -1 <= m22 <= 1) by nra.
  rewrite (clamp_id Hm22) in Hdec.
  set (s := sqrt (1 - m22 * m22)) in *.
  assert (Hs0 : 0 <= s) by apply sqrt_pos.
  assert (Hs2 : s * s = 1 - m22 * m22) by (apply sqrt_sqrt; nra).
  destruct (Rlt_dec (Rabs s) 1e-5) as [Hdeg | Hgen].
  - (* the degenerate branch returns theta = 0, which is not regular *)
    rewrite (Rltb_true Hdeg) in Hdec.
    injection Hdec as _ EB _.
    rewrite (@fold_negative_nonneg 0) in EB by lra.
    rewrite <- EB in Hrb.
    replace (0 / (PI / 180) * PI / 180) with 0 in Hrb by (field; lra).
    rewrite sin_0 in Hrb. lra.
  - rewrite (Rltb_false Hgen) in Hdec.
    rewrite (Rabs_pos_eq s Hs0) in Hgen.
    assert (Hs : 1e-5 <= s) by lra.
    injection Hdec as EA EB EC.
    rewrite <- EA, <- EB, <- EC in *. rewrite !degrees_radians in *.
    clear EA EB EC.
    (* theta *)
    pose proof (acos_bound m22) as Hacos.
    rewrite (fold_negative_nonneg (x := acos m22)) in * by lra.
    assert (Hct : cos (acos m22) = m22) by (apply cos_acos; lra).
    assert (Hst : sin (acos m22) = s).
    { rewrite sin_acos by lra. unfold s, Rsqr. reflexivity. }
    (* phi *)
    destruct (@angle_of_sin_cos_sound 5e-3 (m02 / s) (- m12 / s)) as (Hsx & Hcx & Hx0);
      [lra | field_simplify_eq; [nra | lra] |].
    specialize (Hcx Hra).
    (* psi *)
    destruct (@angle_of_sin_cos_sound 1e-3 (m20 / s) (m21 / s)) as (Hsy & Hcy & Hy0);
      [lra | field_simplify_eq; [nra | lra] |].
    specialize (Hcy Hrc).
    set (x := fold_negative (angle_of_sin_cos 5e-3 (m02 / s) (- m12 / s))) in *.
    set (y := fold_negative (angle_of_sin_cos 1e-3 (m20 / s) (m21 / s))) in *.
    split; [|repeat split; lra].
    rewrite REuler_entries, Hct, Hst, Hsx, Hcx, Hsy, Hcy.
    assert (Hs' : s <> 0) by lra.
    assert (P00 : - m12 * m21 - m02 * m22 * m20 = s * s * m00).
    { rewrite Hs2.
      assert (K : m22 * m11 = m22 * (m00 * m22 - m02 * m20)) by (f_equal; exact C11).
      lra. }
    assert (P01 : m12 * m20 - m02 * m22 * m21 = s * s * m01).
    { rewrite Hs2.
      assert (K : m22 * m10 = m22 * (m02 * m21 - m01 * m22)) by (f_equal; exact C10).
      lra. }
    assert (P10 : m02 * m21 - m12 * m22 * m20 = s * s * m10).
    { rewrite Hs2.
      assert (K : m22 * m01 = m22 * (m12 * m20 - m10 * m22)) by (f_equal; exact C01).
      lra. }
    assert (P11 : - m02 * m20 - m12 * m22 * m21 = s * s * m11).
    { rewrite Hs2.
      assert (K : m22 * m00 = m22 * (m11 * m22 - m12 * m21)) by (f_equal; exact C00).
      lra. }
    assert (Hss : s * s <> 0) by nra.
    apply mat3_eq.
    + apply (Rmult_eq_reg_l (s * s)); [|exact Hss]. rewrite <- P00. field. exact Hs'.
    + apply (Rmult_eq_reg_l (s * s)); [|exact Hss]. rewrite <- P01. field. exact Hs'.
    + field. exact Hs'.
    + apply (Rmult_eq_reg_l (s * s)); [|exact Hss]. rewrite <- P10. field. exact Hs'.
    + apply (Rmult_eq_reg_l (s * s)); [|exact Hss]. rewrite <- P11. field. exact Hs'.
    + field. exact Hs'.
    + field. exact Hs'.
    + field. exact Hs'.
    + reflexivity.
Qed.

(** *** The normalisation of the input angles *)

Lemma to_radians_nonneg (val : R) : 0 <= val -> to_radians val = val * PI / 180.
Proof.
  intros H. pose proof PI_RGT_0. unfold to_radians.
  rewrite Rltb_false; [reflexivity|]. nra.
Qed.

Lemma to_radians_negative (val : R) :
  val < 0 -> to_radians val = (val + 360) * PI / 180.
Proof.
  intros H. pose proof PI_RGT_0. unfold to_radians.
  rewrite Rltb_true; [field|]. nra.
Qed.

(** *** The assertion never fails and three angles are returned *)



Lemma conjugate_back (E : mat3) :
  dot (dot Ram (dot (dot Rma E) Ram)) Rma = E.
Proof. destruct E. unfold Ram, Rma. simpl. mat_ring. Qed.

(** *** Whole turns *)

Lemma sin_turns_nat (x : R) (n : nat) : sin (x + INR n * (2 * PI)) = sin x.
Proof.
  replace (x + INR n * (2 * PI)) with (x + 2 * INR n * PI) by ring.
  apply sin_period.
Qed.

Lemma cos_turns_nat (x : R) (n : nat) : cos (x + INR n * (2 * PI)) = cos x.
Proof.
  replace (x + INR n * (2 * PI)) with (x + 2 * INR n * PI) by ring.
  apply cos_period.
Qed.

Lemma sin_turns (x : R) (k : Z) : sin (x + IZR k * (2 * PI)) = sin x.
Proof.
  destruct (Z_le_gt_dec 0 k) as [Hk | Hk].
  - rewrite <- (Z2Nat.id k Hk), <- INR_IZR_INZ. apply sin_turns_nat.
  - rewrite <- (sin_turns_nat (x + IZR k * (2 * PI)) (Z.to_nat (- k))).
    rewrite INR_IZR_INZ, Z2Nat.id by lia. rewrite opp_IZR. f_equal. ring.
Qed.

Lemma cos_turns (x : R) (k : Z) : cos (x + IZR k * (2 * PI)) = cos x.
Proof.
  destruct (Z_le_gt_dec 0 k) as [Hk | Hk].
  - rewrite <- (Z2Nat.id k Hk), <- INR_IZR_INZ. apply cos_turns_nat.
  - rewrite <- (cos_turns_nat (x + IZR k * (2 * PI)) (Z.to_nat (- k))).
    rewrite INR_IZR_INZ, Z2Nat.id by lia. rewrite opp_IZR. f_equal. ring.
Qed.


Lemma to_radians_turns (val : R) :
  exists k : Z, to_radians val = val * PI / 180 + IZR k * (2 * PI).
Proof.
  destruct (Rlt_dec val 0) as [Hn | Hn].
  - exists 1%Z. rewrite to_radians_negative by exact Hn. field.
  - exists 0%Z. rewrite to_radians_nonneg by lra. ring.
Qed.



(** *** Some evaluations *)

Lemma ok3 (x y z x' y' z' : R) :
  x = x' -> y = y' -> z = z' -> @Ok (list R) [x; y; z] = Ok [x'; y'; z'].
Proof. intros -> -> ->. reflexivity. Qed.

Lemma Rabs_m1 : Rabs (-1) = 1.
Proof. rewrite Rabs_left; lra. Qed.

Lemma decompose_PI_PI2_PI :
  rotationMatrixToEulerAngles (REuler PI (PI / 2) PI) = Ok [180; 90; 180].
Proof.
  pose proof PI_RGT_0 as Hpi.
  rewrite decompose_REuler.
  - f_equal. f_equal; [|f_equal; [|f_equal]]; field; lra.
  - lra.
  - lra.
  - lra.
  - rewrite sin_PI2. lra.
  - rewrite cos_PI, Rabs_m1. lra.
  - rewrite cos_PI, Rabs_m1. lra.
Qed.

Lemma decompose_0_PI2_0 :
  rotationMatrixToEulerAngles (REuler 0 (PI / 2) 0) = Ok [0; 90; 0].
Proof.
  pose proof PI_RGT_0 as Hpi.
  rewrite decompose_REuler.
  - f_equal. f_equal; [|f_equal; [|f_equal]]; field; lra.
  - lra.
  - lra.
  - lra.
  - rewrite sin_PI2. lra.
  - rewrite cos_0, Rabs_R1. lra.
  - rewrite cos_0, Rabs_R1. lra.
Qed.

Lemma rotate_0_270_0 : rotate [0; 270; 0] true = Ok [180; 90; 180].
Proof.
  pose proof PI_RGT_0 as Hpi.
  unfold rotate. cbn [map]. rewrite !to_radians_nonneg by lra.
  unfold eulerAnglesToRotationMatrix. cbn [negb bind].
  replace (dot (dot Rma (REuler (0 * PI / 180) (270 * PI / 180) (0 * PI / 180))) Ram)
    with (REuler PI (PI / 2) PI); [apply decompose_PI_PI2_PI|].
  replace (0 * PI / 180) with 0 by field.
  replace (270 * PI / 180) with (3 * (PI / 2)) by field.
  rewrite !REuler_entries.
  rewrite cos_0, sin_0, cos_3PI2, sin_3PI2, cos_PI, sin_PI, cos_PI2, sin_PI2.
  unfold Rma, Ram. simpl. mat_ring.
Qed.


Lemma rotate_0_90_0 : rotate [0; 90; 0] true = Ok [0; 90; 0].
Proof.
  pose proof PI_RGT_0 as Hpi.
  unfold rotate. cbn [map]. rewrite !to_radians_nonneg by lra.
  unfold eulerAnglesToRotationMatrix. cbn [negb bind].
  replace (dot (dot Rma (REuler (0 * PI / 180) (90 * PI / 180) (0 * PI / 180))) Ram)
    with (REuler 0 (PI / 2) 0); [apply decompose_0_PI2_0|].
  replace (0 * PI / 180) with 0 by field.
  replace (90 * PI / 180) with (PI / 2) by field.
  rewrite !REuler_entries.
  rewrite cos_0, sin_0, cos_PI2, sin_PI2.
  unfold Rma, Ram. simpl. mat_ring.
Qed.

Lemma regular_0_90_0 : regular [0; 90; 0].
Proof.
  unfold regular.
  replace (0 * PI / 180) with 0 by field.
  replace (90 * PI / 180) with (PI / 2) by field.
  rewrite sin_PI2, cos_0, Rabs_R1. lra.
Qed.



(** *** Inside the window of the first angle *)

Lemma window_radians :
  let a := acos (-2e-3) in
  PI / 2 + 2e-3 < a < PI /\ cos a = -2e-3 /\ a = window_angle * PI / 180.
Proof.
  intros a. pose proof PI_RGT_0 as Hpi.
  assert (Hcos : cos a = -2e-3) by (apply cos_acos; lra).
  pose proof (acos_bound_lt (-2e-3)) as Hb. fold a in Hb.
  assert (Ha : PI / 2 < a).
  { destruct (Rle_dec a (PI / 2)) as [Hle | Hgt]; [|lra].
    pose proof (cos_ge_0 a). lra. }
  split; [split|split].
  - assert (Hy : sin (a - PI / 2) = 2e-3).
    { rewrite sin_minus, cos_PI2, sin_PI2, Hcos. lra. }
    pose proof (sin_lt_x (a - PI / 2)). lra.
  - lra.
  - exact Hcos.
  - unfold window_angle. fold a. field. lra.
Qed.

Lemma rotate_window_forth :
  rotate [window_angle; 90; 0] true = Ok [0; 90; window_angle].
Proof.
  pose proof PI_RGT_0 as Hpi.
  destruct window_radians as ((Ha1 & Ha2) & Hcos & Hrad).
  set (a := acos (-2e-3)) in *.
  unfold rotate. cbn [map].
  rewrite !to_radians_nonneg by (try lra; rewrite Hrad in Ha1; nra).
  rewrite <- Hrad.
  unfold eulerAnglesToRotationMatrix. cbn [negb bind].
  replace (dot (dot Rma (REuler a (90 * PI / 180) (0 * PI / 180))) Ram)
    with (REuler 0 (PI / 2) a).
  - rewrite decompose_REuler.
    + unfold window_angle. fold a.
      apply ok3; (reflexivity || (field; lra)).
    + lra.
    + lra.
    + lra.
    + rewrite sin_PI2. lra.
    + rewrite cos_0, Rabs_R1. lra.
    + rewrite Hcos, Rabs_left; lra.
  - replace (0 * PI / 180) with 0 by field.
    replace (90 * PI / 180) with (PI / 2) by field.
    rewrite !REuler_entries.
    rewrite cos_0, sin_0, cos_PI2, sin_PI2.
    unfold Rma, Ram. simpl. mat_ring.
Qed.

Lemma rotate_window_back :
  rotate [0; 90; window_angle] false = Ok [180 - window_angle; 90; 0].
Proof.
  pose proof PI_RGT_0 as Hpi.
  destruct window_radians as ((Ha1 & Ha2) & Hcos & Hrad).
  set (a := acos (-2e-3)) in *.
  unfold rotate. cbn [map].
  rewrite !to_radians_nonneg by (try lra; rewrite Hrad in Ha1; nra).
  rewrite <- Hrad.
  unfold eulerAnglesToRotationMatrix. cbn [negb bind].
  replace (dot (dot Ram (REuler (0 * PI / 180) (90 * PI / 180) a)) Rma)
    with (REuler a (PI / 2) 0).
  - rewrite decompose_REuler_general by (try lra; rewrite sin_PI2; lra).
    rewrite angle_of_sin_cos_window by (try lra; rewrite Hcos, Rabs_left; lra).
    rewrite (@angle_of_sin_cos_exact 1e-3 0) by (try lra; rewrite cos_0, Rabs_R1; lra).
    unfold window_angle. fold a.
    apply ok3; (reflexivity || (field; lra)).
  - replace (0 * PI / 180) with 0 by field.
    replace (90 * PI / 180) with (PI / 2) by field.
    rewrite !REuler_entries.
    rewrite cos_0, sin_0, cos_PI2, sin_PI2.
    unfold Rma, Ram. simpl. mat_ring.
Qed.

(** The hypothesis on the windows is needed: 90 degrees is far from a
    degenerate middle angle, and yet the round trip of
    [(window_angle, 90, 0)] returns the mirror image [180 - window_angle] of
    the first angle, which is more than 0.1 degrees away. *)
Lemma rotate_roundtrip_fails_in_window :
  ~ degenerate 90 /\ ~ roundtrip_within 1e-3 [window_angle; 90; 0].
Proof.
  pose proof PI_RGT_0 as Hpi. pose proof PI_4 as Hpi4.
  split.
  - unfold degenerate.
    replace (90 * PI / 180) with (PI / 2) by field.
    rewrite sin_PI2, Rabs_R1. lra.
  - intros (w & u & Hw & Hu & Hclose).
    rewrite rotate_window_forth in Hw. injection Hw as <-.
    rewrite rotate_window_back in Hu. injection Hu as <-.
    inversion Hclose as [|x y l l' [k Hk] _]; subst.
    destruct window_radians as ((Ha1 & Ha2) & _ & Hrad).
    assert (Hlo : 90 + 5e-2 < window_angle).
    { apply Rmult_lt_reg_r with (PI / 180); [lra|].
      replace (window_angle * (PI / 180)) with (window_angle * PI / 180) by field.
      rewrite <- Hrad. lra. }
    assert (Hhi : window_angle < 180).
    { apply Rmult_lt_reg_r with (PI / 180); [lra|].
      replace (window_angle * (PI / 180)) with (window_angle * PI / 180) by field.
      rewrite <- Hrad. lra. }
    destruct (Z_le_gt_dec k (-1)) as [Hk1 | Hk1].
    + apply IZR_le in Hk1. rewrite Rabs_pos_eq in Hk; lra.
    + assert (Hk0 : (0 <= k)%Z) by lia. apply IZR_le in Hk0.
      rewrite Rabs_left in Hk; lra.
Qed.


(** *** The normalisation, as a whole *)

(** C6, as stated, fails: 400 degrees is used as [400 * pi / 180], which is
    not the radian value of an angle of [[0, 360)]. *)
Lemma to_radians_400_not_folded : ~ radians_in_one_turn (to_radians 400).
Proof.
  pose proof PI_RGT_0 as Hpi.
  rewrite to_radians_nonneg by lra.
  intros (deg & Hdeg & E).
  assert (deg = 400) by nra. lra.
Qed.

(** C6, amended: every angle is converted to radians first, and a negative
    value is then increased by [2 pi], once.  For an angle of
    [[-360, 360)] the value used to build the matrices is the radian value
    of an angle of [[0, 360)]; an angle that is not negative is used as it
    is, also from 360 degrees on, and an angle below -360 degrees stays
    negative. *)
Theorem to_radians_one_turn (val : R) (H : -360 <= val < 360) :
  radians_in_one_turn (to_radians val)
  /\ (forall x, 0 <= x -> to_radians x = x * PI / 180)
  /\ (forall x, x < 0 -> to_radians x = (x + 360) * PI / 180)
  /\ (forall x, x < -360 -> to_radians x < 0)
  /\ (forall v toMICRESS,
        rotate v toMICRESS =
        (Rm <- eulerAnglesToRotationMatrix (map to_radians v) toMICRESS ;;
         rotationMatrixToEulerAngles Rm)).
Proof.
  pose proof PI_RGT_0 as Hpi.
  split; [|split; [|split; [|split]]].
  - destruct (Rlt_dec val 0) as [Hn | Hn].
    + exists (val + 360). split; [lra|]. apply to_radians_negative. exact Hn.
    + exists val. split; [lra|]. apply to_radians_nonneg. lra.
  - exact to_radians_nonneg.
  - exact to_radians_negative.
  - intros x Hx. rewrite to_radians_negative by lra. nra.
  - reflexivity.
Qed.

Lemma to_radians_one_turn_witness :
  -360 <= -90 < 360 /\ radians_in_one_turn (to_radians (-90)).
Proof.
  split; [lra|].
  apply (@to_radians_one_turn (-90)). lra.
Defined.

End RotFacts.

(** ** The grain orientations ([Reader.group_angles]) *)

Module AnglesFacts.

Import H5 Reader.

(** The only values the [dim] setter accepts are 1, 2 and 3. *)
Lemma dim_setter_legal (value : Z) (r0 r : Reader.t) :
  dim_setter value r0 = Ok r ->
  (value = 1 \/ value = 2 \/ value = 3)%Z /\ _dim r = Some value
  /\ settings r = settings r0.
Proof.
  unfold dim_setter. simpl existsb.
  destruct (value =? 1)%Z eqn:E1; [apply Z.eqb_eq in E1|];
    [|destruct (value =? 2)%Z eqn:E2; [apply Z.eqb_eq in E2|];
      [|destruct (value =? 3)%Z eqn:E3; [apply Z.eqb_eq in E3|]]];
    simpl; intros H; try discriminate; injection H as <-; simpl; auto.
Qed.

(** The guard [self.settings.rotate and self.dim == 30] is false for every
    legal dimension. *)
Lemma rotation_guard_is_false (r : Reader.t) (value : Z) :
  (value = 1 \/ value = 2 \/ value = 3)%Z -> _dim r = Some value ->
  rotate (settings r) && dim_is r 30 = false.
Proof.
  intros Hv Hd. unfold dim_is. rewrite Hd.
  destruct Hv as [-> | [-> | ->]]; apply andb_false_r.
Qed.

(** The loop that rotates the grains is never reached: when its guard holds,
    [dim] is 30, no branch has assigned [angles], and the setter ends in the
    [Hdf2Mic_InitArgError] of its [except AttributeError] handler. *)
Lemma rotation_loop_unreachable (f : h5file ndarray) (value : string) (r : Reader.t) :
  rotate (settings r) && dim_is r 30 = true ->
  group_angles_setter f value r = Raise (Hdf2Mic_InitArgError EXCEPTIONS_INITARG).
Proof.
  intros G. unfold group_angles_setter. rewrite G.
  assert (H2 : dim_is r 2 = false /\ dim_is r 3 = false).
  { apply andb_true_iff in G. destruct G as [_ G]. unfold dim_is in *.
    destruct (_dim r) as [d|]; [|discriminate].
    apply Z.eqb_eq in G. subst d. split; reflexivity. }
  destruct H2 as [-> ->].
  destruct (DsetFacts.dset_safe_never_raises f value) as [o ->].
  destruct o; reflexivity.
Qed.

(** C5, as stated, fails: in a 3-D run with [rotate] set, the orientation
    [(0, 270, 0)] is stored as it is read, although [rotate] maps it to
    [(180, 90, 180)]. *)
Lemma group_angles_stores_unrotated :
  let r := Reader.Make (Settings true false) (Some 3%Z) Data.init in
  stored_angles (group_angles_setter one_grain "/EulerAngles" r)
  = Ok (Some (NdArray [1%nat; 3%nat] [0; 270; 0]%R))
  /\ RotMat.rotate [0; 270; 0]%R true = Ok [180; 90; 180]%R
  /\ [0; 270; 0]%R <> [180; 90; 180]%R.
Proof.
  split; [reflexivity|]. split; [exact RotFacts.rotate_0_270_0|].
  intros H. injection H as H _ _. lra.
Qed.

(** C5, amended: for every legal dimension value (1, 2 or 3, the values the
    [dim] setter accepts) the [rotate] option has no effect on the stored
    grain orientations: the rotation is guarded by [rotate and dim == 30] and
    is not applied.  In a 3-D run without clipping, a two-axis array of
    orientations is stored exactly as the source holds it. *)
Theorem group_angles_ignores_rotate (f : h5file ndarray) (value : string)
    (r0 r : Reader.t) (v : Z) (Hdim : dim_setter v r0 = Ok r) :
  stored_angles (group_angles_setter f value (with_rotate true r))
  = stored_angles (group_angles_setter f value (with_rotate false r))
  /\ (forall a,
        v = 3%Z -> f value = Some (Dataset a) ->
        value <> "/" -> value <> "" ->
        Np.ndim a = 2%nat ->
        cellFeatureDataClipFirstLine (settings r) = false ->
        Data._phases (data r) = None ->
        stored_angles (group_angles_setter f value (with_rotate true r))
        = Ok (Some a)).
Proof.
  destruct (dim_setter_legal _ _ Hdim) as (Hv & Hd & _).
  assert (G : forall b, rotate (settings (with_rotate b r))
                        && dim_is (with_rotate b r) 30 = false).
  { intros b. apply (@rotation_guard_is_false _ v); [exact Hv | exact Hd]. }
  split.
  - unfold group_angles_setter. rewrite !G.
    unfold stored_angles, with_rotate, with_data, dim_is. simpl.
    destruct (outcome (dset f value true)) as [[o|]|e]; simpl;
      [ | destruct (Data.angles_setter None (data r)); reflexivity | reflexivity ].
    destruct (_dim r) as [d|]; simpl; try reflexivity.
    destruct (d =? 2)%Z; simpl.
    + destruct (read_all o) as [a|e]; simpl; try reflexivity.
      destruct (Np.last_axis_0 a) as [a0|e]; simpl; try reflexivity.
      destruct (Data.angles_setter _ (data r)); reflexivity.
    + destruct (d =? 3)%Z; simpl; try reflexivity.
      destruct (read_all o) as [a|e]; simpl; try reflexivity.
      destruct (Data.angles_setter _ (data r)); reflexivity.
  - intros a -> Hf Hn1 Hn2 Hnd Hclip Hp.
    unfold group_angles_setter. rewrite G.
    unfold dset. apply String.eqb_neq in Hn1, Hn2. rewrite Hn1, Hn2, Hf. simpl.
    unfold dim_is. simpl. rewrite Hd. simpl. rewrite Hnd, Hclip. simpl.
    unfold stored_angles, Data.angles_setter, Data._compare_angles_phases.
    simpl. rewrite Hp. reflexivity.
Qed.

Lemma group_angles_ignores_rotate_witness :
  let r0 := Reader.init (Settings true false) in
  exists r,
    dim_setter 3 r0 = Ok r
    /\ stored_angles (group_angles_setter one_grain "/EulerAngles" (with_rotate true r))
       = stored_angles (group_angles_setter one_grain "/EulerAngles" (with_rotate false r)).
Proof.
  intros r0. eexists. split; [reflexivity|].
  exact (proj1 (@group_angles_ignores_rotate one_grain "/EulerAngles" r0 _ 3%Z
                  eq_refl)).
Defined.

End AnglesFacts.

(** ** Stable sorting *)

Module SortFacts.

Section SortKey.

Variables K A : Type.
Variable leb : K -> K -> bool.
Variable keyf : A -> K.

Hypothesis leb_total : forall a b, leb a b = true \/ leb b a = true.
Hypothesis leb_trans : forall a b c, leb a b = true -> leb b c = true -> leb a c = true.

Let le (x y : A) : Prop := leb (keyf x) (keyf y) = true.

Lemma insert_key_perm (x : A) (l : list A) :
  Permutation (insert_key leb keyf x l) (x :: l).
Proof.
  induction l as [|y l IH]; simpl.
  - apply Permutation_refl.
  - destruct (leb (keyf x) (keyf y)).
    + apply Permutation_refl.
    + apply perm_trans with (y :: x :: l).
      * apply perm_skip. exact IH.
      * apply perm_swap.
Qed.

Lemma sort_key_perm (l : list A) : Permutation (sort_key leb keyf l) l.
Proof.
  induction l as [|x l IH]; simpl.
  - apply perm_nil.
  - apply perm_trans with (x :: sort_key leb keyf l).
    + apply insert_key_perm.
    + apply perm_skip. exact IH.
Qed.

Lemma insert_key_sorted (x : A) (l : list A) :
  StronglySorted le l -> StronglySorted le (insert_key leb keyf x l).
Proof.
  induction 1 as [|y l Hl IH Hy]; simpl.
  - constructor; constructor.
  - destruct (leb (keyf x) (keyf y)) eqn:E.
    + constructor.
      * constructor; assumption.
      * constructor; [exact E|].
        apply Forall_impl with (P := le y); [|exact Hy].
        intros z Hz. unfold le in *. eapply leb_trans; eassumption.
    + constructor; [exact IH|].
      assert (Hyx : le y x).
      { unfold le. destruct (leb_total (keyf x) (keyf y)); congruence. }
      apply Forall_forall. intros z Hz.
      apply (Permutation_in _ (insert_key_perm x l)) in Hz.
      destruct Hz as [<- | Hz]; [exact Hyx|].
      rewrite Forall_forall in Hy. apply Hy. exact Hz.
Qed.

Lemma sort_key_sorted (l : list A) : StronglySorted le (sort_key leb keyf l).
Proof.
  induction l as [|x l IH]; simpl.
  - constructor.
  - apply insert_key_sorted. exact IH.
Qed.

(** Stability: the elements that a test selects keep their order, whenever
    the test selects elements of mutually comparable keys only. *)
Lemma insert_key_filter (q : A -> bool) (x : A) (l : list A) :
  (forall y, q x = true -> q y = true -> le x y) ->
  filter q (insert_key leb keyf x l) = filter q (x :: l).
Proof.
  intros Hq. induction l as [|y l IH]; simpl.
  - reflexivity.
  - destruct (leb (keyf x) (keyf y)) eqn:E.
    + reflexivity.
    + simpl. rewrite IH. simpl.
      destruct (q x) eqn:Qx; [|reflexivity].
      destruct (q y) eqn:Qy; [|reflexivity].
      specialize (Hq y eq_refl Qy). unfold le in Hq. congruence.
Qed.

Lemma sort_key_filter (q : A -> bool) (l : list A) :
  (forall x y, q x = true -> q y = true -> le x y) ->
  filter q (sort_key leb keyf l) = filter q l.
Proof.
  intros Hq. induction l as [|x l IH]; simpl.
  - reflexivity.
  - rewrite insert_key_filter by (intros y; apply Hq).
    simpl. rewrite IH. reflexivity.
Qed.

(** The decorated sort of [list.sort] and the sort on the elements agree. *)
Lemma insert_by_decorated (x : A) (l : list A) :
  insert_by leb (keyf x, x) (map (fun a => (keyf a, a)) l)
  = map (fun a => (keyf a, a)) (insert_key leb keyf x l).
Proof.
  induction l as [|y l IH]; simpl.
  - reflexivity.
  - destruct (leb (keyf x) (keyf y)); simpl; [reflexivity|].
    rewrite IH. reflexivity.
Qed.

Lemma sort_decorated_map (l : list A) :
  sort_decorated leb (map (fun a => (keyf a, a)) l)
  = map (fun a => (keyf a, a)) (sort_key leb keyf l).
Proof.
  induction l as [|x l IH]; simpl.
  - reflexivity.
  - rewrite IH. apply insert_by_decorated.
Qed.

Lemma sort_by_key_total (key : A -> result K) (l : list A) :
  (forall a, In a l -> key a = Ok (keyf a)) ->
  sort_by_key leb key l = Ok (sort_key leb keyf l).
Proof.
  intros Hkey. unfold sort_by_key.
  assert (E : mapM (fun a => k <- key a ;; Ok (k, a)) l
              = Ok (map (fun a => (keyf a, a)) l)).
  { induction l as [|x l IH]; simpl; [reflexivity|].
    rewrite (Hkey x) by (left; reflexivity). simpl.
    rewrite IH by (intros a Ha; apply Hkey; right; exact Ha). reflexivity. }
  rewrite E. simpl. rewrite sort_decorated_map, map_map. simpl.
  rewrite map_id. reflexivity.
Qed.

End SortKey.

(** What a strongly sorted concatenation says. *)
Lemma StronglySorted_app_inv (A : Type) (R : A -> A -> Prop) (l1 l2 : list A) :
  StronglySorted R (l1 ++ l2) ->
  StronglySorted R l1 /\ StronglySorted R l2
  /\ (forall a b, In a l1 -> In b l2 -> R a b).
Proof.
  induction l1 as [|x l1 IH]; simpl; intros H.
  - repeat split; [constructor | exact H | intros a b []].
  - inversion H as [|x' l' Hl Hx]; subst.
    destruct (IH Hl) as (S1 & S2 & H12).
    rewrite Forall_forall in Hx.
    repeat split.
    + constructor; [exact S1|]. apply Forall_forall. intros z Hz.
      apply Hx. apply in_or_app. left. exact Hz.
    + exact S2.
    + intros a b [<- | Ha] Hb.
      * apply Hx. apply in_or_app. right. exact Hb.
      * apply H12; assumption.
Qed.

Lemma StronglySorted_app (A : Type) (R : A -> A -> Prop) (l1 l2 : list A) :
  StronglySorted R l1 -> StronglySorted R l2 ->
  (forall a b, In a l1 -> In b l2 -> R a b) ->
  StronglySorted R (l1 ++ l2).
Proof.
  intros S1 S2 H12. induction S1 as [|x l1 Hl IH Hx]; simpl.
  - exact S2.
  - constructor.
    + apply IH. intros a b Ha Hb. apply H12; [right; exact Ha | exact Hb].
    + apply Forall_forall. intros z Hz. apply in_app_or in Hz.
      destruct Hz as [Hz | Hz].
      * rewrite Forall_forall in Hx. apply Hx. exact Hz.
      * apply H12; [left; reflexivity | exact Hz].
Qed.

Lemma StronglySorted_filter (A : Type) (R : A -> A -> Prop) (q : A -> bool) (l : list A) :
  StronglySorted R l -> StronglySorted R (filter q l).
Proof.
  induction 1 as [|x l Hl IH Hx]; simpl.
  - constructor.
  - destruct (q x); [|exact IH].
    constructor; [exact IH|].
    rewrite Forall_forall in *. intros z Hz.
    apply filter_In in Hz. apply Hx. tauto.
Qed.

End SortFacts.

(** ** The texts of the field specs ([Str.span], decimal digits) *)

Module SpecTextFacts.

Import Str.

Local Open Scope string_scope.

Lemma span_app (p : ascii -> bool) (a b : string) :
  all_chars p a = true -> stops p b = true -> span p (a ++ b) = (a, b).
Proof.
  intros Ha Hb. induction a as [|c a IH]; simpl in *.
  - destruct b as [|c b]; [reflexivity|]. simpl in Hb.
    apply negb_true_iff in Hb. simpl. rewrite Hb. reflexivity.
  - apply andb_true_iff in Ha. destruct Ha as [Hc Ha].
    rewrite Hc, (IH Ha). reflexivity.
Qed.

Lemma span_inv (p : ascii -> bool) (s a b : string) :
  span p s = (a, b) ->
  s = a ++ b /\ all_chars p a = true /\ stops p b = true.
Proof.
  revert a b. induction s as [|c s IH]; intros a b; simpl.
  - intros [= <- <-]. auto.
  - destruct (p c) eqn:Hc.
    + destruct (span p s) as [a' b'] eqn:E. intros [= <- <-].
      destruct (IH _ _ eq_refl) as (-> & Ha & Hb).
      simpl. rewrite Hc. auto.
    + intros [= <- <-]. simpl. rewrite Hc. auto.
Qed.

Lemma length_zero (s : string) : (String.length s =? 0)%nat = true <-> s = "".
Proof. destruct s; simpl; split; congruence. Qed.

Lemma digit_is_no_space (c : ascii) : is_digit c = true -> is_space c = false.
Proof.
  unfold is_digit, is_space. intros H.
  apply andb_true_iff in H. destruct H as [H1 H2].
  apply Nat.leb_le in H1, H2.
  apply orb_false_iff. split.
  - apply Nat.eqb_neq. lia.
  - apply andb_false_iff. right. apply Nat.leb_gt. lia.
Qed.

Lemma stops_app (p : ascii -> bool) (a b : string) :
  a <> "" -> stops p a = true -> stops p (a ++ b) = true.
Proof. destruct a; [congruence | auto]. Qed.

(** A text made of the name, white space, digits and a rest that does not
    go on with a digit is matched, and the three groups are these parts. *)
Lemma match_fieldArray_parts (name ws digits rest : string) :
  name <> "" -> all_chars (fun c => negb (is_space c)) name = true ->
  ws <> "" -> all_chars is_space ws = true ->
  digits <> "" -> all_chars is_digit digits = true ->
  stops is_digit rest = true ->
  match_fieldArray (name ++ ws ++ digits ++ rest)
  = Some (name, int_of_digits digits).
Proof.
  intros Hn0 Hn Hw0 Hw Hd0 Hd Hr. unfold match_fieldArray.
  assert (Hstop1 : stops (fun c => negb (is_space c)) (ws ++ digits ++ rest) = true).
  { destruct ws as [|c ws]; [congruence|]. simpl in *.
    apply andb_true_iff in Hw. destruct Hw as [Hc _]. rewrite Hc. reflexivity. }
  assert (Hstop2 : stops is_space (digits ++ rest) = true).
  { destruct digits as [|c digits]; [congruence|]. simpl in *.
    apply andb_true_iff in Hd. destruct Hd as [Hc _].
    rewrite (digit_is_no_space _ Hc). reflexivity. }
  rewrite (span_app _ _ _ Hn Hstop1), (span_app _ _ _ Hw Hstop2),
          (span_app _ _ _ Hd Hr).
  destruct name; [congruence|]. destruct ws; [congruence|].
  destruct digits; [congruence|]. reflexivity.
Qed.

(** One more digit in front: the character is one of [0] to [9], and the
    number read goes on from ten times the number read so far plus the
    digit. *)
Lemma uint_of_string_digit (a : ascii) (s : string) (u : Decimal.uint) :
  NilEmpty.uint_of_string (String a s) = Some u ->
  exists u',
    NilEmpty.uint_of_string s = Some u'
    /\ is_digit a = true
    /\ forall acc, Nat.of_uint_acc u acc
                   = Nat.of_uint_acc u' (nat_of_ascii a - 48 + 10 * acc).
Proof.
  cbn [NilEmpty.uint_of_string].
  destruct (NilEmpty.uint_of_string s) as [u'|]; [|intros H; discriminate H].
  intros H. exists u'. split; [reflexivity|].
  apply uint_of_char_spec in H.
  repeat (destruct H as [[-> ->] | H]); [..|destruct H as [-> ->]];
    (split; [reflexivity|]);
    intros acc; cbn [Nat.of_uint_acc]; rewrite Nat.tail_mul_spec; reflexivity.
Qed.

(** [int] reads a run of decimal digits as the Standard Library does. *)
Lemma int_of_digits_decimal (s : string) :
  forall (u : Decimal.uint) (acc : nat),
    NilEmpty.uint_of_string s = Some u ->
    all_chars is_digit s = true
    /\ fold_left (fun acc c => (10 * acc + Z.of_nat (nat_of_ascii c - 48))%Z)
                 (list_ascii_of_string s) (Z.of_nat acc)
       = Z.of_nat (Nat.of_uint_acc u acc).
Proof.
  induction s as [|a s IH]; intros u acc H.
  - injection H as <-. split; reflexivity.
  - destruct (uint_of_string_digit _ _ H) as (u' & Hu' & Ha & Hacc).
    destruct (IH u' (nat_of_ascii a - 48 + 10 * acc)%nat Hu') as [Hall Hfold].
    split.
    + cbn [all_chars]. rewrite Ha, Hall. reflexivity.
    + cbn [list_ascii_of_string fold_left]. rewrite Hacc, <- Hfold.
      f_equal. lia.
Qed.

Lemma decimal_value_digits (digits : string) (n : Z) :
  Reader.decimal_value digits = Some n ->
  all_chars is_digit digits = true /\ int_of_digits digits = n.
Proof.
  unfold Reader.decimal_value, int_of_digits.
  destruct (NilEmpty.uint_of_string digits) as [u|] eqn:E; [|discriminate].
  intros [= <-]. exact (int_of_digits_decimal digits 0 E).
Qed.

(** A field spec supplied in the form ['arrName numComp'] is matched, and
    the groups read from it are the spec. *)
Lemma supplied_is_matched (el : string) (spec : string * Z) :
  Reader.supplied_as el spec -> match_fieldArray el = Some spec.
Proof.
  intros (ws & digits & rest & -> & Hn0 & Hn & Hw0 & Hw & Hd0 & Hdec & Hr).
  destruct (decimal_value_digits _ Hdec) as [Hd Hval].
  rewrite (match_fieldArray_parts rest Hn0 Hn Hw0 Hw Hd0 Hd Hr), Hval.
  destruct spec; reflexivity.
Qed.

End SpecTextFacts.

(** ** The classification of the cell attributes ([Reader.groups_celldata]) *)

Module ClassifierFacts.

Import H5 Reader SortFacts SpecTextFacts.

(** The order of Python 2 on [str] is transitive. *)
Lemma string_compare_trans (a b c : string) :
  String.compare a b <> Gt -> String.compare b c <> Gt -> String.compare a c <> Gt.
Proof.
  revert b c. induction a as [|x a IH]; intros [|y b] [|z c]; simpl;
    try congruence.
  unfold Ascii.compare.
  destruct (N.compare_spec (N_of_ascii x) (N_of_ascii y)) as [E1|L1|G1];
    destruct (N.compare_spec (N_of_ascii y) (N_of_ascii z)) as [E2|L2|G2];
    destruct (N.compare_spec (N_of_ascii x) (N_of_ascii z)) as [E3|L3|G3];
    try congruence; try lia.
  apply IH.
Qed.

Lemma string_leb_trans (a b c : string) :
  String.leb a b = true -> String.leb b c = true -> String.leb a c = true.
Proof.
  unfold String.leb. intros H1 H2.
  pose proof (@string_compare_trans a b c) as H.
  destruct (String.compare a b), (String.compare b c), (String.compare a c);
    try reflexivity; try discriminate; exfalso; apply H; congruence.
Qed.

Lemma string_leb_refl (a : string) : String.leb a a = true.
Proof. destruct (String.leb_total a a); assumption. Qed.

Lemma nat_leb_total (a b : nat) : (a <=? b)%nat = true \/ (b <=? a)%nat = true.
Proof. destruct (Nat.leb_spec a b); [left; reflexivity | right; apply Nat.leb_le; lia]. Qed.

Lemma nat_leb_trans (a b c : nat) :
  (a <=? b)%nat = true -> (b <=? c)%nat = true -> (a <=? c)%nat = true.
Proof. rewrite !Nat.leb_le. lia. Qed.

(** Facts on the precedence table. *)
Lemma order_of_le_4 (t : tuple4) : (order_of t <= 4)%nat.
Proof.
  unfold order_of. simpl.
  repeat (match goal with |- context [if ?b then _ else _] => destruct b end);
    lia.
Qed.

Lemma order_of_FIELD (t : tuple4) : order_of t = 4%nat <-> is_FIELD t = true.
Proof.
  unfold order_of, is_FIELD. simpl.
  destruct (tup_3 t =? "SCALARS") eqn:E0;
    [apply String.eqb_eq in E0; rewrite E0; simpl; split; [lia | discriminate]|].
  destruct (tup_3 t =? "VECTORS") eqn:E1;
    [apply String.eqb_eq in E1; rewrite E1; simpl; split; [lia | discriminate]|].
  destruct (tup_3 t =? "NORMALS") eqn:E2;
    [apply String.eqb_eq in E2; rewrite E2; simpl; split; [lia | discriminate]|].
  destruct (tup_3 t =? "TENSORS") eqn:E3;
    [apply String.eqb_eq in E3; rewrite E3; simpl; split; [lia | discriminate]|].
  destruct (tup_3 t =? "FIELD") eqn:E4; split; auto; try lia; discriminate.
Qed.

Lemma order_key_known (t : tuple4) :
  in_keys (tup_3 t) Data.VTK_DATASET_ATTRIBUTE_TYPE_ORDER = true ->
  order_key t = Ok (order_of t).
Proof.
  unfold in_keys, order_key, getitem, order_of.
  destruct (Data.lookup (tup_3 t) Data.VTK_DATASET_ATTRIBUTE_TYPE_ORDER);
    [reflexivity | discriminate].
Qed.

(** The table of the data model gives every kind its place in the required
    precedence. *)
Lemma order_of_place (t : tuple4) :
  in_keys (tup_3 t) Data.VTK_DATASET_ATTRIBUTE_TYPE_ORDER = true ->
  place (tup_3 t) required_precedence = Some (order_of t).
Proof.
  unfold in_keys, order_of. simpl.
  destruct (tup_3 t =? "SCALARS"); [reflexivity|].
  destruct (tup_3 t =? "VECTORS"); [reflexivity|].
  destruct (tup_3 t =? "NORMALS"); [reflexivity|].
  destruct (tup_3 t =? "TENSORS"); [reflexivity|].
  destruct (tup_3 t =? "FIELD"); [reflexivity | discriminate].
Qed.

Lemma not_after_order (x y : tuple4) :
  in_keys (tup_3 x) Data.VTK_DATASET_ATTRIBUTE_TYPE_ORDER = true ->
  in_keys (tup_3 y) Data.VTK_DATASET_ATTRIBUTE_TYPE_ORDER = true ->
  (order_of x <= order_of y)%nat ->
  not_after (tup_3 x) (tup_3 y) = true.
Proof.
  intros Hx Hy Hle. unfold not_after.
  rewrite (order_of_place _ Hx), (order_of_place _ Hy).
  apply Nat.leb_le. exact Hle.
Qed.

(** In a list sorted by kind the FIELD entries are a suffix. *)
Lemma all_FIELD_filter (l : list tuple4) :
  Forall (fun t => is_FIELD t = true) l ->
  filter (fun t => negb (is_FIELD t)) l = [] /\ filter is_FIELD l = l.
Proof.
  induction 1 as [|x l Hx Hl [IH1 IH2]]; simpl; [auto|].
  rewrite Hx. simpl. rewrite IH1, IH2. auto.
Qed.

Lemma sorted_FIELD_suffix (l : list tuple4) :
  StronglySorted (fun x y => (order_of x <=? order_of y)%nat = true) l ->
  l = filter (fun t => negb (is_FIELD t)) l ++ filter is_FIELD l.
Proof.
  induction 1 as [|x l Hl IH Hx]; simpl; [reflexivity|].
  destruct (is_FIELD x) eqn:E; simpl.
  - assert (Hall : Forall (fun t => is_FIELD t = true) l).
    { apply Forall_impl with (2 := Hx). intros z Hz.
      apply order_of_FIELD. apply order_of_FIELD in E.
      apply Nat.leb_le in Hz. pose proof (order_of_le_4 z). lia. }
    destruct (all_FIELD_filter Hall) as [-> ->]. reflexivity.
  - f_equal. exact IH.
Qed.

Lemma firstn_skipn_suffix (A : Type) (l1 l2 : list A) :
  firstn (List.length (l1 ++ l2) - List.length l2) (l1 ++ l2) = l1
  /\ skipn (List.length (l1 ++ l2) - List.length l2) (l1 ++ l2) = l2.
Proof.
  rewrite length_app.
  replace (List.length l1 + List.length l2 - List.length l2)%nat
    with (List.length l1) by lia.
  split.
  - rewrite firstn_app, Nat.sub_diag, firstn_all. simpl. apply app_nil_r.
  - rewrite skipn_app, Nat.sub_diag, skipn_all. reflexivity.
Qed.

(** The four lists of equal length and their zip. *)
Lemma zip4_kinds (arrays : list ndarray) (names types dsats : list string) :
  List.length names = List.length arrays ->
  List.length types = List.length arrays ->
  List.length dsats = List.length arrays ->
  map tup_3 (zip4 arrays names types dsats) = dsats
  /\ map tup_1 (zip4 arrays names types dsats) = names
  /\ map tup_0 (zip4 arrays names types dsats) = arrays.
Proof.
  revert names types dsats.
  induction arrays as [|a arrays IH]; intros [|n names] [|ty types] [|k dsats];
    simpl; try discriminate; auto.
  intros H1 H2 H3.
  destruct (IH names types dsats) as (E1 & E2 & E3); try lia.
  unfold tup_3, tup_1, tup_0 in *. simpl. rewrite E1, E2, E3. auto.
Qed.

Lemma count_FIELD_filter (l : list tuple4) :
  count_FIELD (map tup_3 l) = List.length (filter is_FIELD l).
Proof.
  unfold count_FIELD. induction l as [|x l IH]; simpl; [reflexivity|].
  unfold is_FIELD at 1. destruct (tup_3 x =? "FIELD"); simpl; rewrite IH; reflexivity.
Qed.

(** The steps of the setter after the sorts. *)
Lemma append_fieldArrays_nonfield (specs : list (string * Z)) (rest : list tuple4)
    (n1 : list tuple4) (i cnf : nat) :
  (i + List.length n1 = cnf)%nat ->
  append_fieldArrays i cnf specs (n1 ++ rest)
  = (tail <- append_fieldArrays cnf cnf specs rest ;;
     Ok (map (fun t => (t, None)) n1 ++ tail)).
Proof.
  revert i. induction n1 as [|t n1 IH]; intros i Hi; simpl in *.
  - replace i with cnf by lia.
    destruct (append_fieldArrays cnf cnf specs rest); reflexivity.
  - assert (E : (i <? cnf)%nat = true) by (apply Nat.ltb_lt; lia).
    rewrite E. simpl. rewrite (IH (S i)) by lia.
    destruct (append_fieldArrays cnf cnf specs rest); reflexivity.
Qed.

Lemma skipn_nth_error (A : Type) (l : list A) (k : nat) (x : A) :
  nth_error l k = Some x -> skipn k l = x :: skipn (S k) l.
Proof.
  revert k. induction l as [|y l IH]; intros [|k]; simpl; try discriminate.
  - intros [= ->]. reflexivity.
  - intros H. apply IH. exact H.
Qed.

Lemma append_fieldArrays_fields (specs : list (string * Z)) (cnf : nat)
    (f1 : list tuple4) (k : nat) :
  (List.length f1 + k <= List.length specs)%nat ->
  append_fieldArrays (cnf + k) cnf specs f1
  = Ok (combine f1 (map Some (firstn (List.length f1) (skipn k specs)))).
Proof.
  revert k. induction f1 as [|t f1 IH]; intros k Hk; simpl in *; [reflexivity|].
  assert (E : (cnf + k <? cnf)%nat = false) by (apply Nat.ltb_ge; lia).
  rewrite E. replace (cnf + k - cnf)%nat with k by lia.
  destruct (nth_error specs k) as [s|] eqn:En.
  - simpl. rewrite (skipn_nth_error _ _ En). simpl.
    replace (S (cnf + k)) with (cnf + S k)%nat by lia.
    rewrite IH by lia. reflexivity.
  - apply nth_error_None in En. lia.
Qed.

Lemma combine_fst (A B : Type) (l1 : list A) (l2 : list B) :
  List.length l1 = List.length l2 -> map fst (combine l1 l2) = l1.
Proof.
  revert l2. induction l1 as [|a l1 IH]; intros [|b l2]; simpl; try discriminate.
  - reflexivity.
  - intros [= H]. rewrite IH by exact H. reflexivity.
Qed.

Lemma combine_snd (A B : Type) (l1 : list A) (l2 : list B) :
  List.length l1 = List.length l2 -> map snd (combine l1 l2) = l2.
Proof.
  revert l2. induction l1 as [|a l1 IH]; intros [|b l2]; simpl; try discriminate.
  - reflexivity.
  - intros [= H]. rewrite IH by exact H. reflexivity.
Qed.

Lemma append_tags_ok (tags : list string)
    (l : list (tuple4 * option (string * Z))) (i : nat) (res : list celltuple) :
  append_tags i tags l = Ok res ->
  map base res = map fst l /\ map ct_fieldArray res = map snd l.
Proof.
  revert i res. induction l as [|[tup fa] l IH]; intros i res; simpl.
  - intros [= <-]. auto.
  - destruct (nth_error tags i) as [tag|]; simpl; [|discriminate].
    destruct (append_tags (S i) tags l) as [tail|] eqn:E; simpl; [|discriminate].
    intros [= <-]. destruct (IH _ _ E) as [E1 E2]. simpl.
    rewrite E1, E2. unfold base. simpl. destruct tup as [[[a n] ty] k]. auto.
Qed.

Lemma mapM_id (A : Type) (f : A -> result A) (l : list A) :
  (forall a, f a = Ok a) -> mapM f l = Ok l.
Proof.
  intros H. induction l as [|a l IH]; simpl; [reflexivity|].
  rewrite H, IH. reflexivity.
Qed.

Lemma celldata_setter_ok (tuples : list celltuple) (d : Data.t) :
  exists d', Data.celldata_setter tuples d = Ok d'
             /\ Data._celldata d' = Some tuples.
Proof.
  unfold Data.celldata_setter.
  rewrite mapM_id by reflexivity.
  simpl. eexists. split; reflexivity.
Qed.

Section ReadArrays.

Variable celldata_values :
  settings_t -> option Z -> nat -> string -> string -> h5obj ndarray -> result ndarray.

Lemma read_celldata_arrays_length (f : h5file ndarray) (r : Reader.t)
    (paths names types : list string) (i : nat) (arrays : list ndarray) :
  read_celldata_arrays celldata_values f r i paths names types = Ok arrays ->
  List.length arrays = List.length paths.
Proof.
  revert names types i arrays.
  induction paths as [|p paths IH]; intros names types i arrays; simpl.
  - intros [= <-]. reflexivity.
  - destruct names as [|n names]; [discriminate|].
    destruct types as [|ty types]; [discriminate|].
    destruct (outcome (dset f p false)) as [o|]; simpl; [|discriminate].
    destruct (Data.numpy_type_for_vtk_type ty); simpl; [|discriminate].
    destruct o as [o|]; simpl; [|discriminate].
    destruct (celldata_values _ _ _ _ _ _); simpl; [|discriminate].
    destruct (read_celldata_arrays _ _ _ _ _ _ _) eqn:E; simpl; [|discriminate].
    intros [= <-]. simpl. f_equal. eapply IH. exact E.
Qed.

End ReadArrays.

Lemma parse_all (fieldArrays : list string) :
  forallb (fun el => match Str.match_fieldArray el with
                     | Some _ => true
                     | None => false
                     end) fieldArrays = true ->
  parsed_specs fieldArrays
    (flat_map (fun el => match Str.match_fieldArray el with
                         | Some fa => [fa]
                         | None => []
                         end) fieldArrays).
Proof.
  unfold parsed_specs.
  induction fieldArrays as [|el l IH]; simpl; intros H; [constructor|].
  apply andb_true_iff in H. destruct H as [H1 H2].
  destruct (Str.match_fieldArray el) eqn:E; [|discriminate].
  simpl. constructor; [exact E | apply IH; exact H2].
Qed.

Section Classifier.

Variable celldata_values :
  settings_t -> option Z -> nat -> string -> string -> h5obj ndarray -> result ndarray.

(** The setter accepts known kinds only. *)
Lemma accepted_kinds (f : h5file ndarray)
    (paths names types dsats fieldArrays tags : list string) (r r' : Reader.t) :
  groups_celldata_setter celldata_values f
    [paths; names; types; dsats; fieldArrays; tags] r = Ok r' ->
  forallb (fun el => in_keys el Data.VTK_DATASET_ATTRIBUTE_TYPE_ORDER) dsats = true.
Proof.
  unfold groups_celldata_setter.
  destruct (forallb _ [names; types; dsats]); simpl negb; cbv iota; [|discriminate].
  destruct (forallb _ types); simpl negb; cbv iota; [|discriminate].
  destruct (forallb _ dsats); simpl negb; cbv iota; [reflexivity | discriminate].
Qed.

(** What a successful run of the setter has checked, read and stored. *)
Lemma groups_celldata_setter_ok (f : h5file ndarray) (values : list (list string))
    (r r' : Reader.t) :
  groups_celldata_setter celldata_values f values r = Ok r' ->
  exists paths names types dsats fieldArrays tags arrays specs tuples,
    values = [paths; names; types; dsats; fieldArrays; tags]
    /\ read_celldata_arrays celldata_values f r 0 paths names types = Ok arrays
    /\ List.length names = List.length arrays
    /\ List.length types = List.length arrays
    /\ List.length dsats = List.length arrays
    /\ parsed_specs fieldArrays specs
    /\ (count_FIELD dsats <= List.length specs)%nat
    /\ Data._celldata (data r') = Some tuples
    /\ let input := zip4 arrays names types dsats in
       let sorted1 := sort_key Nat.leb order_of input in
       let nonfield := filter (fun t => negb (is_FIELD t)) sorted1 in
       let fields := sort_key String.leb tup_1 (filter is_FIELD sorted1) in
       map base tuples = nonfield ++ fields
       /\ map ct_fieldArray tuples
          = map (fun _ => None) nonfield
            ++ map Some (firstn (List.length fields) specs).
Proof.
  unfold groups_celldata_setter.
  destruct values as [|paths [|names [|types [|dsats [|fieldArrays [|tags [|]]]]]]];
    try discriminate.
  destruct (forallb _ [names; types; dsats]) eqn:Hlen; simpl negb; cbv iota;
    [|discriminate].
  destruct (forallb _ types) eqn:Htypes; simpl negb; cbv iota; [|discriminate].
  destruct (forallb _ dsats) eqn:Hkinds; simpl negb; cbv iota; [|discriminate].
  destruct (forallb _ fieldArrays) eqn:Hfa; simpl negb; cbv iota; [|discriminate].
  destruct (List.length fieldArrays <? count_FIELD dsats)%nat eqn:Hcount;
    [discriminate|].
  destruct (forallb _ tags) eqn:Htags; simpl negb; cbv iota; [|discriminate].
  destruct (read_celldata_arrays celldata_values f r 0 paths names types)
    as [arrays|] eqn:Hread; simpl bind; [|discriminate].
  pose proof (read_celldata_arrays_length _ _ _ _ _ _ _ Hread) as Harr.
  simpl in Hlen. rewrite !andb_true_iff, !Nat.eqb_eq in Hlen.
  destruct Hlen as (L1 & L2 & L3 & _).
  destruct (@zip4_kinds arrays names types dsats) as (Zk & Zn & Za); try lia.
  set (input := zip4 arrays names types dsats) in *.
  assert (Hsort1 : sort_by_key Nat.leb order_key input
                   = Ok (sort_key Nat.leb order_of input)).
  { apply sort_by_key_total. intros a Ha. apply order_key_known.
    rewrite forallb_forall in Hkinds. apply Hkinds.
    rewrite <- Zk. apply in_map. exact Ha. }
  rewrite Hsort1. simpl bind.
  set (sorted1 := sort_key Nat.leb order_of input) in *.
  pose proof (parse_all _ Hfa) as Hspecs.
  set (specs := flat_map _ fieldArrays) in *.
  assert (Hlspecs : List.length specs = List.length fieldArrays).
  { symmetry. eapply Forall2_length. exact Hspecs. }
  apply Nat.ltb_ge in Hcount.
  (* the sorted list: the entries that are no FIELD, then the FIELDs *)
  assert (Hsplit : sorted1 = filter (fun t => negb (is_FIELD t)) sorted1
                             ++ filter is_FIELD sorted1).
  { apply sorted_FIELD_suffix.
    apply (sort_key_sorted Nat.leb order_of nat_leb_total nat_leb_trans). }
  assert (HF : filter is_FIELD sorted1 = filter is_FIELD input).
  { apply sort_key_filter. intros x y Hx Hy.
    apply order_of_FIELD in Hx, Hy. rewrite Hx, Hy. reflexivity. }
  assert (Hcf : count_FIELD dsats = List.length (filter is_FIELD sorted1)).
  { rewrite HF, <- Zk. apply count_FIELD_filter. }
  set (nonfield := filter (fun t => negb (is_FIELD t)) sorted1) in *.
  set (fields1 := filter is_FIELD sorted1) in *.
  assert (Hlf : List.length (sort_key String.leb tup_1 fields1)
                = List.length fields1).
  { apply Permutation_length. apply sort_key_perm. }
  intros Hrun.
  assert (Hgoal : forall l,
            (tuples <- append_tags 0 (tags ++ repeat "" (List.length paths - List.length tags)) l ;;
             d <- Data.celldata_setter tuples (data r) ;; Ok (with_data r d)) = Ok r' ->
            map fst l = nonfield ++ sort_key String.leb tup_1 fields1 ->
            map snd l = map (fun _ => None) nonfield
                        ++ map Some (firstn (List.length (sort_key String.leb tup_1 fields1)) specs) ->
            exists tuples,
              Data._celldata (data r') = Some tuples
              /\ map base tuples = nonfield ++ sort_key String.leb tup_1 fields1
              /\ map ct_fieldArray tuples
                 = map (fun _ => None) nonfield
                   ++ map Some (firstn (List.length (sort_key String.leb tup_1 fields1)) specs)).
  { intros l Hl E1 E2.
    destruct (append_tags 0 _ l) as [tuples|] eqn:Etags; simpl in Hl; [|discriminate].
    destruct (celldata_setter_ok tuples (data r)) as (d' & Hd' & Hcd).
    rewrite Hd' in Hl. simpl in Hl. injection Hl as <-.
    destruct (append_tags_ok _ _ _ Etags) as [B1 B2].
    exists tuples. simpl. rewrite Hcd, B1, B2, E1, E2. auto. }
  exists paths, names, types, dsats, fieldArrays, tags, arrays, specs.
  destruct (count_FIELD dsats =? 0)%nat eqn:Hzero.
  - (* no FIELD at all *)
    apply Nat.eqb_eq in Hzero.
    assert (Hnil : fields1 = []).
    { apply length_zero_iff_nil. lia. }
    destruct (Hgoal (map (fun tup => (tup, None)) sorted1)) as (tuples & T1 & T2 & T3).
    + exact Hrun.
    + rewrite map_map. simpl. rewrite map_id. rewrite Hnil. simpl.
      rewrite app_nil_r. rewrite Hsplit at 1. rewrite Hnil. apply app_nil_r.
    + rewrite map_map. simpl. rewrite Hnil. simpl. rewrite app_nil_r.
      rewrite Hsplit at 1. rewrite Hnil, app_nil_r. reflexivity.
    + exists tuples. repeat split; try assumption; try lia.
  - (* the FIELDs are sorted by name and get their specs *)
    simpl bind in Hrun.
    pose proof (firstn_skipn_suffix nonfield fields1) as Hcut.
    rewrite <- Hsplit, <- Hcf in Hcut.
    destruct Hcut as [Hfirst Hskip].
    rewrite Hskip, Hfirst in Hrun.
    rewrite (sort_by_key_total String.leb tup_1) in Hrun by reflexivity.
    simpl bind in Hrun.
    assert (Hcnf : (List.length sorted1 - count_FIELD dsats)%nat = List.length nonfield).
    { rewrite Hcf. rewrite Hsplit at 1. rewrite length_app. lia. }
    rewrite Hcnf in Hrun.
    rewrite (@append_fieldArrays_nonfield specs _ nonfield 0) in Hrun by lia.
    pose proof (@append_fieldArrays_fields specs (List.length nonfield)
                  (sort_key String.leb tup_1 fields1) 0) as Hfields.
    rewrite !Nat.add_0_r in Hfields. rewrite Hfields in Hrun by lia.
    simpl bind in Hrun. simpl skipn in Hrun.
    destruct (Hgoal _ Hrun) as (tuples & T1 & T2 & T3).
    + rewrite map_app, map_map. simpl. rewrite map_id.
      rewrite combine_fst; [reflexivity|].
      rewrite length_map, length_firstn. lia.
    + rewrite map_app, map_map. simpl.
      rewrite combine_snd; [reflexivity|].
      rewrite length_map, length_firstn. lia.
    + exists tuples. repeat split; try assumption; try lia.
Qed.

End Classifier.

Lemma filter_filter_and (A : Type) (p q : A -> bool) (l : list A) :
  filter p (filter q l) = filter (fun t => q t && p t) l.
Proof.
  induction l as [|x l IH]; simpl; [reflexivity|].
  destruct (q x); simpl; [destruct (p x)|]; rewrite IH; reflexivity.
Qed.

Lemma filter_filter_implied (A : Type) (p q : A -> bool) (l : list A) :
  (forall x, p x = true -> q x = true) ->
  filter p (filter q l) = filter p l.
Proof.
  intros H. induction l as [|x l IH]; simpl; [reflexivity|].
  destruct (q x) eqn:Q; simpl.
  - destruct (p x); rewrite IH; reflexivity.
  - destruct (p x) eqn:P; [|exact IH].
    apply H in P. congruence.
Qed.

Lemma filter_none (A : Type) (p : A -> bool) (l : list A) :
  Forall (fun x => p x = false) l -> filter p l = [].
Proof.
  induction 1 as [|x l Hx Hl IH]; simpl; [reflexivity|].
  rewrite Hx. exact IH.
Qed.

Lemma Forall_filter_true (A : Type) (p : A -> bool) (l : list A) :
  Forall (fun x => p x = true) (filter p l).
Proof.
  apply Forall_forall. intros x Hx. apply filter_In in Hx. tauto.
Qed.

(** Entries of one name are contiguous in a list sorted by name. *)
Lemma sorted_contiguous (l : list tuple4) :
  StronglySorted (fun x y => String.leb (tup_1 x) (tup_1 y) = true) l ->
  contiguous_names l.
Proof.
  intros Hs l1 x l2 y l3 -> Hxy.
  apply StronglySorted_app_inv in Hs. destruct Hs as (_ & Hs & _).
  inversion Hs as [|x' l' Hl Hx]; subst.
  apply StronglySorted_app_inv in Hl. destruct Hl as (_ & _ & H2).
  rewrite Forall_forall in Hx.
  apply Forall_forall. intros z Hz.
  symmetry. apply String.leb_antisym.
  - apply Hx. apply in_or_app. left. exact Hz.
  - rewrite Hxy. apply H2; [exact Hz | left; reflexivity].
Qed.

(** What the two sorts of the setter give, in terms of their keys. *)
Lemma two_sorts_ordered (input : list tuple4) :
  let sorted1 := sort_key Nat.leb order_of input in
  let out := filter (fun t => negb (is_FIELD t)) sorted1
             ++ sort_key String.leb tup_1 (filter is_FIELD sorted1) in
  Permutation out input
  /\ StronglySorted (fun x y => (order_of x <= order_of y)%nat) out
  /\ (forall k, k <> "FIELD" -> filter (has_kind k) out = filter (has_kind k) input)
  /\ exists nonfield fields,
       out = nonfield ++ fields
       /\ Forall (fun t => is_FIELD t = false) nonfield
       /\ Forall (fun t => is_FIELD t = true) fields
       /\ StronglySorted (fun x y => String.leb (tup_1 x) (tup_1 y) = true) fields
       /\ (forall n, filter (has_name n) fields
                     = filter (fun t => is_FIELD t && has_name n t) input)
       /\ contiguous_names fields.
Proof.
  intros sorted1 out. unfold out. clear out.
  set (nonfield := filter (fun t => negb (is_FIELD t)) sorted1).
  set (fields1 := filter is_FIELD sorted1).
  set (fields := sort_key String.leb tup_1 fields1).
  assert (Hsorted1 : StronglySorted
                       (fun x y => (order_of x <=? order_of y)%nat = true) sorted1)
    by apply (sort_key_sorted Nat.leb order_of nat_leb_total nat_leb_trans).
  assert (Hsplit : sorted1 = nonfield ++ fields1)
    by (apply sorted_FIELD_suffix; exact Hsorted1).
  assert (Hperm : Permutation fields fields1) by apply sort_key_perm.
  assert (HallF : Forall (fun t => is_FIELD t = true) fields).
  { apply (Permutation_Forall (Permutation_sym Hperm)). apply Forall_filter_true. }
  assert (HallN : Forall (fun t => is_FIELD t = false) nonfield).
  { apply Forall_forall. intros x Hx. apply filter_In in Hx.
    destruct Hx as [_ Hx]. apply negb_true_iff. exact Hx. }
  assert (HF : fields1 = filter is_FIELD input).
  { apply sort_key_filter. intros x y Hx Hy.
    apply order_of_FIELD in Hx, Hy. rewrite Hx, Hy. reflexivity. }
  assert (Hnames : StronglySorted
                     (fun x y => String.leb (tup_1 x) (tup_1 y) = true) fields)
    by apply (sort_key_sorted String.leb tup_1 String.leb_total string_leb_trans).
  split; [|split; [|split]].
  - apply perm_trans with sorted1; [|apply sort_key_perm].
    rewrite Hsplit. apply Permutation_app_head. exact Hperm.
  - apply StronglySorted_app.
    + unfold nonfield. apply StronglySorted_filter.
      clear - Hsorted1. induction Hsorted1 as [|x l Hl IH Hx]; constructor; auto.
      apply Forall_impl with (2 := Hx). intros z Hz. apply Nat.leb_le. exact Hz.
    + clear - HallF. induction HallF as [|x l Hx Hl IH]; constructor; auto.
      apply Forall_impl with (2 := Hl). intros z Hz.
      apply order_of_FIELD in Hx, Hz. lia.
    + intros a b _ Hb. rewrite Forall_forall in HallF.
      apply HallF, order_of_FIELD in Hb. pose proof (order_of_le_4 a). lia.
  - intros k Hk. rewrite filter_app.
    assert (Himp : forall x, has_kind k x = true -> negb (is_FIELD x) = true).
    { intros x Hx. unfold has_kind in Hx. apply String.eqb_eq in Hx.
      apply negb_true_iff. unfold is_FIELD. apply String.eqb_neq. congruence. }
    rewrite (@filter_none _ (has_kind k) fields).
    + rewrite app_nil_r. unfold nonfield.
      rewrite filter_filter_implied by exact Himp.
      apply sort_key_filter. intros x y Hx Hy.
      unfold has_kind in Hx, Hy. apply String.eqb_eq in Hx, Hy.
      unfold order_of. rewrite Hx, Hy. apply Nat.leb_refl.
    + apply Forall_impl with (2 := HallF). intros x Hx.
      destruct (has_kind k x) eqn:E; [|reflexivity].
      apply Himp in E. rewrite Hx in E. discriminate.
  - exists nonfield, fields. repeat split; try assumption.
    + intros n. unfold fields.
      rewrite sort_key_filter.
      * rewrite HF. apply filter_filter_and.
      * intros x y Hx Hy. unfold has_name in Hx, Hy.
        apply String.eqb_eq in Hx, Hy. rewrite Hx, Hy. apply string_leb_refl.
    + apply sorted_contiguous. exact Hnames.
Qed.

(** A sorted list is sorted for every relation that holds between its
    elements wherever the first one does. *)
Lemma StronglySorted_among (A : Type) (R R' : A -> A -> Prop) (l : list A) :
  (forall x y, In x l -> In y l -> R x y -> R' x y) ->
  StronglySorted R l -> StronglySorted R' l.
Proof.
  intros H Hs. induction Hs as [|x l Hl IH Hx]; constructor.
  - apply IH. intros a b Ha Hb. apply H; right; assumption.
  - rewrite Forall_forall in *. intros y Hy.
    apply H; [left; reflexivity | right; exact Hy | apply Hx; exact Hy].
Qed.

(** The ordering contract holds for the two sorts of the setter on
    attributes of known kinds: the keys of the first sort follow the
    required precedence. *)
Lemma two_sorts_classified (input : list tuple4) :
  Forall (fun t => in_keys (tup_3 t) Data.VTK_DATASET_ATTRIBUTE_TYPE_ORDER = true)
         input ->
  let sorted1 := sort_key Nat.leb order_of input in
  classified input
    (filter (fun t => negb (is_FIELD t)) sorted1
     ++ sort_key String.leb tup_1 (filter is_FIELD sorted1)).
Proof.
  intros Hknown sorted1.
  destruct (two_sorts_ordered input) as (Hperm & Hkind & Hdecl & Hfields).
  fold sorted1 in Hperm, Hkind, Hdecl, Hfields.
  constructor; try assumption.
  apply StronglySorted_among with (2 := Hkind).
  rewrite Forall_forall in Hknown.
  intros x y Hx Hy Hle.
  apply not_after_order; [| |exact Hle];
    apply Hknown; apply (Permutation_in _ Hperm); assumption.
Qed.

(** The texts of the fifth list are read as the specs they were supplied
    for. *)
Lemma supplied_specs_are_parsed (fieldArrays : list string)
    (specs parsed : list (string * Z)) :
  Forall2 supplied_as fieldArrays specs ->
  parsed_specs fieldArrays parsed ->
  parsed = specs.
Proof.
  intros Hs. revert parsed.
  induction Hs as [|el spec l specs Hel Hl IH]; intros parsed Hp;
    inversion Hp as [|el' fa l' parsed' Hfa Hp']; subst; [reflexivity|].
  rewrite (supplied_is_matched Hel) in Hfa. injection Hfa as <-.
  f_equal. apply IH. exact Hp'.
Qed.

Section ClassifierTheorems.

Variable celldata_values :
  settings_t -> option Z -> nat -> string -> string -> h5obj ndarray -> result ndarray.

(** C1: whenever the setter accepts the six lists, the stored attributes are
    the declared ones (in the order of the declaration: the i-th array read,
    with the i-th name, type and kind), ordered by kind with the precedence
    SCALARS < VECTORS < NORMALS < TENSORS < FIELD; entries of one kind other
    than FIELD keep the order of their declaration; the FIELD entries are a
    suffix, sorted by their name in the bytewise lexicographic order, entries
    of one name staying in the order of their declaration and being
    contiguous. *)
Theorem groups_celldata_classified (f : h5file ndarray)
    (values : list (list string)) (r r' : Reader.t)
    (Hok : groups_celldata_setter celldata_values f values r = Ok r') :
  exists paths names types dsats fieldArrays tags arrays tuples,
    values = [paths; names; types; dsats; fieldArrays; tags]
    /\ read_celldata_arrays celldata_values f r 0 paths names types = Ok arrays
    /\ Data._celldata (data r') = Some tuples
    /\ classified (zip4 arrays names types dsats) (map base tuples).
Proof.
  destruct (groups_celldata_setter_ok _ _ _ _ Hok)
    as (paths & names & types & dsats & fieldArrays & tags & arrays & specs & tuples
        & Hv & Hread & L1 & L2 & L3 & _ & _ & Hcd & Hbase & _).
  exists paths, names, types, dsats, fieldArrays, tags, arrays, tuples.
  split; [exact Hv|]. split; [exact Hread|]. split; [exact Hcd|].
  rewrite Hbase. apply two_sorts_classified.
  subst values. pose proof (accepted_kinds _ _ _ _ _ _ _ _ _ Hok) as Hkinds.
  rewrite forallb_forall in Hkinds.
  destruct (@zip4_kinds arrays names types dsats L1 L2 L3) as (Zk & _).
  apply Forall_forall. intros t Ht. apply Hkinds.
  rewrite <- Zk. apply in_map. exact Ht.
Qed.

(** C10: the six lists are accepted, and the texts of the fifth list are
    field specs (array name, number of components) supplied in the form
    ['arrName numComp'].  Then the stored attributes are the entries that
    are no FIELD, without a field spec, followed by the FIELD entries in the
    order of their sorted names, and the i-th of these carries the i-th of
    the supplied specs, its array name and its number of components,
    whatever the place of its declaration was. *)
Theorem field_specs_follow_sorted_order (f : h5file ndarray)
    (paths names types dsats fieldArrays tags : list string)
    (specs : list (string * Z)) (r r' : Reader.t)
    (Hok : groups_celldata_setter celldata_values f
             [paths; names; types; dsats; fieldArrays; tags] r = Ok r')
    (Hsupplied : Forall2 supplied_as fieldArrays specs) :
  exists arrays nonfield fields,
    read_celldata_arrays celldata_values f r 0 paths names types = Ok arrays
    /\ Data._celldata (data r') = Some (nonfield ++ fields)
    /\ Forall (fun c => is_FIELD (base c) = false /\ ct_fieldArray c = None) nonfield
    /\ map base fields
       = sort_key String.leb tup_1 (filter is_FIELD (zip4 arrays names types dsats))
    /\ StronglySorted (fun x y => String.leb (ct_dataName x) (ct_dataName y) = true)
                      fields
    /\ List.length fields = count_FIELD dsats
    /\ (List.length fields <= List.length specs)%nat
    /\ (forall i c, nth_error fields i = Some c ->
          exists spec, nth_error specs i = Some spec
                       /\ ct_fieldArray c = Some spec).
Proof.
  destruct (groups_celldata_setter_ok _ _ _ _ Hok)
    as (paths' & names' & types' & dsats' & fieldArrays' & tags' & arrays & parsed
        & tuples & Hv & Hread & L1 & L2 & L3 & Hspecs & Hcount & Hcd & Hbase & Hfa).
  injection Hv as <- <- <- <- <- <-.
  rewrite (supplied_specs_are_parsed Hsupplied Hspecs) in *. clear Hspecs.
  set (input := zip4 arrays names types dsats) in *.
  set (sorted1 := sort_key Nat.leb order_of input) in *.
  set (nonfieldB := filter (fun t => negb (is_FIELD t)) sorted1) in *.
  set (fieldsB := sort_key String.leb tup_1 (filter is_FIELD sorted1)) in *.
  assert (HF : filter is_FIELD sorted1 = filter is_FIELD input).
  { apply sort_key_filter. intros x y Hx Hy.
    apply order_of_FIELD in Hx, Hy. rewrite Hx, Hy. reflexivity. }
  assert (HlenF : List.length fieldsB = count_FIELD dsats).
  { unfold fieldsB.
    rewrite (Permutation_length (sort_key_perm String.leb tup_1 _)), HF.
    destruct (@zip4_kinds arrays names types dsats) as (Zk & _); try lia.
    fold input in Zk. rewrite <- Zk. symmetry. apply count_FIELD_filter. }
  set (n := List.length nonfieldB).
  assert (Hb1 : map base (firstn n tuples) = nonfieldB).
  { rewrite <- firstn_map, Hbase. unfold n.
    rewrite firstn_app, Nat.sub_diag, firstn_all. apply app_nil_r. }
  assert (Hb2 : map base (skipn n tuples) = fieldsB).
  { rewrite <- skipn_map, Hbase. unfold n.
    rewrite skipn_app, Nat.sub_diag, skipn_all. reflexivity. }
  assert (Hf1 : map ct_fieldArray (firstn n tuples) = map (fun _ => None) nonfieldB).
  { rewrite <- firstn_map, Hfa.
    replace n with (List.length (map (fun _ : tuple4 => @None (string * Z)) nonfieldB))
      by (rewrite length_map; reflexivity).
    rewrite firstn_app, Nat.sub_diag, firstn_all. apply app_nil_r. }
  assert (Hf2 : map ct_fieldArray (skipn n tuples)
                = map Some (firstn (List.length fieldsB) specs)).
  { rewrite <- skipn_map, Hfa.
    replace n with (List.length (map (fun _ : tuple4 => @None (string * Z)) nonfieldB))
      by (rewrite length_map; reflexivity).
    rewrite skipn_app, Nat.sub_diag, skipn_all. reflexivity. }
  assert (Hlen2 : List.length (skipn n tuples) = List.length fieldsB).
  { rewrite <- Hb2. rewrite length_map. reflexivity. }
  exists arrays, (firstn n tuples), (skipn n tuples).
  rewrite firstn_skipn.
  split; [exact Hread|]. split; [exact Hcd|].
  split; [|split; [|split; [|split; [|split]]]].
  - apply Forall_forall. intros c Hc. split.
    + assert (Hin : In (base c) nonfieldB) by (rewrite <- Hb1; apply in_map; exact Hc).
      apply filter_In in Hin. destruct Hin as [_ Hin].
      apply negb_true_iff. exact Hin.
    + assert (Hin : In (ct_fieldArray c) (map (fun _ : tuple4 => @None (string * Z)) nonfieldB))
        by (rewrite <- Hf1; apply in_map; exact Hc).
      apply in_map_iff in Hin. destruct Hin as (x & Hx & _). congruence.
  - rewrite Hb2. unfold fieldsB. rewrite HF. reflexivity.
  - assert (Hs : StronglySorted (fun x y => String.leb (tup_1 x) (tup_1 y) = true)
                                (map base (skipn n tuples))).
    { rewrite Hb2.
      apply (sort_key_sorted String.leb tup_1 String.leb_total string_leb_trans). }
    clear - Hs. induction (skipn n tuples) as [|c l IH]; [constructor|].
    simpl in Hs. inversion Hs as [|? ? Hl Hc]; subst.
    constructor; [apply IH; exact Hl|].
    rewrite Forall_map in Hc. exact Hc.
  - lia.
  - lia.
  - intros i c Hi.
    assert (Hmap : nth_error (map ct_fieldArray (skipn n tuples)) i
                   = Some (ct_fieldArray c))
      by (rewrite nth_error_map, Hi; reflexivity).
    rewrite Hf2, nth_error_map in Hmap.
    destruct (nth_error (firstn (List.length fieldsB) specs) i) as [spec|] eqn:E;
      [|discriminate].
    injection Hmap as Hmap. exists spec. split; [|congruence].
    rewrite nth_error_firstn in E.
    destruct (i <? List.length fieldsB)%nat; [exact E | discriminate].
Qed.

End ClassifierTheorems.

(** The attribute declared second comes first and gets the first spec. *)
Lemma two_fields_stored :
  exists r',
    groups_celldata_setter values_as_read two_fields two_fields_values
                           two_fields_reader = Ok r'
    /\ Data._celldata (data r')
       = Some [CellTuple (NdArray [1%nat; 1%nat] [2%R]) "a" "double" "FIELD"
                         (Some ("x", 1%Z)) "<tagB>";
               CellTuple (NdArray [1%nat; 1%nat] [1%R]) "b" "float" "FIELD"
                         (Some ("y", 2%Z)) ""].
Proof.
  eexists. split; reflexivity.
Qed.

(** Eight attributes of all kinds: the two SCALARS, the VECTORS, the NORMALS
    and the TENSORS come first, then the FIELDs, ["aux"] before the two
    ["raw"], which stay in the order of their declaration; the FIELDs get
    the specs in this order. *)
Lemma eight_arrays_stored :
  exists r',
    groups_celldata_setter values_as_read eight_arrays eight_arrays_values
                           two_fields_reader = Ok r'
    /\ Data._celldata (data r')
       = Some [CellTuple (NdArray [1%nat; 1%nat] [3%R]) "grain" "int" "SCALARS" None "";
               CellTuple (NdArray [1%nat; 1%nat] [7%R]) "phase" "int" "SCALARS" None "";
               CellTuple (NdArray [1%nat; 1%nat] [5%R]) "flow" "double" "VECTORS" None "";
               CellTuple (NdArray [1%nat; 1%nat] [6%R]) "face" "double" "NORMALS" None "";
               CellTuple (NdArray [1%nat; 1%nat] [1%R]) "stress" "double" "TENSORS" None "";
               CellTuple (NdArray [1%nat; 1%nat] [4%R]) "aux" "float" "FIELD"
                         (Some ("u", 1%Z)) "";
               CellTuple (NdArray [1%nat; 1%nat] [2%R]) "raw" "float" "FIELD"
                         (Some ("v", 2%Z)) "";
               CellTuple (NdArray [1%nat; 1%nat] [8%R]) "raw" "float" "FIELD"
                         (Some ("w", 3%Z)) ""].
Proof.
  eexists. split; reflexivity.
Qed.

Lemma groups_celldata_classified_witness :
  exists tuples,
    classified [(NdArray [1%nat; 1%nat] [1%R], "stress", "double", "TENSORS");
                (NdArray [1%nat; 1%nat] [2%R], "raw", "float", "FIELD");
                (NdArray [1%nat; 1%nat] [3%R], "grain", "int", "SCALARS");
                (NdArray [1%nat; 1%nat] [4%R], "aux", "float", "FIELD");
                (NdArray [1%nat; 1%nat] [5%R], "flow", "double", "VECTORS");
                (NdArray [1%nat; 1%nat] [6%R], "face", "double", "NORMALS");
                (NdArray [1%nat; 1%nat] [7%R], "phase", "int", "SCALARS");
                (NdArray [1%nat; 1%nat] [8%R], "raw", "float", "FIELD")]
               (map base tuples)
    /\ map ct_datasetAttributeType tuples
       = ["SCALARS"; "SCALARS"; "VECTORS"; "NORMALS"; "TENSORS";
          "FIELD"; "FIELD"; "FIELD"].
Proof.
  destruct eight_arrays_stored as (r' & Hok & Hstored).
  destruct (groups_celldata_classified _ _ _ _ Hok)
    as (paths & names & types & dsats & fieldArrays & tags & arrays & tuples
        & Hv & Hread & Hcd & Hcl).
  injection Hv as <- <- <- <- <- <-.
  injection Hread as <-.
  exists tuples. split; [exact Hcl|].
  rewrite Hstored in Hcd. injection Hcd as <-. reflexivity.
Defined.

(** The specs ["u 1"], ["v 2"] and ["w 3"] on eight attributes, three of
    them FIELDs declared as ["raw"], ["aux"] and ["raw"]: the stored FIELDs
    are ["aux"], ["raw"], ["raw"], and they carry [("u", 1)], [("v", 2)]
    and [("w", 3)] in this order. *)
Lemma field_specs_follow_sorted_order_witness :
  exists nonfield fields,
    map ct_dataName fields = ["aux"; "raw"; "raw"]
    /\ Forall (fun c => ct_fieldArray c = None) nonfield
    /\ (forall i c, nth_error fields i = Some c ->
          exists spec, nth_error [("u", 1%Z); ("v", 2%Z); ("w", 3%Z)] i = Some spec
                       /\ ct_fieldArray c = Some spec).
Proof.
  destruct eight_arrays_stored as (r' & Hok & _).
  assert (Hsupplied : Forall2 supplied_as ["u 1"; "v 2"; "w 3"]
                              [("u", 1%Z); ("v", 2%Z); ("w", 3%Z)]).
  { repeat constructor.
    - exists " ", "1", "". repeat split; discriminate.
    - exists " ", "2", "". repeat split; discriminate.
    - exists " ", "3", "". repeat split; discriminate. }
  destruct (field_specs_follow_sorted_order _ _ _ _ _ _ _ _ Hok Hsupplied)
    as (arrays & nonfield & fields & Hread & _ & Hnf & Hb & _ & _ & _ & Hpair).
  injection Hread as <-.
  exists nonfield, fields. split; [|split; [|exact Hpair]].
  - change ct_dataName with (fun c => tup_1 (base c)).
    rewrite <- (map_map base tup_1), Hb. reflexivity.
  - apply Forall_impl with (2 := Hnf). intros c [_ H]. exact H.
Defined.

End ClassifierFacts.

(** * Further properties *)

(** ** Shapes and whole numbers in the data model (data.py) *)

Module ModelFacts.

Import Data.

(** The loop over the axes, started at [index], compares the first shape
    with the second one from [index] on. *)
Lemma shape_loop_suffix (sa pre sb : list nat) :
  List.length sa = List.length sb ->
  shape_loop sa (pre ++ sb) (List.length pre) = true -> sa = sb.
Proof.
  revert pre sb. induction sa as [|x sa IH]; intros pre [|y sb] Hlen; simpl in *;
    try discriminate; [reflexivity|].
  rewrite app_nth2 by lia. rewrite Nat.sub_diag. simpl.
  destruct (x =? y)%nat eqn:E; simpl; [|discriminate].
  apply Nat.eqb_eq in E. subst y. intros H. f_equal.
  apply (IH (pre ++ [x])); [lia|].
  rewrite <- app_assoc, length_app. simpl. rewrite Nat.add_1_r. exact H.
Qed.

Lemma shape_loop_same (pre s : list nat) :
  shape_loop s (pre ++ s) (List.length pre) = true.
Proof.
  revert pre. induction s as [|x s IH]; intros pre; simpl; [reflexivity|].
  rewrite app_nth2 by lia. rewrite Nat.sub_diag. simpl.
  rewrite Nat.eqb_refl. simpl.
  specialize (IH (pre ++ [x])).
  rewrite <- app_assoc, length_app in IH. simpl in IH.
  rewrite Nat.add_1_r in IH. exact IH.
Qed.

(** [_has_equal_dimensions] holds exactly for two arrays of one shape: the
    number of axes, the number of elements and the extent of every axis
    agree if and only if the shapes are equal. *)
Theorem has_equal_dimensions_iff_same_shape (a b : ndarray) :
  _has_equal_dimensions a b = true <-> shape a = shape b.
Proof.
  unfold _has_equal_dimensions. split.
  - destruct (List.length (shape a) =? List.length (shape b))%nat eqn:El;
      simpl; [|discriminate].
    destruct (Np.prod (shape a) =? Np.prod (shape b))%nat; simpl; [|discriminate].
    apply Nat.eqb_eq in El. apply (@shape_loop_suffix _ [] _ El).
  - intros ->. rewrite !Nat.eqb_refl. simpl. apply (shape_loop_same []).
Qed.

(** A real number without fractional part is its truncation. *)
Lemma trunc_whole (x : R) : frac_part x = 0%R -> IZR (trunc x) = x.
Proof.
  unfold frac_part, trunc. intros H.
  assert (Hx : x = IZR (Int_part x)) by lra.
  destruct (Rle_dec 0 x) as [Hpos | Hneg]; [symmetry; exact Hx|].
  assert (E : Int_part (- x) = (- Int_part x)%Z).
  { symmetry. apply Int_part_spec. rewrite opp_IZR. lra. }
  rewrite E, Z.opp_involutive. symmetry. exact Hx.
Qed.

Lemma is_int64_range (z : Z) :
  Np.is_int64 z = true <-> (Np.min_int64 <= z <= Np.max_int64)%Z.
Proof.
  unfold Np.is_int64. rewrite andb_true_iff, !Z.leb_le. reflexivity.
Qed.

(** [astype(int)] always gives a 64-bit integer. *)
Lemma astype_int_is_int64 (x : R) : Np.is_int64 (astype_int x) = true.
Proof.
  unfold astype_int. destruct (Np.is_int64 (trunc x)) eqn:E; [exact E | reflexivity].
Qed.

(** On a whole number [astype(int)] gives the number itself exactly when
    the number is in the 64-bit range. *)
Lemma astype_int_whole (x : R) :
  frac_part x = 0%R ->
  IZR (astype_int x) = x <-> (IZR Np.min_int64 <= x <= IZR Np.max_int64)%R.
Proof.
  intros Hw. pose proof (trunc_whole Hw) as Hx.
  unfold astype_int. destruct (Np.is_int64 (trunc x)) eqn:E.
  - split; [|intros _; exact Hx]. intros _.
    apply is_int64_range in E. rewrite <- Hx.
    split; apply IZR_le; lia.
  - assert (Hout : ~ (Np.min_int64 <= trunc x <= Np.max_int64)%Z).
    { intros H. apply is_int64_range in H. congruence. }
    split.
    + intros H. exfalso. apply Hout. rewrite <- Hx in H. apply eq_IZR in H.
      rewrite <- H. unfold Np.min_int64, Np.max_int64. lia.
    + intros [H1 H2]. exfalso. apply Hout. rewrite <- Hx in H1, H2.
      split; apply le_IZR; assumption.
Qed.

Lemma whole_test (arr : list R) :
  forallb (fun b : bool => b) (map (fun x => Reqb x 0) (map frac_part arr)) = true
  <-> Forall (fun x => frac_part x = 0%R) arr.
Proof.
  induction arr as [|x arr IH]; simpl.
  - split; auto.
  - rewrite andb_true_iff, IH. unfold Reqb.
    destruct (Req_dec_T (frac_part x) 0) as [E | E]; split.
    + intros [_ H]. constructor; assumption.
    + intros H. inversion H. auto.
    + intros [H _]. discriminate.
    + intros H. inversion H. contradiction.
Qed.

(** What [_convert2int_if_no_decimals] keeps.  It returns an array of
    64-bit integers exactly when every entry is whole, and the array as it
    is otherwise.  The integers are the entries if and only if every entry
    lies in the 64-bit range, from [-2^63] to [2^63 - 1]: a whole entry
    outside of it is replaced by another number.  [Data.origin] stores this
    result for every input. *)
Theorem convert2int_keeps_int64_values (arr : list R) (d : Data.t) :
  match _convert2int_if_no_decimals arr with
  | IntArray l =>
      Forall (fun x => frac_part x = 0%R) arr
      /\ Forall (fun z => Np.is_int64 z = true) l
      /\ (map IZR l = arr
          <-> Forall (fun x => (IZR Np.min_int64 <= x <= IZR Np.max_int64)%R) arr)
  | FloatArray l => l = arr /\ ~ Forall (fun x => frac_part x = 0%R) arr
  end
  /\ exists d', origin_setter arr d = Ok d'
                /\ _origin d' = Some (_convert2int_if_no_decimals arr).
Proof.
  split; [|eexists; split; reflexivity].
  unfold _convert2int_if_no_decimals.
  destruct (forallb _ _) eqn:E.
  - apply whole_test in E. split; [exact E|]. split.
    + apply Forall_forall. intros z Hz. apply in_map_iff in Hz.
      destruct Hz as (x & <- & _). apply astype_int_is_int64.
    + rewrite map_map. induction E as [|x l Hx Hl IH]; simpl.
      * split; auto.
      * split.
        -- intros [= H1 H2]. constructor.
           ++ apply (astype_int_whole Hx). exact H1.
           ++ apply IH. exact H2.
        -- intros H. inversion H as [|? ? Hr Hrs]; subst. f_equal.
           ++ apply (astype_int_whole Hx). exact Hr.
           ++ apply IH. exact Hrs.
  - split; [reflexivity|]. intros H. apply whole_test in H. congruence.
Qed.

(** The whole number [2^63] is stored as another integer. *)
Lemma convert2int_loses_2_63 :
  _convert2int_if_no_decimals [IZR (2 ^ 63)] = IntArray [Np.min_int64].
Proof.
  assert (Hw : frac_part (IZR (2 ^ 63)) = 0%R).
  { unfold frac_part.
    rewrite <- (Int_part_spec (IZR (2 ^ 63)) (2 ^ 63)) by lra. lra. }
  unfold _convert2int_if_no_decimals.
  replace (forallb _ _) with true.
  2:{ symmetry. apply whole_test. constructor; [exact Hw | constructor]. }
  assert (Ht : trunc (IZR (2 ^ 63)) = (2 ^ 63)%Z).
  { apply eq_IZR. apply trunc_whole. exact Hw. }
  cbn [map]. unfold astype_int. rewrite Ht. reflexivity.
Qed.

End ModelFacts.

(** ** The setters of the reader: absent datasets, the dimension and the
    first row (reader.py) *)

Module SetterFacts.

Import H5 Reader.

(** A safe look-up of the root, of the empty path or of a path the file does
    not hold returns [None]. *)
Lemma dset_safe_absent (A : Type) (f : h5file A) (value : string) :
  value = "/" \/ value = "" \/ f value = None ->
  outcome (dset f value true) = Ok None.
Proof.
  intros H. unfold dset.
  destruct ((value =? "/") || (value =? "")) eqn:E; simpl; [reflexivity|].
  destruct H as [-> | [-> | H]]; try discriminate.
  rewrite H. reflexivity.
Qed.

(** A look-up of a path that the file holds, other than the root and the
    empty path, returns the object. *)
Lemma dset_present (A : Type) (f : h5file A) (value : string) (o : h5obj A)
    (safe : bool) :
  value <> "/" -> value <> "" -> f value = Some o ->
  outcome (dset f value safe) = Ok (Some o).
Proof.
  intros H1 H2 H. unfold dset.
  apply String.eqb_neq in H1, H2. rewrite H1, H2, H. reflexivity.
Qed.

Lemma dset_content_absent (A : Type) (f : h5file A) (value : string) :
  f value = None ->
  dset_content f value = Raise (Hdf2Mic_HDF5DatasetNotFoundError value).
Proof.
  intros H. unfold dset_content, dset. rewrite andb_false_r, H. reflexivity.
Qed.

(** The three geometry datasets are mandatory: when the file holds nothing
    at the path, [group_dimensions], [group_origin] and [group_spacing]
    raise [Hdf2Mic_HDF5DatasetNotFoundError] for that path. *)
Theorem geometry_datasets_are_mandatory (value : string) (r : Reader.t) :
  (forall f : h5file (list Z), f value = None ->
     group_dimensions_setter f value r
     = Raise (Hdf2Mic_HDF5DatasetNotFoundError value))
  /\ (forall f : h5file (list R), f value = None ->
        group_origin_setter f value r
        = Raise (Hdf2Mic_HDF5DatasetNotFoundError value)
        /\ group_spacing_setter f value r
           = Raise (Hdf2Mic_HDF5DatasetNotFoundError value)).
Proof.
  split.
  - intros f H. unfold group_dimensions_setter.
    rewrite (dset_content_absent f value H). reflexivity.
  - intros f H. unfold group_origin_setter, group_spacing_setter.
    rewrite (dset_content_absent f value H). split; reflexivity.
Qed.

Lemma geometry_datasets_are_mandatory_witness :
  group_dimensions_setter (fun _ => None) "/geometry/DIMENSIONS"
    (Reader.init (Settings false false))
  = Raise (Hdf2Mic_HDF5DatasetNotFoundError "/geometry/DIMENSIONS")
  /\ group_spacing_setter (fun _ => None) "/geometry/SPACING"
       (Reader.init (Settings false false))
     = Raise (Hdf2Mic_HDF5DatasetNotFoundError "/geometry/SPACING").
Proof.
  split.
  - exact (proj1 (geometry_datasets_are_mandatory "/geometry/DIMENSIONS"
                    (Reader.init (Settings false false)))
                 (fun _ => None) eq_refl).
  - exact (proj2 (proj2 (geometry_datasets_are_mandatory "/geometry/SPACING"
                           (Reader.init (Settings false false)))
                        (fun _ => None) eq_refl)).
Defined.

(** The two grain tables are optional, but not alike.  For the root, the
    empty path or a path the file does not hold, [group_angles] stores no
    angles and leaves the phases and the grain count as they are, with or
    without clipping of the first line (the guard of the rotation being
    false, as it is for every legal [dim]).  [group_phases] does so only without
    clipping: with [cellFeatureDataClipFirstLine] set it raises
    [Hdf2Mic_InitArgError], the clipping being applied to the missing
    table. *)
Theorem absent_grain_tables (f : h5file ndarray) (value : string) (r : Reader.t)
    (Habsent : value = "/" \/ value = "" \/ f value = None) :
  (rotate (settings r) && dim_is r 30 = false ->
     exists r',
       group_angles_setter f value r = Ok r'
       /\ Data._angles (data r') = None
       /\ Data._phases (data r') = Data._phases (data r)
       /\ Data._grain_count (data r') = Data._grain_count (data r))
  /\ (cellFeatureDataClipFirstLine (settings r) = false ->
      exists r',
        group_phases_setter f value r = Ok r'
        /\ Data._phases (data r') = None
        /\ Data._angles (data r') = Data._angles (data r)
        /\ Data._grain_count (data r') = Data._grain_count (data r))
  /\ (cellFeatureDataClipFirstLine (settings r) = true ->
      group_phases_setter f value r = Raise (Hdf2Mic_InitArgError EXCEPTIONS_INITARG)).
Proof.
  pose proof (dset_safe_absent f Habsent) as E.
  split; [|split].
  - intros Hguard. unfold group_angles_setter. rewrite E, Hguard. simpl.
    unfold Data.angles_setter, Data._compare_angles_phases. simpl.
    eexists. split; [reflexivity|]. simpl. auto.
  - intros Hclip. unfold group_phases_setter. rewrite E, Hclip. simpl.
    unfold Data.phases_setter, Data._compare_angles_phases. simpl.
    destruct (Data._angles (data r)); eexists; (split; [reflexivity|]); simpl; auto.
  - intros Hclip. unfold group_phases_setter. rewrite E, Hclip. reflexivity.
Qed.

Lemma absent_grain_tables_witness :
  (exists r', group_angles_setter (fun _ => None) "/" 
                (Reader.Make (Settings true true) (Some 3%Z) Data.init) = Ok r')
  /\ group_phases_setter (fun _ => None) "/"
       (Reader.Make (Settings true true) (Some 3%Z) Data.init)
     = Raise (Hdf2Mic_InitArgError EXCEPTIONS_INITARG).
Proof.
  pose proof (@absent_grain_tables (fun _ => None) "/"
                (Reader.Make (Settings true true) (Some 3%Z) Data.init)
                (or_introl eq_refl)) as (Ha & _ & Hp).
  split.
  - destruct (Ha eq_refl) as (r' & E & _). exists r'. exact E.
  - exact (Hp eq_refl).
Defined.

(** Orientations need two or three dimensions: when the file holds an object
    at the path and [dim] is neither 2 nor 3 (a 1-D run), [group_angles]
    raises [Hdf2Mic_InitArgError], whatever the object is. *)
Theorem orientations_need_dim_2_or_3 (f : h5file ndarray) (value : string)
    (o : h5obj ndarray) (r : Reader.t)
    (Hroot : value <> "/") (Hempty : value <> "") (Hfound : f value = Some o)
    (H2 : dim_is r 2 = false) (H3 : dim_is r 3 = false) :
  group_angles_setter f value r = Raise (Hdf2Mic_InitArgError EXCEPTIONS_INITARG).
Proof.
  unfold group_angles_setter.
  rewrite (dset_present f true Hroot Hempty Hfound), H2, H3. reflexivity.
Qed.

Lemma orientations_need_dim_2_or_3_witness :
  group_angles_setter one_grain "/EulerAngles"
    (Reader.Make (Settings false false) (Some 1%Z) Data.init)
  = Raise (Hdf2Mic_InitArgError EXCEPTIONS_INITARG).
Proof.
  apply (@orientations_need_dim_2_or_3 one_grain "/EulerAngles"
           (Dataset (NdArray [1%nat; 3%nat] [0; 270; 0]%R)));
    (discriminate || reflexivity).
Defined.

(** The first entries of the rows of a table. *)
Lemma first_of_blocks (n k : nat) (fl : list R) :
  map (fun b => hd 0%R b) (Np.blocks n (S k) fl)
  = map (fun i => nth (i * S k) fl 0%R) (seq 0 n).
Proof.
  revert fl. induction n as [|n IH]; intros fl; [reflexivity|].
  cbn [Np.blocks map seq]. f_equal.
  - destruct fl; reflexivity.
  - rewrite IH, <- seq_shift, map_map. apply map_ext. intros i.
    rewrite nth_skipn. f_equal.
Qed.

(** In a 2-D run only the first component of every orientation is kept: of a
    table of [n] rows and at least one column, [group_angles] stores the one
    column of the first entries of the rows, without its first entry when
    the first line is clipped, and the grain count is the number of entries
    stored. *)
Theorem two_dim_keeps_first_component (f : h5file ndarray) (value : string)
    (r : Reader.t) (n k : nat) (fl : list R)
    (Hroot : value <> "/") (Hempty : value <> "")
    (Hfound : f value = Some (Dataset (NdArray [n; S k] fl)))
    (Hdim : _dim r = Some 2%Z)
    (Hphases : Data._phases (data r) = None) :
  let first := map (fun i => nth (i * S k) fl 0%R) (seq 0 n) in
  let stored :=
    if cellFeatureDataClipFirstLine (settings r)
    then NdArray [Nat.pred n; 1%nat] (tl first)
    else NdArray [n; 1%nat] first in
  exists r',
    group_angles_setter f value r = Ok r'
    /\ Data._angles (data r') = Some stored
    /\ Data._grain_count (data r') = Some (hd 0%nat (shape stored)).
Proof.
  intros first stored. unfold group_angles_setter.
  rewrite (dset_present f true Hroot Hempty Hfound).
  unfold dim_is. rewrite Hdim. cbn [Z.eqb Pos.eqb bind read_all].
  unfold Np.last_axis_0. cbn [shape rev app flat bind].
  rewrite andb_false_r.
  unfold Np.ndim, Np.reshape_column. cbn [shape List.length Nat.eqb flat Np.prod fold_right].
  rewrite Nat.mul_1_r, first_of_blocks. fold first.
  unfold Data.angles_setter, Data._compare_angles_phases.
  destruct (cellFeatureDataClipFirstLine (settings r)) eqn:Hclip.
  - cbn. rewrite Hphases. cbn. eexists. split; [reflexivity|]. split; reflexivity.
  - cbn. rewrite Hphases. cbn. eexists. split; [reflexivity|]. split; reflexivity.
Qed.

Lemma two_dim_keeps_first_component_witness :
  exists r',
    group_angles_setter
      (fun p => if p =? "/EulerAngles"
                then Some (Dataset (NdArray [2; 3]%nat [10; 20; 30; 40; 50; 60]%R))
                else None)
      "/EulerAngles" (Reader.Make (Settings false false) (Some 2%Z) Data.init) = Ok r'
    /\ Data._angles (data r') = Some (NdArray [2; 1]%nat [10; 40]%R).
Proof.
  destruct (@two_dim_keeps_first_component
              (fun p => if p =? "/EulerAngles"
                then Some (Dataset (NdArray [2; 3]%nat [10; 20; 30; 40; 50; 60]%R))
                else None)
              "/EulerAngles" (Reader.Make (Settings false false) (Some 2%Z) Data.init)
              2 2 [10; 20; 30; 40; 50; 60]%R)
    as (r' & E & Ha & _); try (discriminate || reflexivity).
  exists r'. split; [exact E | exact Ha].
Defined.

(** With [cellFeatureDataClipFirstLine] set, both grain tables lose exactly
    their first row: of a table of [n] rows, [group_angles] (in a 3-D run)
    and [group_phases] store the rows from the second on, in their order,
    and the grain count is [n - 1]. *)
Theorem clipping_drops_the_first_row (f : h5file ndarray) (value : string)
    (r : Reader.t) (n m : nat) (fl : list R)
    (Hroot : value <> "/") (Hempty : value <> "")
    (Hfound : f value = Some (Dataset (NdArray [n; m] fl)))
    (Hclip : cellFeatureDataClipFirstLine (settings r) = true) :
  (_dim r = Some 3%Z -> Data._phases (data r) = None ->
     exists r' a,
       group_angles_setter f value r = Ok r'
       /\ Data._angles (data r') = Some a
       /\ shape a = [Nat.pred n; m]
       /\ Np.blocks (Nat.pred n) m (flat a) = tl (Np.blocks n m fl)
       /\ Data._grain_count (data r') = Some (Nat.pred n))
  /\ (Data._angles (data r) = None ->
      exists r' p,
        group_phases_setter f value r = Ok r'
        /\ Data._phases (data r') = Some p
        /\ shape p = [Nat.pred n; m]
        /\ Np.blocks (Nat.pred n) m (flat p) = tl (Np.blocks n m fl)
        /\ Data._grain_count (data r') = Some (Nat.pred n)).
Proof.
  assert (Hrows : Np.blocks (Nat.pred n) m (skipn (m * 1) fl) = tl (Np.blocks n m fl)).
  { rewrite Nat.mul_1_r. destruct n; reflexivity. }
  split.
  - intros Hdim Hphases. unfold group_angles_setter.
    rewrite (dset_present f true Hroot Hempty Hfound).
    unfold dim_is. rewrite Hdim, Hclip. cbn [Z.eqb Pos.eqb bind read_all].
    rewrite andb_false_r.
    unfold Data.angles_setter, Data._compare_angles_phases. cbn.
    rewrite Hphases. cbn.
    eexists. eexists. split; [reflexivity|]. cbn.
    split; [reflexivity|]. split; [reflexivity|]. split; [exact Hrows | reflexivity].
  - intros Hangles. unfold group_phases_setter.
    rewrite (dset_present f true Hroot Hempty Hfound), Hclip.
    unfold Data.phases_setter, Data._compare_angles_phases. cbn.
    rewrite Hangles. cbn.
    eexists. eexists. split; [reflexivity|]. cbn.
    split; [reflexivity|]. split; [reflexivity|]. split; [exact Hrows | reflexivity].
Qed.

Lemma clipping_drops_the_first_row_witness :
  exists r' p,
    group_phases_setter
      (fun p => if p =? "/Phases"
                then Some (Dataset (NdArray [3; 1]%nat [0; 1; 2]%R))
                else None)
      "/Phases" (Reader.Make (Settings false true) (Some 3%Z) Data.init) = Ok r'
    /\ Data._phases (data r') = Some p
    /\ Np.blocks 2 1 (flat p) = [[1%R]; [2%R]].
Proof.
  destruct (proj2 (@clipping_drops_the_first_row
              (fun p => if p =? "/Phases"
                        then Some (Dataset (NdArray [3; 1]%nat [0; 1; 2]%R))
                        else None)
              "/Phases" (Reader.Make (Settings false true) (Some 3%Z) Data.init)
              3 1 [0; 1; 2]%R ltac:(discriminate) ltac:(discriminate)
              eq_refl eq_refl) eq_refl)
    as (r' & p & E & Hp & _ & Hrows & _).
  exists r', p. split; [exact E|]. split; [exact Hp | exact Hrows].
Defined.

End SetterFacts.

(** ** The rotation as a function of its angles (rotMat.py) *)

Module RotateFacts.

Import RotMat RotFacts.

Local Open Scope R_scope.

(** The angle recovered from a sine and a cosine lies in one turn. *)
Lemma recovered_angle_in_one_turn (tol s c : R) :
  0 <= fold_negative (angle_of_sin_cos tol s c) < 2 * PI.
Proof.
  pose proof PI_RGT_0 as Hpi. pose proof PI2_1 as Hpi2.
  pose proof (asin_bound (clamp s)) as Hb.
  unfold angle_of_sin_cos, fold_negative, Rgtb, Rltb.
  destruct (Rgt_dec (Rabs (cos (asin (clamp s)) - c)) tol) as [H1 | H1];
    match goal with
    | |- context [Rgt_dec ?x ?y] => destruct (Rgt_dec x y) as [H2 | H2]
    end;
    match goal with
    | |- context [Rlt_dec ?x ?y] => destruct (Rlt_dec x y) as [H3 | H3]
    end; lra.
Qed.

Lemma degrees_of_one_turn (x : R) :
  0 <= x < 2 * PI -> 0 <= x / (PI / 180) < 360.
Proof.
  intros H. pose proof PI_RGT_0 as Hpi.
  assert (E : x = x / (PI / 180) * (PI / 180)) by (field; lra).
  set (y := x / (PI / 180)) in *. split; nra.
Qed.

Lemma degrees_of_half_turn (x : R) :
  0 <= x <= PI -> 0 <= x / (PI / 180) <= 180.
Proof.
  intros H. pose proof PI_RGT_0 as Hpi.
  assert (E : x = x / (PI / 180) * (PI / 180)) by (field; lra).
  set (y := x / (PI / 180)) in *. split; nra.
Qed.

Lemma decompose_in_range (M : mat3) :
  rotation M ->
  exists A B C,
    rotationMatrixToEulerAngles M = Ok [A; B; C]
    /\ 0 <= A < 360 /\ 0 <= B <= 180 /\ 0 <= C < 360.
Proof.
  intros H. pose proof PI_RGT_0 as Hpi. unfold rotationMatrixToEulerAngles.
  rewrite (isRotationMatrix_rotation H). simpl negb.
  destruct M as [m00 m01 m02 m10 m11 m12 m20 m21 m22]. cbv iota beta.
  destruct (Rltb (Rabs (sqrt (1 - clamp m22 * clamp m22))) 1e-5).
  - do 3 eexists. split; [reflexivity|].
    split; [apply degrees_of_one_turn, recovered_angle_in_one_turn|].
    rewrite (fold_negative_nonneg (x := 0)) by lra.
    unfold Rdiv. rewrite Rmult_0_l. lra.
  - do 3 eexists. split; [reflexivity|].
    split; [apply degrees_of_one_turn, recovered_angle_in_one_turn|].
    split; [|apply degrees_of_one_turn, recovered_angle_in_one_turn].
    pose proof (acos_bound (clamp m22)) as Hb.
    rewrite fold_negative_nonneg by lra.
    apply degrees_of_half_turn. exact Hb.
Qed.

Lemma rotation_conjugate (E : mat3) (toMICRESS : bool) :
  rotation E ->
  rotation (if toMICRESS then dot (dot Rma E) Ram else dot (dot Ram E) Rma).
Proof.
  intros H. destruct toMICRESS;
    repeat apply rotation_dot;
    (exact H || exact rotation_Ram || exact rotation_Rma).
Qed.

Lemma rotate_matrix (phi theta psi : R) (toMICRESS : bool) :
  rotate [phi; theta; psi] toMICRESS
  = rotationMatrixToEulerAngles
      (let E := REuler (to_radians phi) (to_radians theta) (to_radians psi) in
       if toMICRESS then dot (dot Rma E) Ram else dot (dot Ram E) Rma).
Proof. destruct toMICRESS; reflexivity. Qed.

(** [rotate] is defined on the triples only, and on every triple: the
    assertion on the matrix never fails, and three angles are returned, the
    first and the third in [[0, 360)] and the middle one in [[0, 180]]
    degrees.  A list of another length raises [ValueError]. *)
Theorem rotate_returns_angles_of_one_turn (eulerDegree : list R) (toMICRESS : bool) :
  match eulerDegree with
  | [phi; theta; psi] =>
      exists A B C,
        rotate eulerDegree toMICRESS = Ok [A; B; C]
        /\ 0 <= A < 360 /\ 0 <= B <= 180 /\ 0 <= C < 360
  | _ => rotate eulerDegree toMICRESS = Raise (ValueError Unpack)
  end.
Proof.
  destruct eulerDegree as [|phi [|theta [|psi [|x l]]]]; try reflexivity.
  rewrite rotate_matrix. apply decompose_in_range.
  apply rotation_conjugate, rotation_REuler.
Qed.

(** The Euler matrix does not change when an angle changes by whole turns. *)
Lemma REuler_whole_turns (a b c : R) (ka kb kc : Z) :
  REuler (a + IZR ka * (2 * PI)) (b + IZR kb * (2 * PI)) (c + IZR kc * (2 * PI))
  = REuler a b c.
Proof.
  rewrite !REuler_entries, !sin_turns, !cos_turns. reflexivity.
Qed.

Lemma REuler_to_radians (phi theta psi : R) :
  REuler (to_radians phi) (to_radians theta) (to_radians psi)
  = REuler (phi * PI / 180) (theta * PI / 180) (psi * PI / 180).
Proof.
  destruct (to_radians_turns phi) as (ka & ->).
  destruct (to_radians_turns theta) as (kb & ->).
  destruct (to_radians_turns psi) as (kc & ->).
  apply REuler_whole_turns.
Qed.

(** The angles [rotate] returns describe the orientation in the other axis
    system: whenever the returned triple is regular, the matrix of its
    angles is the matrix of the given angles between the two axis
    permutations, [Rma . REuler . Ram] towards MICRESS and
    [Ram . REuler . Rma] back. *)
Theorem rotate_is_the_axis_change (phi theta psi A B C : R) (toMICRESS : bool)
    (Hrun : rotate [phi; theta; psi] toMICRESS = Ok [A; B; C])
    (Hregular : regular [A; B; C]) :
  let E := REuler (phi * PI / 180) (theta * PI / 180) (psi * PI / 180) in
  REuler (A * PI / 180) (B * PI / 180) (C * PI / 180)
  = if toMICRESS then dot (dot Rma E) Ram else dot (dot Ram E) Rma.
Proof.
  intros E. rewrite rotate_matrix in Hrun. cbv zeta in Hrun.
  rewrite REuler_to_radians in Hrun. fold E in Hrun.
  refine (proj1 (recompose _ Hrun Hregular)).
  apply rotation_conjugate, rotation_REuler.
Qed.

Lemma rotate_is_the_axis_change_witness :
  REuler (0 * PI / 180) (90 * PI / 180) (0 * PI / 180)
  = dot (dot Rma (REuler (0 * PI / 180) (90 * PI / 180) (0 * PI / 180))) Ram.
Proof.
  exact (@rotate_is_the_axis_change 0 90 0 0 90 0 true rotate_0_90_0 regular_0_90_0).
Defined.

(** [rotate] depends on every angle only up to whole turns: adding
    multiples of 360 degrees to the three angles does not change the
    result. *)
Theorem rotate_whole_turns (phi theta psi : R) (k1 k2 k3 : Z) (toMICRESS : bool) :
  rotate [phi + 360 * IZR k1; theta + 360 * IZR k2; psi + 360 * IZR k3] toMICRESS
  = rotate [phi; theta; psi] toMICRESS.
Proof.
  rewrite !rotate_matrix. cbv zeta. rewrite !REuler_to_radians.
  replace ((phi + 360 * IZR k1) * PI / 180)
    with (phi * PI / 180 + IZR k1 * (2 * PI)) by field.
  replace ((theta + 360 * IZR k2) * PI / 180)
    with (theta * PI / 180 + IZR k2 * (2 * PI)) by field.
  replace ((psi + 360 * IZR k3) * PI / 180)
    with (psi * PI / 180 + IZR k3 * (2 * PI)) by field.
  rewrite REuler_whole_turns. reflexivity.
Qed.

(** The special case of the decomposition is entered for a middle angle of
    180 degrees as well as for 0: for every matrix [REuler a PI c] the
    middle and the third angle returned are 0, so the returned triple does
    not describe the matrix. *)
Theorem decomposition_loses_half_turn (a c : R) :
  exists A,
    rotationMatrixToEulerAngles (REuler a PI c) = Ok [A; 0; 0]
    /\ REuler (A * PI / 180) (0 * PI / 180) (0 * PI / 180) <> REuler a PI c.
Proof.
  pose proof PI_RGT_0 as Hpi.
  unfold rotationMatrixToEulerAngles.
  rewrite (isRotationMatrix_rotation (rotation_REuler a PI c)). simpl negb.
  rewrite REuler_entries. cbv iota beta.
  rewrite cos_PI.
  rewrite clamp_id by lra.
  replace (1 - -1 * -1) with 0 by ring.
  rewrite sqrt_0, Rabs_R0, Rltb_true by lra.
  eexists. split.
  - apply ok3; [reflexivity| |];
      rewrite fold_negative_nonneg by lra; unfold Rdiv; apply Rmult_0_l.
  - rewrite !REuler_entries. intros H.
    injection H as _ _ _ _ _ _ _ _ H22.
    replace (0 * PI / 180) with 0 in H22 by field.
    rewrite cos_0 in H22. lra.
Qed.

(** The matrix [eulerAnglesToRotationMatrix] returns is a proper rotation
    (orthogonal, equal to its matrix of cofactors), and the change of axes is
    undone by the opposite one: between [Ram] and [Rma] the matrix built
    towards MICRESS is the Euler matrix again, and between [Rma] and [Ram]
    the matrix built in the other direction. *)
Theorem axis_change_is_a_rotation (eulerRad : list R) (toMicress : bool) (M : mat3)
    (Hrun : eulerAnglesToRotationMatrix eulerRad toMicress = Ok M) :
  rotation M
  /\ exists phi theta psi,
       eulerRad = [phi; theta; psi]
       /\ (if toMicress then dot (dot Ram M) Rma else dot (dot Rma M) Ram)
          = REuler phi theta psi.
Proof.
  destruct eulerRad as [|phi [|theta [|psi [|x l]]]]; try discriminate.
  unfold eulerAnglesToRotationMatrix in Hrun.
  destruct toMicress; cbn [negb] in Hrun.
  - assert (E : dot (dot Rma (REuler phi theta psi)) Ram = M) by congruence.
    rewrite <- E.
    split; [apply (rotation_conjugate true), rotation_REuler|].
    exists phi, theta, psi. split; [reflexivity | apply conjugate_back].
  - assert (E : dot (dot Ram (REuler phi theta psi)) Rma = M) by congruence.
    rewrite <- E.
    split; [apply (rotation_conjugate false), rotation_REuler|].
    exists phi, theta, psi. split; [reflexivity|].
    destruct (REuler phi theta psi). unfold Ram, Rma. simpl. mat_ring.
Qed.

Lemma axis_change_is_a_rotation_witness :
  rotation (dot (dot Rma (REuler 0 0 0)) Ram).
Proof.
  exact (proj1 (@axis_change_is_a_rotation [0; 0; 0] true _ eq_refl)).
Defined.

End RotateFacts.

(** ** The cell-data setter: what can fail, and the tags (reader.py) *)

Module CellDataFacts.

Import H5 Reader SortFacts ClassifierFacts.

(** The tags are taken by position. *)
Lemma append_tags_run (tags : list string)
    (l : list (tuple4 * option (string * Z))) (i : nat) :
  (i + List.length l <= List.length tags)%nat ->
  exists res,
    append_tags i tags l = Ok res
    /\ List.length res = List.length l
    /\ map ct_tag res = firstn (List.length l) (skipn i tags).
Proof.
  revert i. induction l as [|[tup fa] l IH]; intros i Hi; simpl in *.
  - exists []. auto.
  - destruct (nth_error tags i) as [tag|] eqn:En.
    + destruct (IH (S i)) as (res & E & Hl & Ht); [lia|].
      rewrite E. simpl. eexists. split; [reflexivity|]. simpl.
      rewrite Hl, Ht, (skipn_nth_error _ _ En). auto.
    + apply nth_error_None in En. lia.
Qed.

Section Outcome.

Variable celldata_values :
  settings_t -> option Z -> nat -> string -> string -> h5obj ndarray -> result ndarray.

(** The run of the setter, from the checks to the stored tuples. *)
Lemma groups_celldata_outcome (f : h5file ndarray) (values : list (list string))
    (r : Reader.t) :
  (exists msg,
      groups_celldata_setter celldata_values f values r
      = Raise (Hdf2Mic_InitArgError msg))
  \/ exists paths names types dsats fieldArrays tags,
       values = [paths; names; types; dsats; fieldArrays; tags]
       /\ (count_FIELD dsats <= List.length fieldArrays)%nat
       /\ match read_celldata_arrays celldata_values f r 0 paths names types with
          | Raise e => groups_celldata_setter celldata_values f values r = Raise e
          | Ok arrays =>
              exists r' tuples,
                groups_celldata_setter celldata_values f values r = Ok r'
                /\ Data._celldata (data r') = Some tuples
                /\ List.length tuples = List.length paths
                /\ map ct_tag tuples
                   = firstn (List.length paths)
                       (tags ++ repeat "" (List.length paths - List.length tags))
          end.
Proof.
  unfold groups_celldata_setter.
  destruct values as [|paths [|names [|types [|dsats [|fieldArrays [|tags [|]]]]]]];
    try (left; eexists; reflexivity).
  destruct (forallb _ [names; types; dsats]) eqn:Hlen; simpl negb; cbv iota;
    [|left; eexists; reflexivity].
  destruct (forallb _ types) eqn:Htypes; simpl negb; cbv iota;
    [|left; eexists; reflexivity].
  destruct (forallb _ dsats) eqn:Hkinds; simpl negb; cbv iota;
    [|left; eexists; reflexivity].
  destruct (forallb _ fieldArrays) eqn:Hfa; simpl negb; cbv iota;
    [|left; eexists; reflexivity].
  destruct (List.length fieldArrays <? count_FIELD dsats)%nat eqn:Hcount;
    [left; eexists; reflexivity|].
  destruct (forallb _ tags) eqn:Htags; simpl negb; cbv iota;
    [|left; eexists; reflexivity].
  right. exists paths, names, types, dsats, fieldArrays, tags.
  apply Nat.ltb_ge in Hcount.
  split; [reflexivity|]. split; [exact Hcount|].
  destruct (read_celldata_arrays celldata_values f r 0 paths names types)
    as [arrays|e] eqn:Hread; simpl bind; [|reflexivity].
  pose proof (read_celldata_arrays_length _ _ _ _ _ _ _ Hread) as Harr.
  simpl in Hlen. rewrite !andb_true_iff, !Nat.eqb_eq in Hlen.
  destruct Hlen as (L1 & L2 & L3 & _).
  destruct (@zip4_kinds arrays names types dsats) as (Zk & Zn & Za); try lia.
  set (input := zip4 arrays names types dsats) in *.
  assert (Hinput : List.length input = List.length paths).
  { rewrite <- Harr, <- Za. symmetry. apply length_map. }
  rewrite (sort_by_key_total Nat.leb order_of order_key input).
  2:{ intros a Ha. apply order_key_known.
      rewrite forallb_forall in Hkinds. apply Hkinds.
      rewrite <- Zk. apply in_map. exact Ha. }
  simpl bind.
  set (sorted1 := sort_key Nat.leb order_of input) in *.
  assert (Hsorted1 : List.length sorted1 = List.length paths).
  { rewrite <- Hinput. apply Permutation_length, sort_key_perm. }
  set (specs := flat_map _ fieldArrays) in *.
  assert (Hlspecs : List.length specs = List.length fieldArrays).
  { symmetry. eapply Forall2_length. apply parse_all. exact Hfa. }
  set (tags' := tags ++ repeat "" (List.length paths - List.length tags)).
  assert (Htags' : (List.length paths <= List.length tags')%nat).
  { unfold tags'. rewrite length_app, repeat_length. lia. }
  (* what is left once the list handed to [append_tags] is known *)
  assert (Hgoal : forall l,
            List.length l = List.length paths ->
            exists r' tuples,
              (tuples <- append_tags 0 tags' l ;;
               d <- Data.celldata_setter tuples (data r) ;; Ok (with_data r d)) = Ok r'
              /\ Data._celldata (data r') = Some tuples
              /\ List.length tuples = List.length paths
              /\ map ct_tag tuples = firstn (List.length paths) tags').
  { intros l Hl.
    destruct (@append_tags_run tags' l 0) as (res & E & Hres & Ht); [simpl; lia|].
    rewrite E. simpl bind.
    destruct (celldata_setter_ok res (data r)) as (d' & Hd' & Hcd).
    rewrite Hd'. simpl bind.
    exists (with_data r d'), res. split; [reflexivity|].
    split; [exact Hcd|]. split; [lia|]. rewrite Ht, Hl. reflexivity. }
  destruct (count_FIELD dsats =? 0)%nat eqn:Hzero.
  - apply Hgoal. rewrite length_map. exact Hsorted1.
  - assert (Hsplit : sorted1 = filter (fun t => negb (is_FIELD t)) sorted1
                               ++ filter is_FIELD sorted1).
    { apply sorted_FIELD_suffix.
      apply (sort_key_sorted Nat.leb order_of nat_leb_total nat_leb_trans). }
    assert (HF : filter is_FIELD sorted1 = filter is_FIELD input).
    { apply sort_key_filter. intros x y Hx Hy.
      apply order_of_FIELD in Hx, Hy. rewrite Hx, Hy. reflexivity. }
    assert (Hcf : count_FIELD dsats = List.length (filter is_FIELD sorted1)).
    { rewrite HF, <- Zk. apply count_FIELD_filter. }
    set (nonfield := filter (fun t => negb (is_FIELD t)) sorted1) in *.
    set (fields1 := filter is_FIELD sorted1) in *.
    assert (Hlf : List.length (sort_key String.leb tup_1 fields1)
                  = List.length fields1).
    { apply Permutation_length. apply sort_key_perm. }
    pose proof (firstn_skipn_suffix nonfield fields1) as Hcut.
    rewrite <- Hsplit, <- Hcf in Hcut.
    destruct Hcut as [Hfirst Hskip].
    rewrite Hskip, Hfirst.
    rewrite (sort_by_key_total String.leb tup_1) by reflexivity.
    simpl bind.
    assert (Hcnf : (List.length sorted1 - count_FIELD dsats)%nat = List.length nonfield).
    { rewrite Hcf. rewrite Hsplit at 1. rewrite length_app. lia. }
    rewrite Hcnf.
    rewrite (@append_fieldArrays_nonfield specs _ nonfield 0) by lia.
    pose proof (@append_fieldArrays_fields specs (List.length nonfield)
                  (sort_key String.leb tup_1 fields1) 0) as Hfields.
    rewrite !Nat.add_0_r in Hfields. rewrite Hfields by lia.
    simpl bind. apply Hgoal.
    rewrite length_app, length_map, length_combine, length_map, length_firstn.
    simpl skipn. rewrite Hlf.
    assert (Hls : List.length sorted1
                  = (List.length nonfield + List.length fields1)%nat).
    { rewrite Hsplit at 1. apply length_app. }
    lia.
Qed.

(** The setter fails in two ways only: with [Hdf2Mic_InitArgError], raised by
    the checks of the six lists, or with the exception that reading the
    datasets raised.  Once the lists are accepted and the datasets are read
    it stores as many tuples as there are paths: the keys of the two sorts
    exist, and the indexes into the field specs and into the padded tags are
    in range. *)
Theorem groups_celldata_failures (f : h5file ndarray) (values : list (list string))
    (r : Reader.t) :
  (exists msg,
      groups_celldata_setter celldata_values f values r
      = Raise (Hdf2Mic_InitArgError msg))
  \/ exists paths names types dsats fieldArrays tags,
       values = [paths; names; types; dsats; fieldArrays; tags]
       /\ match read_celldata_arrays celldata_values f r 0 paths names types with
          | Raise e => groups_celldata_setter celldata_values f values r = Raise e
          | Ok arrays =>
              exists r' tuples,
                groups_celldata_setter celldata_values f values r = Ok r'
                /\ Data._celldata (data r') = Some tuples
                /\ List.length tuples = List.length paths
          end.
Proof.
  destruct (groups_celldata_outcome f values r) as [H | H]; [left; exact H|].
  destruct H as (paths & names & types & dsats & fieldArrays & tags & Hv & _ & H).
  right. exists paths, names, types, dsats, fieldArrays, tags.
  split; [exact Hv|].
  destruct (read_celldata_arrays celldata_values f r 0 paths names types);
    [|exact H].
  destruct H as (r' & tuples & E & Hcd & Hl & _).
  exists r', tuples. auto.
Qed.

(** The tags go by position in the stored order: whenever the setter accepts
    the six lists, the i-th stored tuple, that is the i-th attribute after
    the two sorts, carries the i-th tag of the sixth list, or the empty tag
    when the list is shorter, whichever attribute was declared i-th. *)
Theorem tags_go_by_position (f : h5file ndarray) (values : list (list string))
    (r r' : Reader.t)
    (Hok : groups_celldata_setter celldata_values f values r = Ok r') :
  exists paths names types dsats fieldArrays tags tuples,
    values = [paths; names; types; dsats; fieldArrays; tags]
    /\ Data._celldata (data r') = Some tuples
    /\ List.length tuples = List.length paths
    /\ forall i c, nth_error tuples i = Some c -> ct_tag c = nth i tags "".
Proof.
  destruct (groups_celldata_outcome f values r) as [[msg H] | H];
    [rewrite H in Hok; discriminate|].
  destruct H as (paths & names & types & dsats & fieldArrays & tags & Hv & _ & H).
  destruct (read_celldata_arrays celldata_values f r 0 paths names types);
    [|rewrite H in Hok; discriminate].
  destruct H as (r'' & tuples & E & Hcd & Hl & Ht).
  rewrite E in Hok. injection Hok as <-.
  exists paths, names, types, dsats, fieldArrays, tags, tuples.
  split; [exact Hv|]. split; [exact Hcd|]. split; [exact Hl|].
  intros i c Hi.
  assert (Hlt : (i < List.length paths)%nat).
  { rewrite <- Hl. apply nth_error_Some. congruence. }
  assert (Hc : nth_error (map ct_tag tuples) i = Some (ct_tag c))
    by (rewrite nth_error_map, Hi; reflexivity).
  rewrite Ht, nth_error_firstn in Hc.
  apply Nat.ltb_lt in Hlt. rewrite Hlt in Hc.
  apply (nth_error_nth _ _ "") in Hc. rewrite <- Hc.
  destruct (Nat.lt_ge_cases i (List.length tags)) as [Hin | Hout].
  - rewrite app_nth1 by exact Hin. reflexivity.
  - rewrite app_nth2 by exact Hout. rewrite (nth_overflow tags) by exact Hout.
    apply nth_repeat.
Qed.

(** With more FIELD kinds than field specs the setter raises
    [Hdf2Mic_InitArgError], whatever the file holds. *)
Theorem too_few_field_specs (f : h5file ndarray)
    (paths names types dsats fieldArrays tags : list string) (r : Reader.t)
    (Hfew : (List.length fieldArrays < count_FIELD dsats)%nat) :
  exists msg,
    groups_celldata_setter celldata_values f
      [paths; names; types; dsats; fieldArrays; tags] r
    = Raise (Hdf2Mic_InitArgError msg).
Proof.
  destruct (groups_celldata_outcome f [paths; names; types; dsats; fieldArrays; tags] r)
    as [H | H]; [exact H|].
  destruct H as (paths' & names' & types' & dsats' & fieldArrays' & tags' & Hv & Hc & _).
  injection Hv as <- <- <- <- <- <-. lia.
Qed.

End Outcome.

(** The attribute declared second is stored first and carries the tag that
    was declared first. *)
Lemma tags_go_by_position_witness :
  exists r' tuples,
    groups_celldata_setter values_as_read two_fields two_fields_values
                           two_fields_reader = Ok r'
    /\ Data._celldata (data r') = Some tuples
    /\ forall c, nth_error tuples 0 = Some c ->
                 ct_dataName c = "a" /\ ct_tag c = "<tagB>".
Proof.
  destruct two_fields_stored as (r' & Hok & Hcd).
  destruct (tags_go_by_position _ _ _ _ Hok)
    as (paths & names & types & dsats & fieldArrays & tags & tuples
        & Hv & Hcd' & _ & Htag).
  injection Hv as <- <- <- <- <- <-.
  exists r', tuples. split; [exact Hok|]. split; [exact Hcd'|].
  intros c Hc. split; [|exact (Htag 0%nat c Hc)].
  rewrite Hcd in Hcd'. injection Hcd' as <-.
  injection Hc as <-. reflexivity.
Defined.

Lemma too_few_field_specs_witness :
  exists msg,
    groups_celldata_setter values_as_read two_fields
      [["/b"; "/a"]; ["b"; "a"]; ["float"; "double"]; ["FIELD"; "FIELD"];
       ["x 1"]; []] two_fields_reader
    = Raise (Hdf2Mic_InitArgError msg).
Proof.
  apply too_few_field_specs. vm_compute. lia.
Defined.

End CellDataFacts.

(** ** The order of the cell data as a fixed point (reader.py) *)

Module OrderFacts.

Import H5 Reader SortFacts ClassifierFacts.

(** Sorting a sorted list changes nothing. *)
Lemma sort_key_of_sorted (K A : Type) (leb : K -> K -> bool) (keyf : A -> K)
    (l : list A) :
  StronglySorted (fun x y => leb (keyf x) (keyf y) = true) l ->
  sort_key leb keyf l = l.
Proof.
  induction 1 as [|x l Hl IH Hx]; simpl; [reflexivity|].
  rewrite IH. destruct l as [|y l]; simpl; [reflexivity|].
  inversion Hx as [|? ? Hy _]; subst. rewrite Hy. reflexivity.
Qed.

(** The two sorts, written with the two filters. *)
Lemma two_sorts_filters (input : list tuple4) :
  let sorted1 := sort_key Nat.leb order_of input in
  two_sorts input
  = filter (fun t => negb (is_FIELD t)) sorted1
    ++ sort_key String.leb tup_1 (filter is_FIELD sorted1).
Proof.
  intros sorted1. unfold two_sorts. fold sorted1.
  assert (Hsplit : sorted1 = filter (fun t => negb (is_FIELD t)) sorted1
                             ++ filter is_FIELD sorted1).
  { apply sorted_FIELD_suffix.
    apply (sort_key_sorted Nat.leb order_of nat_leb_total nat_leb_trans). }
  assert (HF : filter is_FIELD sorted1 = filter is_FIELD input).
  { apply sort_key_filter. intros x y Hx Hy.
    apply order_of_FIELD in Hx, Hy. rewrite Hx, Hy. reflexivity. }
  rewrite <- HF.
  set (nonfield := filter (fun t => negb (is_FIELD t)) sorted1) in *.
  set (fields1 := filter is_FIELD sorted1) in *.
  destruct (List.length fields1 =? 0)%nat eqn:Hzero.
  - apply Nat.eqb_eq, length_zero_iff_nil in Hzero.
    rewrite Hzero in *. simpl. exact Hsplit.
  - pose proof (firstn_skipn_suffix nonfield fields1) as Hcut.
    rewrite <- Hsplit in Hcut. destruct Hcut as [-> ->]. reflexivity.
Qed.

Lemma two_sorts_again (input : list tuple4) :
  two_sorts (two_sorts input) = two_sorts input.
Proof.
  pose proof (two_sorts_ordered input) as Hcl. cbv zeta in Hcl.
  rewrite <- two_sorts_filters in Hcl.
  destruct Hcl as (_ & Hkind & _ & nonfield & fields & Hout & Hn & Hf & Hnames & _).
  set (out := two_sorts input) in *.
  rewrite (two_sorts_filters out). cbv zeta.
  assert (Hsorted : sort_key Nat.leb order_of out = out).
  { apply sort_key_of_sorted.
    clear - Hkind. induction Hkind as [|x l Hl IH Hx]; constructor; auto.
    apply Forall_impl with (2 := Hx). intros z Hz. apply Nat.leb_le. exact Hz. }
  rewrite Hsorted, Hout, !filter_app.
  rewrite (@filter_none _ (fun t => negb (is_FIELD t)) fields).
  2:{ apply Forall_impl with (2 := Hf). intros t ->. reflexivity. }
  rewrite (@filter_none _ is_FIELD nonfield) by exact Hn.
  rewrite app_nil_r, app_nil_l.
  replace (filter (fun t => negb (is_FIELD t)) nonfield) with nonfield.
  2:{ symmetry. clear - Hn. induction Hn as [|x l Hx Hl IH]; simpl; [reflexivity|].
      rewrite Hx. simpl. f_equal. exact IH. }
  replace (filter is_FIELD fields) with fields.
  2:{ symmetry. clear - Hf. induction Hf as [|x l Hx Hl IH]; simpl; [reflexivity|].
      rewrite Hx. f_equal. exact IH. }
  rewrite (sort_key_of_sorted String.leb tup_1 Hnames). reflexivity.
Qed.

Section Stored.

Variable celldata_values :
  settings_t -> option Z -> nat -> string -> string -> h5obj ndarray -> result ndarray.

(** Sorting again changes nothing.  The order in which the setter stores the
    attributes is the result of its two sorts on the attributes as declared,
    and it is a fixed point of the two sorts: applied to the stored order
    they return it unchanged. *)
Theorem stored_order_is_a_fixed_point (f : h5file ndarray)
    (values : list (list string)) (r r' : Reader.t)
    (Hok : groups_celldata_setter celldata_values f values r = Ok r') :
  exists paths names types dsats fieldArrays tags arrays tuples,
    values = [paths; names; types; dsats; fieldArrays; tags]
    /\ read_celldata_arrays celldata_values f r 0 paths names types = Ok arrays
    /\ Data._celldata (data r') = Some tuples
    /\ map base tuples = two_sorts (zip4 arrays names types dsats)
    /\ two_sorts (map base tuples) = map base tuples.
Proof.
  destruct (groups_celldata_setter_ok _ _ _ _ Hok)
    as (paths & names & types & dsats & fieldArrays & tags & arrays & specs & tuples
        & Hv & Hread & _ & _ & _ & _ & _ & Hcd & Hbase & _).
  exists paths, names, types, dsats, fieldArrays, tags, arrays, tuples.
  split; [exact Hv|]. split; [exact Hread|]. split; [exact Hcd|].
  rewrite <- two_sorts_filters in Hbase.
  split; [exact Hbase|]. rewrite Hbase. apply two_sorts_again.
Qed.

End Stored.

Lemma stored_order_is_a_fixed_point_witness :
  exists tuples,
    map base tuples
    = two_sorts [(NdArray [1%nat; 1%nat] [1%R], "b", "float", "FIELD");
                 (NdArray [1%nat; 1%nat] [2%R], "a", "double", "FIELD")]
    /\ two_sorts (map base tuples) = map base tuples.
Proof.
  destruct two_fields_stored as (r' & Hok & _).
  destruct (stored_order_is_a_fixed_point _ _ _ _ Hok)
    as (paths & names & types & dsats & fieldArrays & tags & arrays & tuples
        & Hv & Hread & _ & Hbase & Hfix).
  injection Hv as <- <- <- <- <- <-.
  injection Hread as <-.
  exists tuples. split; [exact Hbase | exact Hfix].
Defined.

End OrderFacts.

(** ** The field specs ['arrName numComp'] (reader.py, lines 339-356) *)

Module FieldSpecFacts.

Import Str SpecTextFacts.

Local Open Scope string_scope.

(** The strings ['([^\s]+)(\s+)(\d+)'] matches, and the spec each one
    stands for: a name without white space, white space, and digits, all
    three not empty, followed by anything that does not go on with a digit.
    The name and the number read from the digits are the spec; what follows
    the digits is ignored. *)
Theorem field_spec_grammar (el name : string) (numComponents : Z) :
  match_fieldArray el = Some (name, numComponents)
  <-> exists ws digits rest,
        el = name ++ ws ++ digits ++ rest
        /\ name <> "" /\ all_chars (fun c => negb (is_space c)) name = true
        /\ ws <> "" /\ all_chars is_space ws = true
        /\ digits <> "" /\ all_chars is_digit digits = true
        /\ stops is_digit rest = true
        /\ numComponents = int_of_digits digits.
Proof.
  unfold match_fieldArray. split.
  - destruct (span (fun c => negb (is_space c)) el) as [n rest1] eqn:E1.
    destruct (span is_space rest1) as [ws rest2] eqn:E2.
    destruct (span is_digit rest2) as [digits rest] eqn:E3.
    destruct (String.length n =? 0)%nat eqn:Ln; simpl; [discriminate|].
    destruct (String.length ws =? 0)%nat eqn:Lw; simpl; [discriminate|].
    destruct (String.length digits =? 0)%nat eqn:Ld; simpl; [discriminate|].
    intros [= <- <-].
    destruct (span_inv _ _ E1) as (-> & Hn & _).
    destruct (span_inv _ _ E2) as (-> & Hw & _).
    destruct (span_inv _ _ E3) as (-> & Hd & Hr).
    exists ws, digits, rest. repeat split; try assumption.
    + intros ->. discriminate.
    + intros ->. discriminate.
    + intros ->. discriminate.
  - intros (ws & digits & rest & -> & Hn0 & Hn & Hw0 & Hw & Hd0 & Hd & Hr & ->).
    assert (Hstop1 : stops (fun c => negb (is_space c)) (ws ++ digits ++ rest) = true).
    { destruct ws as [|c ws]; [congruence|]. simpl in *.
      apply andb_true_iff in Hw. destruct Hw as [Hc _]. rewrite Hc. reflexivity. }
    assert (Hstop2 : stops is_space (digits ++ rest) = true).
    { destruct digits as [|c digits]; [congruence|]. simpl in *.
      apply andb_true_iff in Hd. destruct Hd as [Hc _].
      rewrite (digit_is_no_space _ Hc). reflexivity. }
    rewrite (span_app _ _ _ Hn Hstop1), (span_app _ _ _ Hw Hstop2),
            (span_app _ _ _ Hd Hr).
    destruct name; [congruence|]. destruct ws; [congruence|].
    destruct digits; [congruence|]. reflexivity.
Qed.

Lemma field_spec_grammar_witness :
  match_fieldArray "orientation 3.5" = Some ("orientation", 3%Z).
Proof.
  apply (proj2 (field_spec_grammar "orientation 3.5" "orientation" 3)).
  exists " ", "3", ".5". repeat split; discriminate.
Defined.

End FieldSpecFacts.

(** ** The arrays of the structured-grid file (writer_vtk.py) *)

Module VtkFacts.

(** *** Rows of a fixed width *)

Lemma firstn_plus (A : Type) (k m : nat) (l : list A) :
  firstn (k + m) l = firstn k l ++ firstn m (skipn k l).
Proof.
  revert l. induction k as [|k IH]; intros l; simpl; [reflexivity|].
  destruct l as [|x l]; simpl.
  - rewrite firstn_nil. reflexivity.
  - rewrite IH. reflexivity.
Qed.

Lemma blocks_length (A : Type) (n k : nat) (l : list A) :
  List.length (Np.blocks n k l) = n.
Proof.
  revert l. induction n as [|n IH]; intros l; simpl; [reflexivity|].
  rewrite IH. reflexivity.
Qed.

Lemma blocks_concat (A : Type) (n k : nat) (l : list A) :
  List.concat (Np.blocks n k l) = firstn (n * k) l.
Proof.
  revert l. induction n as [|n IH]; intros l; simpl; [reflexivity|].
  rewrite IH, firstn_plus. reflexivity.
Qed.

Lemma blocks_width (A : Type) (n k : nat) (l : list A) :
  (n * k <= List.length l)%nat ->
  Forall (fun row => List.length row = k) (Np.blocks n k l).
Proof.
  revert l. induction n as [|n IH]; intros l Hl; simpl; constructor.
  - rewrite length_firstn. simpl in Hl. lia.
  - apply IH. rewrite length_skipn. simpl in Hl. lia.
Qed.

(** *** The FIELD entries at the end *)

Lemma filter_length_all (A : Type) (p : A -> bool) (l : list A) :
  List.length (filter p l) = List.length l -> Forall (fun x => p x = true) l.
Proof.
  induction l as [|x l IH]; simpl; [constructor|].
  pose proof (filter_length_le p l) as Hle.
  destruct (p x) eqn:E; simpl; intros H; [|lia].
  constructor; [exact E | apply IH; lia].
Qed.

Lemma filter_all (A : Type) (p : A -> bool) (l : list A) :
  Forall (fun x => p x = true) l -> filter p l = l.
Proof.
  induction 1 as [|x l Hx Hl IH]; simpl; [reflexivity|].
  rewrite Hx, IH. reflexivity.
Qed.

Lemma filter_nothing (A : Type) (p : A -> bool) (l : list A) :
  Forall (fun x => p x = false) l -> filter p l = [].
Proof.
  induction 1 as [|x l Hx Hl IH]; simpl; [reflexivity|].
  rewrite Hx. exact IH.
Qed.

Lemma count_non_field_split (nonfield fields : list celltuple) :
  Forall (fun c => (ct_datasetAttributeType c =? "FIELD") = false) nonfield ->
  Forall (fun c => (ct_datasetAttributeType c =? "FIELD") = true) fields ->
  count_non_field_tuples (nonfield ++ fields) = List.length nonfield.
Proof.
  intros Hn Hf. unfold count_non_field_tuples.
  rewrite filter_app, length_app.
  rewrite (@filter_all _ _ nonfield), (@filter_nothing _ _ fields).
  - simpl. lia.
  - apply Forall_impl with (2 := Hf). intros c ->. reflexivity.
  - apply Forall_impl with (2 := Hn). intros c ->. reflexivity.
Qed.

Lemma FIELDs_last_passes (celldata : list celltuple) :
  FIELDs_last celldata -> FIELD_checks celldata = None.
Proof.
  intros (nonfield & fields & -> & Hn & Hf).
  assert (Hn' : Forall (fun c => (ct_datasetAttributeType c =? "FIELD") = false) nonfield)
    by (apply Forall_impl with (2 := Hn); tauto).
  assert (Hf' : Forall (fun c => (ct_datasetAttributeType c =? "FIELD") = true) fields)
    by (apply Forall_impl with (2 := Hf); tauto).
  unfold FIELD_checks. rewrite (count_non_field_split Hn' Hf').
  destruct (List.length nonfield <? List.length (nonfield ++ fields))%nat eqn:Hg;
    [|reflexivity].
  rewrite nth_error_app2, Nat.sub_diag by lia.
  rewrite skipn_app, Nat.sub_diag, skipn_all. simpl skipn. rewrite app_nil_l.
  destruct fields as [|x fields].
  - rewrite app_nil_r in Hg. apply Nat.ltb_lt in Hg. lia.
  - simpl nth_error. inversion Hf' as [|? ? Hx _]; subst. rewrite Hx. simpl negb.
    cbv iota.
    assert (Hall : forallb len_is_7 (x :: fields) = true).
    { apply forallb_forall. intros c Hc. rewrite Forall_forall in Hf.
      destruct (Hf c Hc) as [_ H]. unfold len_is_7.
      destruct (ct_fieldArray c); [reflexivity | congruence]. }
    simpl in Hall. rewrite Hall. reflexivity.
Qed.

(** The two tests of the writer accept exactly the cell data that have their
    FIELD entries at the end.  For tuples of which the FIELD ones, and only
    they, have length 7: the writer raises none of its two [TypeError]s if
    and only if the list is a run of entries that are no FIELD followed by a
    run of FIELD entries. *)
Theorem FIELD_checks_accept_FIELDs_last (celldata : list celltuple)
    (Hlengths : Forall (fun c => len_is_7 c = (ct_datasetAttributeType c =? "FIELD"))
                       celldata) :
  FIELD_checks celldata = None <-> FIELDs_last celldata.
Proof.
  split; [|apply FIELDs_last_passes].
  unfold FIELD_checks.
  set (c := count_non_field_tuples celldata).
  assert (Hc : (c <= List.length celldata)%nat) by apply filter_length_le.
  assert (Hnone : forall l,
            Forall (fun c => len_is_7 c = (ct_datasetAttributeType c =? "FIELD")) l ->
            Forall (fun c => negb (ct_datasetAttributeType c =? "FIELD") = true) l ->
            Forall (fun c => (ct_datasetAttributeType c =? "FIELD") = false
                             /\ ct_fieldArray c = None) l).
  { intros l Hl Hn. rewrite Forall_forall in *. intros x Hx.
    specialize (Hl x Hx). specialize (Hn x Hx).
    apply negb_true_iff in Hn. rewrite Hn in Hl. split; [exact Hn|].
    unfold len_is_7 in Hl. destruct (ct_fieldArray x); [discriminate | reflexivity]. }
  destruct (c <? List.length celldata)%nat eqn:Hg.
  - destruct (nth_error celldata c) as [tup|]; [|discriminate].
    destruct (ct_datasetAttributeType tup =? "FIELD"); simpl; [|discriminate].
    destruct (forallb len_is_7 (skipn c celldata)) eqn:Hall; simpl; [|discriminate].
    intros _.
    rewrite forallb_forall in Hall.
    pose proof (firstn_skipn c celldata) as Hsplit.
    assert (Hl1 : Forall (fun c => len_is_7 c = (ct_datasetAttributeType c =? "FIELD"))
                         (firstn c celldata)).
    { rewrite <- Hsplit in Hlengths. apply Forall_app in Hlengths. tauto. }
    assert (Hl2 : Forall (fun c => len_is_7 c = (ct_datasetAttributeType c =? "FIELD"))
                         (skipn c celldata)).
    { rewrite <- Hsplit in Hlengths. apply Forall_app in Hlengths. tauto. }
    assert (Hf : Forall (fun c => (ct_datasetAttributeType c =? "FIELD") = true
                                  /\ ct_fieldArray c <> None) (skipn c celldata)).
    { rewrite Forall_forall in *. intros x Hx.
      specialize (Hall x Hx). rewrite <- (Hl2 x Hx). split; [exact Hall|].
      unfold len_is_7 in Hall. destruct (ct_fieldArray x); [discriminate | discriminate]. }
    exists (firstn c celldata), (skipn c celldata).
    split; [symmetry; exact Hsplit|]. split; [|exact Hf].
    apply Hnone; [exact Hl1|]. apply filter_length_all.
    assert (E : c = Nat.add
                      (List.length (filter (fun tup => negb (ct_datasetAttributeType tup =? "FIELD"))
                                           (firstn c celldata)))
                      (List.length (filter (fun tup => negb (ct_datasetAttributeType tup =? "FIELD"))
                                           (skipn c celldata)))).
    { rewrite <- length_app, <- filter_app, Hsplit. reflexivity. }
    rewrite (@filter_nothing _ _ (skipn c celldata)) in E.
    + rewrite length_firstn. simpl in E. lia.
    + apply Forall_impl with (2 := Hf). intros x [-> _]. reflexivity.
  - intros _. apply Nat.ltb_ge in Hg.
    exists celldata, []. rewrite app_nil_r. split; [reflexivity|].
    split; [|constructor].
    apply Hnone; [exact Hlengths|]. apply filter_length_all. fold (count_non_field_tuples celldata).
    fold c. lia.
Qed.

Lemma FIELD_checks_accept_FIELDs_last_witness :
  FIELD_checks [CellTuple (NdArray [1%nat; 1%nat] [2%R]) "a" "double" "FIELD"
                          (Some ("x", 1%Z)) "";
                CellTuple (NdArray [1%nat; 1%nat] [1%R]) "ids" "int" "SCALARS" None ""]
  <> None.
Proof.
  intros H.
  apply FIELD_checks_accept_FIELDs_last in H;
    [|repeat constructor].
  destruct H as (nonfield & fields & Hsplit & Hn & Hf).
  destruct nonfield as [|x nonfield].
  - simpl in Hsplit. subst fields.
    inversion Hf as [|? ? _ Hf']; subst. inversion Hf' as [|? ? [Hx _] _]; subst.
    discriminate.
  - injection Hsplit as <- _. inversion Hn as [|? ? [Hx _] _]; subst. discriminate.
Defined.

(** *** What the reader hands to the writer *)

Section ReaderOutput.

Import H5 Reader SortFacts ClassifierFacts.

Variable celldata_values :
  settings_t -> option Z -> nat -> string -> string -> h5obj ndarray -> result ndarray.

(** The classification meets the assumptions of the writer: whatever the
    [groups_celldata] setter stores has its FIELD entries, of length 7, at
    the end, after the entries of length 5 that are no FIELD, and every kind
    is one of the five known ones; so neither of the two [TypeError]s of the
    writer is raised on it. *)
Theorem stored_cell_data_pass_the_checks (f : h5file ndarray)
    (values : list (list string)) (r r' : Reader.t)
    (Hok : groups_celldata_setter celldata_values f values r = Ok r') :
  exists celldata,
    Data._celldata (data r') = Some celldata
    /\ FIELDs_last celldata
    /\ FIELD_checks celldata = None
    /\ Forall (fun c => in_keys (ct_datasetAttributeType c)
                                Data.VTK_DATASET_ATTRIBUTE_TYPE_ORDER = true) celldata.
Proof.
  destruct (groups_celldata_setter_ok _ _ _ _ Hok)
    as (paths & names & types & dsats & fieldArrays & tags & arrays & specs & tuples
        & Hv & Hread & L1 & L2 & L3 & Hspecs & Hcount & Hcd & Hbase & Hfa).
  subst values. pose proof (accepted_kinds _ _ _ _ _ _ _ _ _ Hok) as Hkinds.
  set (input := zip4 arrays names types dsats) in *.
  set (sorted1 := sort_key Nat.leb order_of input) in *.
  set (nonfieldB := filter (fun t => negb (is_FIELD t)) sorted1) in *.
  set (fieldsB := sort_key String.leb tup_1 (filter is_FIELD sorted1)) in *.
  set (n := List.length nonfieldB).
  assert (Hb1 : map base (firstn n tuples) = nonfieldB).
  { rewrite <- firstn_map, Hbase. unfold n.
    rewrite firstn_app, Nat.sub_diag, firstn_all. apply app_nil_r. }
  assert (Hb2 : map base (skipn n tuples) = fieldsB).
  { rewrite <- skipn_map, Hbase. unfold n.
    rewrite skipn_app, Nat.sub_diag, skipn_all. reflexivity. }
  assert (Hf1 : map ct_fieldArray (firstn n tuples) = map (fun _ => None) nonfieldB).
  { rewrite <- firstn_map, Hfa.
    replace n with (List.length (map (fun _ : tuple4 => @None (string * Z)) nonfieldB))
      by (rewrite length_map; reflexivity).
    rewrite firstn_app, Nat.sub_diag, firstn_all. apply app_nil_r. }
  assert (Hf2 : map ct_fieldArray (skipn n tuples)
                = map Some (firstn (List.length fieldsB) specs)).
  { rewrite <- skipn_map, Hfa.
    replace n with (List.length (map (fun _ : tuple4 => @None (string * Z)) nonfieldB))
      by (rewrite length_map; reflexivity).
    rewrite skipn_app, Nat.sub_diag, skipn_all. reflexivity. }
  assert (Hlast : FIELDs_last tuples).
  { exists (firstn n tuples), (skipn n tuples).
    split; [symmetry; apply firstn_skipn|]. split.
    - apply Forall_forall. intros c Hc. split.
      + assert (Hin : In (base c) nonfieldB) by (rewrite <- Hb1; apply in_map; exact Hc).
        apply filter_In in Hin. destruct Hin as [_ Hin].
        apply negb_true_iff in Hin. exact Hin.
      + assert (Hin : In (ct_fieldArray c)
                         (map (fun _ : tuple4 => @None (string * Z)) nonfieldB))
          by (rewrite <- Hf1; apply in_map; exact Hc).
        apply in_map_iff in Hin. destruct Hin as (x & Hx & _). congruence.
    - apply Forall_forall. intros c Hc. split.
      + assert (Hin : In (base c) fieldsB) by (rewrite <- Hb2; apply in_map; exact Hc).
        apply (Permutation_in _ (sort_key_perm String.leb tup_1 _)) in Hin.
        apply filter_In in Hin. destruct Hin as [_ Hin]. exact Hin.
      + assert (Hin : In (ct_fieldArray c) (map Some (firstn (List.length fieldsB) specs)))
          by (rewrite <- Hf2; apply in_map; exact Hc).
        apply in_map_iff in Hin. destruct Hin as (x & Hx & _). congruence. }
  exists tuples. split; [exact Hcd|]. split; [exact Hlast|].
  split; [apply FIELDs_last_passes; exact Hlast|].
  apply Forall_forall. intros c Hc.
  assert (Hin : In (base c) (nonfieldB ++ fieldsB))
    by (rewrite <- Hbase; apply in_map; exact Hc).
  apply (Permutation_in _ (proj1 (two_sorts_ordered input))) in Hin.
  destruct (@zip4_kinds arrays names types dsats) as (Zk & _); try lia.
  fold input in Zk.
  rewrite forallb_forall in Hkinds.
  apply (Hkinds (ct_datasetAttributeType c)).
  rewrite <- Zk. change (ct_datasetAttributeType c) with (tup_3 (base c)).
  apply in_map. exact Hin.
Qed.

End ReaderOutput.

Lemma stored_cell_data_pass_the_checks_witness :
  exists celldata,
    FIELDs_last celldata /\ FIELD_checks celldata = None
    /\ List.length celldata = 8%nat.
Proof.
  destruct ClassifierFacts.eight_arrays_stored as (r' & Hok & Hcd).
  destruct (stored_cell_data_pass_the_checks _ _ _ _ Hok)
    as (celldata & Hcd' & Hlast & Hchecks & _).
  exists celldata. split; [exact Hlast|]. split; [exact Hchecks|].
  rewrite Hcd in Hcd'. injection Hcd' as <-. reflexivity.
Defined.

(** *** Texts without braces *)

Lemma contains_char_cons (a x : ascii) (s : string) :
  Str.contains (String a "") (String x s)
  = if ascii_dec a x then true else Str.contains (String a "") s.
Proof.
  cbn [Str.contains String.prefix].
  destruct (ascii_dec a x); [destruct s; reflexivity | reflexivity].
Qed.

Lemma brace_free_cons (x : ascii) (s : string) :
  brace_free (String x s) = true
  <-> x <> "{"%char /\ x <> "}"%char /\ brace_free s = true.
Proof.
  unfold brace_free. rewrite !contains_char_cons, !andb_true_iff, !negb_true_iff.
  destruct (ascii_dec "{" x) as [E1 | E1]; destruct (ascii_dec "}" x) as [E2 | E2];
    split; intros H; try (destruct H; discriminate).
  - destruct H as (H1 & _). congruence.
  - destruct H as (H1 & _). congruence.
  - destruct H as (_ & H2 & _). congruence.
  - repeat split; try congruence; tauto.
  - tauto.
Qed.

Lemma brace_free_app (a b : string) :
  brace_free a = true -> brace_free b = true -> brace_free (a ++ b) = true.
Proof.
  intros Ha Hb. induction a as [|x a IH]; simpl; [exact Hb|].
  apply brace_free_cons in Ha. destruct Ha as (H1 & H2 & Ha).
  apply brace_free_cons. auto.
Qed.

Lemma brace_free_uint (d : Decimal.uint) :
  brace_free (NilEmpty.string_of_uint d) = true.
Proof.
  induction d; simpl; try reflexivity;
    apply brace_free_cons; (repeat split; [discriminate | discriminate | assumption]).
Qed.

Lemma brace_free_str_int (z : Z) : brace_free (Str.str_int z) = true.
Proof.
  unfold Str.str_int, NilZero.string_of_int.
  destruct (Z.to_int z) as [d | d];
    [|apply brace_free_cons; repeat split; try discriminate];
    unfold NilZero.string_of_uint; destruct d; try reflexivity;
    apply (brace_free_uint (_ d)).
Qed.

Lemma brace_free_header (dataName : string) (numArrays : nat) :
  brace_free dataName = true ->
  brace_free ("FIELD " ++ dataName ++ " " ++ Str.str_int (Z.of_nat numArrays)) = true.
Proof.
  intros H. apply (@brace_free_app "FIELD "); [reflexivity|].
  apply brace_free_app; [exact H|].
  apply (@brace_free_app " "); [reflexivity | apply brace_free_str_int].
Qed.

Lemma format_header_field_fixed (header_field dataName : string) (numArrays : nat) :
  brace_free header_field = true ->
  format_header_field header_field dataName numArrays = Some header_field.
Proof.
  intros H. unfold format_header_field.
  destruct (header_field =? FIELD_TEMPLATE_0) eqn:E.
  - apply String.eqb_eq in E. subst. discriminate.
  - rewrite H. reflexivity.
Qed.

(** *** The lines of an array *)

Section Arrays.

Variable str_float : R -> string.
Variable format_f : nat -> R -> string.
Variable percent : string -> R -> string.

(** Every value of an array is written once, in the order of the array, in
    lines of [columns] values: for a positive number of columns the rows of
    [bulk] followed by [tail] are the elements of the array, every row has
    [columns] elements and [tail] has fewer; the writer does not stop, and
    the text is the header line, one line per row and, only when values are
    left, one last line. *)
Theorem array_is_wrapped (settings : VtkWriterSettings) (header dataType : string)
    (array : ndarray)
    (Hcolumns : (0 < columns settings)%Z) (Harray : well_formed array) :
  let bulk := fst (bulk_and_tail (columns settings) array) in
  let tail := snd (bulk_and_tail (columns settings) array) in
  let fmt := if Reader.in_keys dataType Data.VTK_TYPE_MAP_VTK_TO_NUMPY_int
             then "%u" else "%f" in
  List.concat bulk ++ tail = flat array
  /\ Forall (fun row => Z.of_nat (List.length row) = columns settings) bulk
  /\ (Z.of_nat (List.length tail) < columns settings)%Z
  /\ _write_array percent settings header dataType array
     = Run (savetxt_header header ++ savetxt_rows percent fmt bulk
            ++ match tail with
               | [] => ""
               | _ => savetxt_tail percent fmt tail ++ newline
               end)%string
           None.
Proof.
  intros bulk tail fmt.
  unfold well_formed in Harray.
  set (n := Np.prod (shape array)) in *.
  set (c := Z.to_nat (columns settings)).
  assert (Hc : columns settings = Z.of_nat c) by (unfold c; lia).
  assert (Hc0 : (0 < c)%nat) by lia.
  assert (Hdiv : Z.to_nat (Z.of_nat n / columns settings) = (n / c)%nat).
  { rewrite Hc, <- Nat2Z.inj_div. apply Nat2Z.id. }
  assert (Hmod : (Z.of_nat n mod columns settings)%Z = Z.of_nat (n mod c)).
  { rewrite Hc, <- Nat2Z.inj_mod. reflexivity. }
  pose proof (Nat.div_mod_eq n c) as Hn.
  pose proof (Nat.mod_upper_bound n c ltac:(lia)) as Hr.
  assert (Hdq : Z.to_nat (Z.of_nat n - Z.of_nat n mod columns settings)
                = (n / c * c)%nat).
  { rewrite Hmod. lia. }
  assert (Hbulk : bulk = Np.blocks (n / c) c (firstn (n / c * c) (flat array))).
  { unfold bulk, bulk_and_tail. cbn [fst]. fold n. rewrite Hdiv, Hdq.
    fold c. reflexivity. }
  assert (Htail : tail = skipn (n / c * c) (flat array)).
  { unfold tail, bulk_and_tail. cbn [snd]. fold n. rewrite Hdq. reflexivity. }
  assert (Hlt : List.length tail = (n mod c)%nat).
  { rewrite Htail, length_skipn, Harray. lia. }
  split; [|split; [|split]].
  - rewrite Hbulk, Htail, blocks_concat, firstn_firstn, Nat.min_id.
    apply firstn_skipn.
  - rewrite Hbulk, Hc.
    apply Forall_impl with (P := fun row : list R => List.length row = c).
    + intros row ->. reflexivity.
    + apply blocks_width. rewrite length_firstn, Harray. lia.
  - rewrite Hlt, Hc. lia.
  - unfold _write_array.
    assert (E0 : (columns settings =? 0)%Z = false) by (apply Z.eqb_neq; lia).
    assert (E1 : (columns settings <? 0)%Z = false) by (apply Z.ltb_ge; lia).
    rewrite E0, E1.
    rewrite (surjective_pairing (bulk_and_tail (columns settings) array)).
    fold bulk tail fmt n. rewrite Hmod.
    destruct tail as [|x tail'].
    + simpl in Hlt.
      assert (E2 : (0 <? Z.of_nat (n mod c))%Z = false) by (apply Z.ltb_ge; lia).
      rewrite E2. reflexivity.
    + simpl in Hlt.
      assert (E2 : (0 <? Z.of_nat (n mod c))%Z = true) by (apply Z.ltb_lt; lia).
      rewrite E2. reflexivity.
Qed.


(** *** The header of the FIELD groups *)

Lemma groups_with_fixed_header (settings : VtkWriterSettings) (header_field : string)
    (field_dataNames : list string) (fields : list celltuple) :
  brace_free header_field = true ->
  write_FIELD_groups percent settings header_field field_dataNames fields
  = groups_with_header percent settings header_field field_dataNames fields.
Proof.
  intros H. induction field_dataNames as [|dataName names IH]; simpl; [reflexivity|].
  rewrite (@format_header_field_fixed _ _ _ H), IH. reflexivity.
Qed.

(** Every FIELD group is written under the header of the first one.  The
    loop formats the template once and keeps the result in [header_field];
    formatting that text again, for the next group, changes nothing.  So for
    a first name without braces the header line of every group names the
    first group and the number of its arrays. *)
Theorem FIELD_groups_repeat_the_first_header (settings : VtkWriterSettings)
    (dataName : string) (field_dataNames : list string) (fields : list celltuple)
    (Hname : brace_free dataName = true) :
  let numArrays :=
    List.length (filter (fun el => ct_dataName el =? dataName) fields) in
  write_FIELD_groups percent settings FIELD_TEMPLATE_0 (dataName :: field_dataNames)
                     fields
  = groups_with_header percent settings
      ("FIELD " ++ dataName ++ " " ++ Str.str_int (Z.of_nat numArrays))
      (dataName :: field_dataNames) fields.
Proof.
  intros numArrays. cbn [write_FIELD_groups groups_with_header].
  fold numArrays. unfold format_header_field at 1. cbn [String.eqb Ascii.eqb].
  rewrite String.eqb_refl.
  rewrite groups_with_fixed_header by (apply brace_free_header; exact Hname).
  reflexivity.
Qed.


(** *** When the writer stops *)

Lemma stopped_and_then (a b : run) :
  stopped (and_then a b)
  = match stopped a with
    | Some e => Some e
    | None => stopped b
    end.
Proof. unfold and_then. destruct (stopped a) eqn:E; [exact E | reflexivity]. Qed.

Lemma write_array_runs (settings : VtkWriterSettings) (header dataType : string)
    (array : ndarray) :
  (0 < columns settings)%Z ->
  stopped (_write_array percent settings header dataType array) = None.
Proof.
  intros H. unfold _write_array.
  assert (E0 : (columns settings =? 0)%Z = false) by (apply Z.eqb_neq; lia).
  assert (E1 : (columns settings <? 0)%Z = false) by (apply Z.ltb_ge; lia).
  rewrite E0, E1. destruct (bulk_and_tail (columns settings) array). reflexivity.
Qed.

Lemma known_template (kind : string) :
  Reader.in_keys kind Data.VTK_DATASET_ATTRIBUTE_TYPE_ORDER = true ->
  (kind =? "FIELD") = false ->
  exists template, Data.lookup kind DATASET_ATTRIBUTE_TEMPLATES = Some template.
Proof.
  unfold Reader.in_keys. cbn [Data.lookup Data.VTK_DATASET_ATTRIBUTE_TYPE_ORDER
                                DATASET_ATTRIBUTE_TEMPLATES].
  intros H HF. rewrite HF in H.
  destruct (kind =? "SCALARS"); [eexists; reflexivity|].
  destruct (kind =? "VECTORS"); [eexists; reflexivity|].
  destruct (kind =? "NORMALS"); [eexists; reflexivity|].
  destruct (kind =? "TENSORS"); [eexists; reflexivity | discriminate].
Qed.

Lemma non_FIELD_runs (settings : VtkWriterSettings) (celldata : list celltuple) :
  (0 < columns settings)%Z ->
  Forall (fun c => Reader.in_keys (ct_datasetAttributeType c)
                                  Data.VTK_DATASET_ATTRIBUTE_TYPE_ORDER = true) celldata ->
  stopped (write_non_FIELD percent settings celldata) = None.
Proof.
  intros Hc H. induction H as [|c l Hk Hl IH]; cbn [write_non_FIELD];
    [reflexivity|].
  destruct (ct_datasetAttributeType c =? "FIELD") eqn:E; [reflexivity|].
  destruct (known_template _ Hk E) as (template & ->).
  rewrite stopped_and_then, write_array_runs by exact Hc. exact IH.
Qed.

Lemma FIELD_arrays_outcome (settings : VtkWriterSettings) (tuples : list celltuple) :
  (0 < columns settings)%Z ->
  Forall (fun c => ct_fieldArray c <> None) tuples ->
  stopped (write_FIELD_arrays percent settings tuples)
  = if forallb nonzero_components tuples then None else Some ZeroDivisionError.
Proof.
  intros Hc H. induction H as [|c l Hs Hl IH]; simpl; [reflexivity|].
  unfold nonzero_components at 1.
  destruct (ct_fieldArray c) as [[name n]|]; [|congruence].
  destruct n as [|n|n]; cbn [Z.eqb andb]; [reflexivity| |];
    rewrite stopped_and_then, write_array_runs by exact Hc; exact IH.
Qed.

Lemma FIELD_groups_outcome (settings : VtkWriterSettings) (header_field : string)
    (field_dataNames : list string) (fields : list celltuple) :
  (0 < columns settings)%Z ->
  header_field = FIELD_TEMPLATE_0 \/ brace_free header_field = true ->
  Forall (fun n => brace_free n = true) field_dataNames ->
  Forall (fun c => ct_fieldArray c <> None) fields ->
  stopped (write_FIELD_groups percent settings header_field field_dataNames fields)
  = if forallb (fun n => forallb nonzero_components
                           (filter (fun el => ct_dataName el =? n) fields))
               field_dataNames
    then None else Some ZeroDivisionError.
Proof.
  intros Hc Hh Hn Hf. revert header_field Hh.
  induction Hn as [|n names Hn0 Hn IH]; intros header_field Hh; simpl; [reflexivity|].
  assert (Hfmt : exists h, format_header_field header_field n
                             (List.length (filter (fun el => ct_dataName el =? n) fields))
                           = Some h /\ brace_free h = true).
  { destruct Hh as [-> | Hh].
    - eexists. split; [reflexivity|]. apply brace_free_header. exact Hn0.
    - exists header_field. split; [|exact Hh].
      apply format_header_field_fixed. exact Hh. }
  destruct Hfmt as (h & -> & Hh').
  rewrite !stopped_and_then. cbn [stopped].
  rewrite FIELD_arrays_outcome.
  - destruct (forallb nonzero_components _); [|reflexivity].
    cbn [andb]. apply IH. right. exact Hh'.
  - exact Hc.
  - rewrite Forall_forall in *. intros c Hin. apply filter_In in Hin.
    apply Hf. tauto.
Qed.

Lemma sorted_set_In (l : list string) (n : string) :
  In n (sorted_set l) <-> In n l.
Proof.
  unfold sorted_set. split; intros H.
  - apply (nodup_In string_dec).
    apply (Permutation_in _ (SortFacts.sort_key_perm String.leb (fun s => s) _)).
    exact H.
  - apply (Permutation_in _ (Permutation_sym
              (SortFacts.sort_key_perm String.leb (fun s => s) _))).
    apply (nodup_In string_dec). exact H.
Qed.

Lemma every_FIELD_is_in_a_group (fields : list celltuple) :
  forallb (fun n => forallb nonzero_components (filter (fun el => ct_dataName el =? n) fields))
          (sorted_set (map ct_dataName fields))
  = forallb nonzero_components fields.
Proof.
  apply eq_true_iff_eq. rewrite !forallb_forall. split.
  - intros H c Hc.
    assert (Hn : In (ct_dataName c) (sorted_set (map ct_dataName fields)))
      by (apply sorted_set_In, in_map; exact Hc).
    specialize (H _ Hn). rewrite forallb_forall in H. apply H.
    apply filter_In. split; [exact Hc | apply String.eqb_refl].
  - intros H n _. apply forallb_forall. intros c Hc.
    apply filter_In in Hc. apply H. tauto.
Qed.

(** The writer completes unless a FIELD has no component.  For a positive
    number of columns, a header that can be written, cell data with their
    FIELD entries at the end, kinds that are known and names without braces,
    [VtkWriter.write] writes every array and stops nowhere if no field spec
    has 0 components; if one has, the writer raises [ZeroDivisionError], on
    [size / numComponents], and nothing else. *)
Theorem writer_stops_at_zero_components_only (data : Data.t)
    (settings : VtkWriterSettings) (header : string) (celldata : list celltuple)
    (Hcolumns : (0 < columns settings)%Z)
    (Hheader : VtkWriter_header str_float format_f data settings = Ok header)
    (Hdata : Data._celldata data = Some celldata)
    (Hlast : FIELDs_last celldata)
    (Hkinds : Forall (fun c => Reader.in_keys (ct_datasetAttributeType c)
                                  Data.VTK_DATASET_ATTRIBUTE_TYPE_ORDER = true)
                     celldata)
    (Hnames : Forall (fun c => brace_free (ct_dataName c) = true) celldata) :
  stopped (VtkWriter_write str_float format_f percent data settings)
  = if forallb nonzero_components celldata then None else Some ZeroDivisionError.
Proof.
  unfold VtkWriter_write. rewrite Hheader, Hdata.
  rewrite !stopped_and_then. cbn [stopped].
  rewrite (@non_FIELD_runs _ _ Hcolumns Hkinds).
  unfold write_FIELDs. rewrite (FIELDs_last_passes Hlast).
  destruct Hlast as (nonfield & fields & -> & Hn & Hf).
  assert (Hn' : Forall (fun c => (ct_datasetAttributeType c =? "FIELD") = false) nonfield)
    by (apply Forall_impl with (2 := Hn); tauto).
  assert (Hf' : Forall (fun c => (ct_datasetAttributeType c =? "FIELD") = true) fields)
    by (apply Forall_impl with (2 := Hf); tauto).
  rewrite (count_non_field_split Hn' Hf').
  rewrite skipn_app, Nat.sub_diag, skipn_all. simpl skipn. rewrite app_nil_l.
  assert (Hnz : forallb nonzero_components (nonfield ++ fields) = forallb nonzero_components fields).
  { rewrite forallb_app.
    replace (forallb nonzero_components nonfield) with true; [reflexivity|].
    symmetry. apply forallb_forall. intros c Hc. rewrite Forall_forall in Hn.
    destruct (Hn c Hc) as [_ Hs]. unfold nonzero_components. rewrite Hs. reflexivity. }
  rewrite Hnz.
  destruct (List.length nonfield <? List.length (nonfield ++ fields))%nat eqn:Hg.
  - rewrite FIELD_groups_outcome.
    + rewrite every_FIELD_is_in_a_group. reflexivity.
    + exact Hcolumns.
    + left. reflexivity.
    + apply Forall_forall. intros n Hin. apply (proj1 (sorted_set_In _ _)) in Hin.
      apply in_map_iff in Hin. destruct Hin as (c & <- & Hc).
      rewrite Forall_forall in Hnames. apply Hnames.
      apply in_or_app. right. exact Hc.
    + apply Forall_impl with (2 := Hf). tauto.
  - apply Nat.ltb_ge in Hg. rewrite length_app in Hg.
    destruct fields; [reflexivity | simpl in Hg; lia].
Qed.

End Arrays.

Lemma array_is_wrapped_witness :
  _write_array (fun _ _ => "7") (Build_VtkWriterSettings 3 2)
    "SCALARS ids int" "int" (NdArray [3%nat; 1%nat] [7; 7; 7]%R)
  = Run ("SCALARS ids int" ++ newline ++ "7 7" ++ newline ++ "7 " ++ newline)%string
        None.
Proof.
  exact (proj2 (proj2 (proj2
           (@array_is_wrapped (fun _ _ => "7") (Build_VtkWriterSettings 3 2)
              "SCALARS ids int" "int" (NdArray [3%nat; 1%nat] [7; 7; 7]%R)
              eq_refl eq_refl)))).
Defined.

(** Two FIELD arrays of the names ["a"] and ["b"]: both groups are written
    under ["FIELD a 1"]. *)
Lemma FIELD_groups_repeat_the_first_header_witness :
  text (write_FIELD_groups (fun _ _ => "7") (Build_VtkWriterSettings 3 2)
          FIELD_TEMPLATE_0 ["a"; "b"]
          [CellTuple (NdArray [1%nat; 1%nat] [2%R]) "a" "double" "FIELD"
                     (Some ("x", 1%Z)) "";
           CellTuple (NdArray [1%nat; 1%nat] [1%R]) "b" "float" "FIELD"
                     (Some ("y", 1%Z)) ""])
  = ("FIELD a 1" ++ newline ++ "x 1 1 double" ++ newline ++ "7 " ++ newline
     ++ "FIELD a 1" ++ newline ++ "y 1 1 float" ++ newline ++ "7 " ++ newline)%string.
Proof.
  rewrite FIELD_groups_repeat_the_first_header by reflexivity.
  reflexivity.
Defined.

(** A field spec with 0 components, which the pattern of the reader
    accepts, stops the writer. *)
Lemma writer_stops_at_zero_components_only_witness :
  let data :=
    Data.Make (Some 3%Z) None None None
      (Some [CellTuple (NdArray [1%nat; 1%nat] [1%R]) "ids" "int" "SCALARS" None "";
             CellTuple (NdArray [1%nat; 1%nat] [2%R]) "a" "double" "FIELD"
                       (Some ("x", 0%Z)) ""])
      (Some [2; 2; 2]%Z) (Some 1%Z) (Some (IntArray [0; 0; 0]%Z))
      (Some (IntArray [1; 1; 1]%Z)) None in
  stopped (VtkWriter_write (fun _ => "") (fun _ _ => "") (fun _ _ => "7") data
                           (Build_VtkWriterSettings 3 2))
  = Some ZeroDivisionError.
Proof.
  intros data.
  refine (@writer_stops_at_zero_components_only (fun _ => "") (fun _ _ => "")
            (fun _ _ => "7") data (Build_VtkWriterSettings 3 2) _ _
            eq_refl eq_refl eq_refl _ _ _).
  - exists [CellTuple (NdArray [1%nat; 1%nat] [1%R]) "ids" "int" "SCALARS" None ""],
           [CellTuple (NdArray [1%nat; 1%nat] [2%R]) "a" "double" "FIELD"
                      (Some ("x", 0%Z)) ""].
    split; [reflexivity|]. split.
    + repeat constructor.
    + constructor; [split; [reflexivity | discriminate] | constructor].
  - repeat constructor.
  - repeat constructor.
Defined.

End VtkFacts.

(** ** The grain-property file (writer_txt.py) *)

Module TxtFacts.

Import Data.

Local Open Scope string_scope.

Lemma concat_cons (x : string) (l : list string) :
  String.concat "" (x :: l) = x ++ String.concat "" l.
Proof.
  destruct l as [|y l]; simpl; [|reflexivity].
  induction x as [|c x IH]; simpl; [reflexivity | rewrite <- IH; reflexivity].
Qed.

Lemma string_append_assoc (a b c : string) : (a ++ b) ++ c = a ++ (b ++ c).
Proof. induction a as [|x a IH]; simpl; [reflexivity | rewrite IH; reflexivity]. Qed.

Lemma and_then_runs (a b : string) (s : option stop) :
  and_then (Run a None) (Run b s) = Run (a ++ b) s.
Proof. reflexivity. Qed.

Section Grains.

Variable str_float : R -> string.

Lemma write_columns_in_range (n m : nat) (fl : list R) (kornID : nat) :
  (kornID < n)%nat ->
  forall cnt start, (start + cnt <= m)%nat ->
  write_columns str_float (NdArray [n; m] fl) kornID start cnt
  = Run (String.concat ""
           (map (fun j => str_float (nth (kornID * m + j) fl 0%R) ++ newline)
                (seq start cnt)))
        None.
Proof.
  intros Hk. induction cnt as [|cnt IH]; intros start Hs; [reflexivity|].
  cbn [write_columns seq map]. rewrite concat_cons, IH by lia.
  unfold write_item, item2. cbn [shape flat].
  assert (E1 : (kornID <? n)%nat = true) by (apply Nat.ltb_lt; lia).
  assert (E2 : (start <? m)%nat = true) by (apply Nat.ltb_lt; lia).
  rewrite E1, E2. reflexivity.
Qed.

(** The lines of one grain. *)
Let block (ca cp : nat) (fa fp : list R) (k : nat) : string :=
  "# " ++ Str.str_int (Z.of_nat k + 1) ++ newline
  ++ str_float (nth (k * cp) fp 0%R) ++ newline
  ++ String.concat ""
       (map (fun j => str_float (nth (k * ca + j) fa 0%R) ++ newline) (seq 0 ca)).

Lemma write_grains_in_range (d : Data.t) (n ca cp : nat) (fa fp : list R) :
  _angles d = Some (NdArray [n; ca] fa) ->
  _phases d = Some (NdArray [n; cp] fp) ->
  (0 < cp)%nat ->
  forall cnt start, (start + cnt <= n)%nat ->
  write_grains str_float d start cnt
  = Run (String.concat "" (map (block ca cp fa fp) (seq start cnt))) None.
Proof.
  intros Ha Hp Hcp. induction cnt as [|cnt IH]; intros start Hs; [reflexivity|].
  cbn [write_grains seq map]. rewrite concat_cons, IH by lia.
  unfold write_grain. rewrite Ha, Hp. cbn [shape].
  rewrite write_columns_in_range by lia.
  unfold write_item, item2. cbn [shape flat].
  assert (E1 : (start <? n)%nat = true) by (apply Nat.ltb_lt; lia).
  assert (E2 : (0 <? cp)%nat = true) by (apply Nat.ltb_lt; lia).
  rewrite E1, E2, Nat.add_0_r. cbn [andb].
  rewrite !and_then_runs. unfold block.
  rewrite !string_append_assoc. reflexivity.
Qed.

(** What the data model has accepted can be written.  Once [Data.angles]
    and then [Data.phases] were assigned tables with at least one column
    each, the grain-property writer raises nothing: every index is in range,
    and the file has, for every row of the phases, the line ["# k"] with the
    number of the grain counted from 1, the phase of the grain and its
    angles, one value per line. *)
Theorem grain_file_after_the_setters (d0 d1 d2 : Data.t) (ra ca rp cp : nat)
    (fa fp : list R)
    (Hca : (0 < ca)%nat) (Hcp : (0 < cp)%nat)
    (Hangles : angles_setter (Some (NdArray [ra; ca] fa)) d0 = Ok d1)
    (Hphases : phases_setter (Some (NdArray [rp; cp] fp)) d1 = Ok d2) :
  TxtWriter_write str_float d2
  = Run (String.concat ""
           (map (fun k =>
                   "# " ++ Str.str_int (Z.of_nat k + 1) ++ newline
                   ++ str_float (nth (k * cp) fp 0%R) ++ newline
                   ++ String.concat ""
                        (map (fun j => str_float (nth (k * ca + j) fa 0%R) ++ newline)
                             (seq 0 ca)))
                (seq 0 rp)))
        None.
Proof.
  assert (Ha1 : _angles d1 = Some (NdArray [ra; ca] fa)).
  { unfold angles_setter in Hangles.
    destruct (_compare_angles_phases _); [|discriminate].
    injection Hangles as <-. reflexivity. }
  unfold phases_setter in Hphases.
  set (d := Make _ _ _ _ _ _ _ _ _ _) in Hphases.
  destruct (@GrainFacts.compare_tables ra ca rp cp fa fp d Hca Hcp Ha1 eq_refl)
    as [Hne Heq].
  destruct (Nat.eq_dec ra rp) as [E | E].
  - subst rp. rewrite (Heq eq_refl) in Hphases. simpl in Hphases.
    injection Hphases as <-.
    unfold TxtWriter_write. cbn [_grain_count d hd shape].
    apply (@write_grains_in_range d ra ca cp fa fp Ha1 eq_refl Hcp ra 0%nat).
    lia.
  - destruct (Hne E) as (a_0 & p_0 & Hraise & _).
    rewrite Hraise in Hphases. discriminate.
Qed.

(** The grain-property file needs a grain table.  When neither the angles
    nor the phases are found (the root, the empty path or a path the file
    does not hold, without clipping), both setters succeed and the grain
    count stays unset; the writer then raises [TypeError], on
    [range(data.grain_count)], before it writes anything. *)
Theorem grain_file_needs_a_grain_table (f : H5.h5file ndarray)
    (angles_path phases_path : string) (r : Reader.t)
    (Hangles : angles_path = "/" \/ angles_path = "" \/ f angles_path = None)
    (Hphases : phases_path = "/" \/ phases_path = "" \/ f phases_path = None)
    (Hclip : Reader.cellFeatureDataClipFirstLine (Reader.settings r) = false)
    (Hguard : Reader.rotate (Reader.settings r) && Reader.dim_is r 30 = false)
    (Hcount : _grain_count (Reader.data r) = None) :
  exists r1 r2,
    Reader.group_angles_setter f angles_path r = Ok r1
    /\ Reader.group_phases_setter f phases_path r1 = Ok r2
    /\ exists msg,
         TxtWriter_write str_float (Reader.data r2)
         = Run "" (Some (Exn (TypeError msg))).
Proof.
  unfold Reader.group_angles_setter.
  rewrite (SetterFacts.dset_safe_absent f Hangles), Hguard. cbn [bind].
  unfold angles_setter, _compare_angles_phases. cbn.
  eexists. eexists. split; [reflexivity|].
  unfold Reader.group_phases_setter.
  rewrite (SetterFacts.dset_safe_absent f Hphases). cbn. rewrite Hclip. cbn.
  unfold phases_setter, _compare_angles_phases. cbn.
  split; [reflexivity|].
  unfold TxtWriter_write. cbn. rewrite Hcount. eexists. reflexivity.
Qed.

End Grains.

Lemma grain_file_after_the_setters_witness :
  exists d1 d2,
    angles_setter (Some (NdArray [1%nat; 2%nat] [10; 20]%R)) Data.init = Ok d1
    /\ phases_setter (Some (NdArray [1%nat; 1%nat] [1%R])) d1 = Ok d2
    /\ TxtWriter_write (fun _ => "v") d2
       = Run ("# 1" ++ newline ++ "v" ++ newline ++ "v" ++ newline ++ "v" ++ newline)
             None.
Proof.
  eexists. eexists. split; [reflexivity|]. split; [reflexivity|].
  exact (@grain_file_after_the_setters (fun _ => "v") Data.init _ _ 1 2 1 1
           [10; 20]%R [1%R] ltac:(lia) ltac:(lia) eq_refl eq_refl).
Defined.

Lemma grain_file_needs_a_grain_table_witness :
  exists r1 r2,
    Reader.group_angles_setter (fun _ => None) "" (Reader.init (Reader.Settings false false))
    = Ok r1
    /\ Reader.group_phases_setter (fun _ => None) "" r1 = Ok r2
    /\ exists msg,
         TxtWriter_write (fun _ => "v") (Reader.data r2)
         = Run "" (Some (Exn (TypeError msg))).
Proof.
  exact (@grain_file_needs_a_grain_table (fun _ => "v") (fun _ => None) "" ""
           (Reader.init (Reader.Settings false false))
           (or_intror (or_introl eq_refl)) (or_intror (or_introl eq_refl))
           eq_refl eq_refl eq_refl).
Defined.

End TxtFacts.

(** ** The user-defined tags of the driving file (writer_dri.py) *)

Module UserTagFacts.

Local Open Scope string_scope.

Lemma user_tags_with_spec (fs : filesystem) (settings : DriWriterSettings)
    (celldata : list celltuple) (f_vtk template : string) :
  Exists (fun c => exists name n, ct_fieldArray c = Some (name, n) /\ n <> 0%Z)
         celldata ->
  exists msg, user_tags fs settings celldata f_vtk template = Raise (TypeError msg).
Proof.
  intros H. revert f_vtk template.
  induction H as [c l (name & n & Hc & Hn) | c l Hl IH]; intros f_vtk template; simpl.
  - rewrite Hc. apply Z.eqb_neq in Hn. rewrite Hn. simpl. eexists. reflexivity.
  - destruct (ct_fieldArray c) as [[name n]|]; simpl; [|apply IH].
    destruct (n =? 0)%Z; simpl; [apply IH | eexists; reflexivity].
Qed.

(** A FIELD array stops the driving-file writer: with a structured-grid file
    given and found on disk, the replacement of the user-defined tags raises
    [TypeError] as soon as one tuple of the cell data has a field spec with
    a number of components other than 0, whatever the tags and the template
    are. *)
Theorem field_array_stops_the_user_tags (fs : filesystem) (data : Data.t)
    (settings : DriWriterSettings) (celldata : list celltuple)
    (f_vtk template : string)
    (Hvtk : f_vtk <> "") (Hfile : isfile fs f_vtk = true)
    (Hdata : Data._celldata data = Some celldata)
    (Hspec : Exists (fun c => exists name n,
                       ct_fieldArray c = Some (name, n) /\ n <> 0%Z) celldata) :
  exists msg,
    write_user_tags fs data settings f_vtk template = Raise (TypeError msg).
Proof.
  unfold write_user_tags.
  destruct f_vtk as [|c f_vtk]; [congruence|]. simpl negb. cbv iota.
  rewrite Hfile, Hdata. simpl bind.
  apply user_tags_with_spec. exact Hspec.
Qed.

Lemma field_array_stops_the_user_tags_witness :
  exists msg,
    write_user_tags
      (Build_filesystem (fun _ => None) (fun p => p =? "out/grid.vtk") (fun p => p))
      (Data.Make (Some 3%Z) None None None
         (Some [CellTuple (NdArray [1%nat; 1%nat] [2%R]) "a" "double" "FIELD"
                          (Some ("x", 1%Z)) "<tagA>"])
         None None None None None)
      (Build_DriWriterSettings false) "out/grid.vtk" "grid: <tagA>"
    = Raise (TypeError msg).
Proof.
  eapply field_array_stops_the_user_tags;
    [discriminate | reflexivity | reflexivity |].
  apply Exists_cons_hd. exists "x", 1%Z. split; [reflexivity | discriminate].
Defined.

Lemma length_append (a b : string) :
  String.length (a ++ b) = (String.length a + String.length b)%nat.
Proof. induction a as [|c a IH]; simpl; [reflexivity | rewrite IH; reflexivity]. Qed.

Lemma length_interleave (new s : string) :
  String.length (Str.interleave new s)
  = (String.length s + (String.length s + 1) * String.length new)%nat.
Proof.
  induction s as [|c s IH]; simpl.
  - lia.
  - rewrite length_append. simpl. rewrite IH. lia.
Qed.

(** An attribute without a tag floods the template.  The empty tag occurs in
    every text, and replacing it puts the replacement, the path of the
    structured-grid file and the name of the attribute, before every
    character of the template and at its end: the text handed on is longer
    than the template by one replacement per character and one more. *)
Theorem untagged_attribute_floods_the_template (fs : filesystem)
    (settings : DriWriterSettings) (tupl : celltuple) (rest : list celltuple)
    (f_vtk template : string)
    (Htag : ct_tag tupl = "") (Hspec : ct_fieldArray tupl = None) :
  let path := if makePathsAbsolute settings then abspath fs f_vtk else f_vtk in
  let replacement := path ++ " " ++ ct_dataName tupl in
  user_tags fs settings (tupl :: rest) f_vtk template
  = user_tags fs settings rest path (Str.interleave replacement template)
  /\ String.length (Str.interleave replacement template)
     = (String.length template
        + (String.length template + 1) * String.length replacement)%nat
  /\ (0 < String.length replacement)%nat.
Proof.
  intros path replacement. split; [|split].
  - simpl. rewrite Hspec, Htag. simpl bind.
    fold path. fold replacement.
    unfold _replace, Str.replace.
    destruct template; reflexivity.
  - apply length_interleave.
  - unfold replacement. rewrite !length_append. simpl. lia.
Qed.

Lemma untagged_attribute_floods_the_template_witness :
  user_tags (Build_filesystem (fun _ => None) (fun _ => true) (fun p => p))
            (Build_DriWriterSettings false)
            [CellTuple (NdArray [1%nat; 1%nat] [2%R]) "ids" "int" "SCALARS" None ""]
            "g.vtk" "ab"
  = Ok "g.vtk idsag.vtk idsbg.vtk ids".
Proof.
  exact (proj1 (@untagged_attribute_floods_the_template
                  (Build_filesystem (fun _ => None) (fun _ => true) (fun p => p))
                  (Build_DriWriterSettings false)
                  (CellTuple (NdArray [1%nat; 1%nat] [2%R]) "ids" "int" "SCALARS" None "")
                  [] "g.vtk" "ab" eq_refl eq_refl)).
Defined.

End UserTagFacts.

(** ** The cell counts in the driving file (reader.py and writer_dri.py) *)

Module CellTagFacts.

Import H5 Reader.

Lemma nth_error_combine (A B : Type) (l1 : list A) (l2 : list B) (i : nat)
    (a : A) (b : B) :
  nth_error l1 i = Some a -> nth_error l2 i = Some b ->
  nth_error (combine l1 l2) i = Some (a, b).
Proof.
  revert l2 i. induction l1 as [|x l1 IH]; intros [|y l2] [|i]; simpl;
    try discriminate.
  - intros [= ->] [= ->]. reflexivity.
  - apply IH.
Qed.

(** One turn of the loop after another: the tag of the axis is replaced by
    the number of cells, one less than the number of points. *)
Lemma replace_cells_run (cells : list Z) (n : nat) :
  forall (i : nat) (template : string),
  (i + n <= 3)%nat -> (i + n <= List.length cells)%nat ->
  replace_cells i n (map (fun d => (d + 1)%Z) cells) template
  = Ok (fold_left (fun t tc => _replace (fst tc) (Str.str_int (snd tc)) t)
                  (firstn n (skipn i (combine Data.DRI_TAG_CELLS cells)))
                  template).
Proof.
  induction n as [|n IH]; intros i template H3 Hl; [reflexivity|].
  cbn [replace_cells].
  destruct (nth_error Data.DRI_TAG_CELLS i) as [tag|] eqn:Et.
  2:{ apply nth_error_None in Et. simpl in Et. lia. }
  destruct (nth_error cells i) as [c|] eqn:Ec.
  2:{ apply nth_error_None in Ec. lia. }
  unfold item. rewrite nth_error_map, Ec. cbn [option_map bind].
  rewrite (IH (S i)) by lia.
  rewrite (ClassifierFacts.skipn_nth_error _ _ (nth_error_combine _ _ _ Et Ec)).
  cbn [firstn fold_left fst snd]. rewrite Z.add_simpl_r. reflexivity.
Qed.

(** The driving file gets the cell counts of the source back.  The reader
    stores the numbers of points, one more than the numbers of cells read;
    the driving-file writer replaces the tags [<cellsX>], [<cellsY>] and
    [<cellsZ>] of the first [n] axes by one less than what is stored: by
    the numbers read (when the reader does not exchange two axes). *)
Theorem driving_file_gets_the_cell_counts (f : h5file (list Z)) (value : string)
    (r : Reader.t) (cells : list Z) (n : nat) (template : string)
    (Hfound : f value = Some (Dataset cells))
    (Hsame : rotate (settings r) && dim_is r 3 = false)
    (H3 : (n <= 3)%nat) (Hcells : (n <= List.length cells)%nat) :
  exists r' dims,
    group_dimensions_setter f value r = Ok r'
    /\ Data.dimensions (data r') = Some dims
    /\ replace_cells 0 n dims template
       = Ok (fold_left (fun t tc => _replace (fst tc) (Str.str_int (snd tc)) t)
                       (firstn n (combine Data.DRI_TAG_CELLS cells))
                       template).
Proof.
  unfold group_dimensions_setter.
  rewrite (DimensionFacts.dset_content_found f value Hfound). cbn [bind].
  rewrite Hsame. cbn [bind].
  eexists. eexists. split; [reflexivity|]. split; [reflexivity|].
  apply (@replace_cells_run cells n 0%nat template); simpl; lia.
Qed.

Lemma driving_file_gets_the_cell_counts_witness :
  exists r' dims,
    group_dimensions_setter
      (fun p => if p =? "/geometry/DIMENSIONS" then Some (Dataset [3; 4; 1]%Z) else None)
      "/geometry/DIMENSIONS" (Reader.Make (Settings false false) (Some 2%Z) Data.init)
    = Ok r'
    /\ Data.dimensions (data r') = Some dims
    /\ replace_cells 0 2 dims "grid <cellsX> x <cellsY>" = Ok "grid 3 x 4".
Proof.
  exact (@driving_file_gets_the_cell_counts
           (fun p => if p =? "/geometry/DIMENSIONS"
                     then Some (Dataset [3; 4; 1]%Z) else None)
           "/geometry/DIMENSIONS" (Reader.Make (Settings false false) (Some 2%Z) Data.init)
           [3; 4; 1]%Z 2 "grid <cellsX> x <cellsY>" eq_refl eq_refl
           ltac:(lia) ltac:(simpl; lia)).
Defined.

End CellTagFacts.

